(** * play5: the multi-provider tag-suggestion layer

    A shallow embedding of the AI abstraction layer of the note-taking
    application:

    - [src/server/ai/huggingface.ts]  (class [HuggingFaceService]),
    - [src/server/ai/openai.ts]       (class [OpenAIService]),
    - [src/server/ai/google.ts]       (class [GoogleAIService]),
    - [src/server/ai/index.ts]        (class [UnifiedAIService], three providers),
    - [src/server/ai/aiService.ts]    (class [UnifiedAIService], two providers
                                       with a fallback hop),
    - [src/server/operations.ts]      (the operations on items, tags and the
                                       AI service).

    Conventions of the embedding.

    - A JavaScript string is the list of its UTF-16 code units; a code unit is
      an [N].  [String.prototype.length] is the length of the list.
    - A JavaScript number is a rational, the value of the binary64 number.
      The scorer is given twice: with exact sums
      ([HuggingFaceService.calculateTagRelevance]), which the statements on
      ranges, thresholds and ranking use, and with the rounding of the
      runtime ([HuggingFaceService64.calculateTagRelevance]), which the
      statement of the score itself uses; [calculateTagRelevance_beside]
      relates the two.
    - An [async] function is a computation in the monad [IO]: it reads an
      environment (the remote endpoints, [process.env]), appends every remote
      request it issues to a log, and either returns or throws.
    - [console.log], [console.warn] and [console.error] are not modelled. *)

From Stdlib Require Import String Ascii.
From Stdlib Require Import List NArith ZArith QArith Qminmax Qround Qpower Bool.
From Stdlib Require Import Lia Lqa Permutation.
Import ListNotations.

Set Implicit Arguments.

(* ================================================================= *)
(** ** JavaScript strings *)

Module JS.

Definition char := N.
Definition jsstring := list char.

(** A string literal of the source, one code unit per character. *)
Definition js (s : String.string) : jsstring :=
  map Ascii.N_of_ascii (String.list_ascii_of_string s).
Arguments js s%_string.

(** The double quote, U+0022. *)
Definition dquote : jsstring := [34%N].
(** The line feed, U+000A. *)
Definition newline : jsstring := [10%N].

Definition space : char := 32%N.
Definition comma : char := 44%N.
Definition lineFeed : char := 10%N.

Fixpoint eqb (s t : jsstring) : bool :=
  match s, t with
  | [], [] => true
  | c :: s', d :: t' => N.eqb c d && eqb s' t'
  | _, _ => false
  end.

(** [s.startsWith(p)] *)
Fixpoint startsWith (s p : jsstring) : bool :=
  match p, s with
  | [], _ => true
  | d :: p', c :: s' => N.eqb c d && startsWith s' p'
  | _ :: _, [] => false
  end.

(** [s.includes(sub)] *)
Fixpoint includes (s sub : jsstring) : bool :=
  startsWith s sub ||
  match s with
  | [] => false
  | _ :: s' => includes s' sub
  end.

(** [s.substring(0, n)] *)
Definition substring0 (n : nat) (s : jsstring) : jsstring := firstn n s.

(** [arr.includes(x)] on an array of strings. *)
Definition arrayIncludes (arr : list jsstring) (x : jsstring) : bool :=
  existsb (eqb x) arr.

(** [s.split(sep)] for a separator string of one code unit: every
    occurrence separates, so adjacent separators give empty pieces. *)
Fixpoint splitChar (sep : char) (s : jsstring) : list jsstring :=
  match s with
  | [] => [[]]
  | c :: s' =>
      if N.eqb c sep then [] :: splitChar sep s'
      else match splitChar sep s' with
           | piece :: rest => (c :: piece) :: rest
           | [] => [[c]]
           end
  end.

(** [s.split(/[...]+/)] for a character class [cls]: a maximal run of class
    members is one separator.  A run at the start or at the end of [s]
    leaves an empty piece there, as in ECMAScript. *)
Fixpoint splitRuns (cls : char -> bool) (s : jsstring) : list jsstring :=
  match s with
  | [] => [[]]
  | c :: s' =>
      if cls c then
        match s' with
        | c' :: _ => if cls c' then splitRuns cls s' else [] :: splitRuns cls s'
        | [] => [] :: splitRuns cls s'
        end
      else match splitRuns cls s' with
           | piece :: rest => (c :: piece) :: rest
           | [] => [[c]]
           end
  end.

(** [arr[0]] of the array a [split] returned (never empty). *)
Definition first (pieces : list jsstring) : jsstring := hd [] pieces.

Definition inRange (lo hi c : N) : bool := N.leb lo c && N.leb c hi.

(** [/[a-zA-Z]/] *)
Definition isAsciiLetter (c : char) : bool :=
  inRange 65 90 c || inRange 97 122 c.

Definition isDigit (c : char) : bool := inRange 48 57 c.

(** [\w] is [[A-Za-z0-9_]] and [\W] its complement. *)
Definition isWordChar (c : char) : bool :=
  isAsciiLetter c || isDigit c || N.eqb c 95.
Definition isNonWordChar (c : char) : bool := negb (isWordChar c).

(** ECMAScript WhiteSpace and LineTerminator code points: what [trim]
    strips and what [\s] matches. *)
Definition isWhiteSpace (c : char) : bool :=
  inRange 9 13 c || N.eqb c 32 || N.eqb c 160 || N.eqb c 5760 ||
  inRange 8192 8202 c || N.eqb c 8232 || N.eqb c 8233 || N.eqb c 8239 ||
  N.eqb c 8287 || N.eqb c 12288 || N.eqb c 65279.

Fixpoint dropWhile (p : char -> bool) (s : jsstring) : jsstring :=
  match s with
  | [] => []
  | c :: s' => if p c then dropWhile p s' else s
  end.

Definition trimStart (s : jsstring) : jsstring := dropWhile isWhiteSpace s.
Definition trimEnd (s : jsstring) : jsstring := rev (trimStart (rev s)).
(** [s.trim()] *)
Definition trim (s : jsstring) : jsstring := trimEnd (trimStart s).

(** [/re/.test(s)] for a one-character class without anchors. *)
Definition testClass (cls : char -> bool) (s : jsstring) : bool := existsb cls s.

(** [arr.join(sep)] *)
Fixpoint join (sep : jsstring) (arr : list jsstring) : jsstring :=
  match arr with
  | [] => []
  | [x] => x
  | x :: rest => x ++ sep ++ join sep rest
  end.

(** [a || b] where [a] may be [undefined]: the empty string is falsy too. *)
Definition orElse (a : option jsstring) (b : jsstring) : jsstring :=
  match a with
  | Some ((_ :: _) as s) => s
  | _ => b
  end.

(** [!!a] for a string that may be [undefined]. *)
Definition truthy (a : option jsstring) : bool :=
  match a with
  | Some (_ :: _) => true
  | _ => false
  end.

(** [String.prototype.toLowerCase] on the code units below U+0100, where it
    is a map on single code units: A-Z and the Latin-1 capitals U+00C0 to
    U+00DE (U+00D7, the multiplication sign, apart) move up by 32. *)
Definition lowerLatin1 (c : char) : char :=
  if inRange 65 90 c || (inRange 192 222 c && negb (N.eqb c 215))
  then (c + 32)%N else c.
Definition toLowerCaseLatin1 (s : jsstring) : jsstring := map lowerLatin1 s.

End JS.

Import JS.

Open Scope Q_scope.

(** [a > b] on numbers. *)
Definition Qgtb (a b : Q) : bool := negb (Qle_bool a b).

(** [n || 0] where [n] may be [undefined]. *)
Definition numOrZero (n : option Q) : Q :=
  match n with
  | Some q => q
  | None => 0
  end.

(** [arr.sort(cmp)] with a consistent comparator: the stable sort, an element
    staying behind another exactly when [cmp] of the two is positive. *)
Section Sort.
Variable A : Type.
Variable cmp : A -> A -> Q.

Fixpoint insertBy (x : A) (l : list A) : list A :=
  match l with
  | [] => [x]
  | y :: l' => if Qgtb (cmp x y) 0 then y :: insertBy x l' else x :: l
  end.

Definition sortBy (l : list A) : list A := fold_right insertBy [] l.
End Sort.

(* ================================================================= *)
(** ** Thrown values, outcomes and the monad of asynchronous code *)

(** What a [catch] clause can receive. *)
Inductive exn : Type :=
| Error (message : jsstring)                     (* [instanceof Error] *)
| HttpError (statusCode : N) (message : jsstring) (* wasp's subclass of [Error] *)
| NonError.                                       (* any other thrown value *)

(** [error instanceof Error ? error.message : 'Unknown error'] *)
Definition errorMessage (error : exn) : jsstring :=
  match error with
  | Error message => message
  | HttpError _ message => message
  | NonError => js "Unknown error"
  end.

Inductive outcome (A : Type) : Type :=
| Returned (a : A)
| Thrown (e : exn).
Arguments Returned {A} a.
Arguments Thrown {A} e.

Module Pure.
(** Synchronous code that may throw. *)
Definition bind {A B} (c : outcome A) (k : A -> outcome B) : outcome B :=
  match c with
  | Returned a => k a
  | Thrown e => Thrown e
  end.

(** [arr.filter(f)] with a callback that may throw: elements are visited
    in order and the first throw ends the walk. *)
Fixpoint filterM {A} (f : A -> outcome bool) (l : list A) : outcome (list A) :=
  match l with
  | [] => Returned []
  | x :: l' =>
      bind (f x) (fun keep =>
      bind (filterM f l') (fun rest =>
      Returned (if keep then x :: rest else rest)))
  end.
End Pure.

Section IO.
(** [Env] is what the code reads from outside, [Ev] what it is seen to
    do; a computation extends the log of events and returns or throws. *)
Variables Env Ev : Type.

Definition IO (A : Type) : Type := Env -> list Ev -> outcome A * list Ev.

Definition ret {A} (a : A) : IO A := fun _ log => (Returned a, log).

Definition throw {A} (e : exn) : IO A := fun _ log => (Thrown e, log).

Definition bind {A B} (c : IO A) (k : A -> IO B) : IO B :=
  fun w log =>
    match c w log with
    | (Returned a, log') => k a w log'
    | (Thrown e, log') => (Thrown e, log')
    end.

(** [try { body } catch (error) { handler }] *)
Definition tryCatch {A} (body : IO A) (handler : exn -> IO A) : IO A :=
  fun w log =>
    match body w log with
    | (Returned a, log') => (Returned a, log')
    | (Thrown e, log') => handler e w log'
    end.

Definition asks {A} (f : Env -> A) : IO A := fun w log => (Returned (f w), log).

Definition lift {A} (c : outcome A) : IO A := fun _ log => (c, log).

(** One remote call: the event is logged, and the environment decides,
    from the log so far, what the call gives. *)
Definition perform {A} (ev : Ev) (answer : Env -> list Ev -> outcome A) : IO A :=
  fun w log => (answer w (log ++ [ev]), log ++ [ev]).

(** [for (const x of l) { ... }] collecting one result per element. *)
Fixpoint forEach {A B} (f : A -> IO B) (l : list A) : IO (list B) :=
  match l with
  | [] => ret []
  | x :: l' => bind (f x) (fun y => bind (forEach f l') (fun ys => ret (y :: ys)))
  end.
End IO.

Arguments ret {Env Ev A} a.
Arguments throw {Env Ev A} e.
Arguments bind {Env Ev A B} c k.
Arguments tryCatch {Env Ev A} body handler.
Arguments asks {Env Ev A} f.
Arguments lift {Env Ev A} c.
Arguments perform {Env Ev A} ev answer.
Arguments forEach {Env Ev A B} f l.

Declare Scope io_scope.
Delimit Scope io_scope with io.
Notation "x <- c ;; k" := (bind c (fun x => k))
  (at level 100, c at next level, right associativity) : io_scope.
Notation "c ;;; k" := (bind c (fun _ => k))
  (at level 100, right associativity) : io_scope.
Open Scope io_scope.

(* ================================================================= *)
(** ** The outside world of the three provider clients *)

(** Values [JSON.parse] can produce. *)
#[warnings="-register-all"]
Inductive json : Type :=
| JNull
| JBool (b : bool)
| JNumber (q : Q)
| JString (s : jsstring)
| JArray (items : list json)
| JObject (fields : list (jsstring * json)).

(** Built-ins of the runtime the code calls and the model does not define:
    [String.prototype.toLowerCase] (Unicode case mapping) and [JSON.parse]. *)
Record Platform : Type := {
  toLowerCase : jsstring -> jsstring;
  JSON_parse : jsstring -> outcome json
}.

(** The remote calls of the three client libraries, with the arguments the
    source passes. *)
Inductive request : Type :=
| HfTextClassification (model inputs : jsstring)
| HfTokenClassification (model inputs : jsstring)
| HfZeroShotClassification (model inputs : jsstring) (candidate_labels : list jsstring)
| HfTextGeneration (model inputs : jsstring) (max_length temperature : Q) (do_sample : bool)
| OpenAIChatCompletion (model content : jsstring) (max_tokens : Q) (temperature : option Q)
| GoogleGenerateContent (model : jsstring) (generationConfig : option (Q * Q)) (prompt : jsstring).

(** One item of a token-classification answer, as [extractEntities] reads it. *)
Record RawEntity : Type := {
  raw_entity_group : option jsstring;
  raw_entity : option jsstring;
  raw_confidence : option Q;
  raw_score : option Q;
  raw_word : jsstring;
  raw_start : N;
  raw_end : N
}.

(** A zero-shot answer, as [classifyText] reads it. *)
Record ZeroShotOutput : Type := {
  zs_scores : option (list Q);
  zs_labels : option (list jsstring)
}.

(** [process.env] and the remote endpoints.  An endpoint sees the log of
    requests up to and including its own, so a mocked transport may answer
    each call differently. *)
Record World : Type := {
  processEnv : jsstring -> option jsstring;
  textClassification : list request -> outcome unit;
  tokenClassification : list request -> outcome (list RawEntity);
  zeroShotClassification : list request -> outcome ZeroShotOutput;
  (** [result.generated_text] *)
  textGeneration : list request -> outcome (option jsstring);
  (** [response.choices[0]?.message?.content] *)
  chatCompletionsCreate : list request -> outcome (option jsstring);
  (** [(await model.generateContent(prompt)).response.text()] *)
  generateContent : list request -> outcome jsstring
}.

(** The provider clients run in [IO World request]. *)
Definition Net (A : Type) : Type := IO World request A.

Module Client.
(** Status record shared by the three clients
    ([AIServiceStatus], [OpenAIServiceStatus], [GoogleAIServiceStatus]). *)
Record AIServiceStatus : Type := {
  connected : bool;
  apiKeyConfigured : bool;
  error : option jsstring
}.

(** The methods the unified services call on a client.  The services are
    written against this interface, so they can be run on the three
    clients of the repository and on stubs that throw. *)
Record t (Env Ev : Type) : Type := {
  testConnection : IO Env Ev AIServiceStatus;
  suggestTags : jsstring -> list jsstring -> IO Env Ev (list jsstring);
  parseNote : jsstring -> IO Env Ev (list jsstring);
  generateText : jsstring -> Q -> IO Env Ev jsstring
}.
End Client.
Import Client.

(** The three providers, and the names the unified service knows them by. *)
Inductive ProviderName : Type := HuggingFace | OpenAI | Google.


Record ClassificationResult : Type := {
  label : jsstring;
  score : Q
}.

(** [(a, b) => b.score - a.score] *)
Definition byScoreDescending (a b : ClassificationResult) : Q := score b - score a.

(** A property read [obj[key]] on an object literal: an own property, a
    property inherited from [Object.prototype], or [undefined]. *)
Inductive property (A : Type) : Type :=
| Own (v : A)
| Inherited
| Undefined.
Arguments Own {A} v.
Arguments Inherited {A}.
Arguments Undefined {A}.

Definition objectPrototypeKeys : list jsstring :=
  [js "constructor"; js "__defineGetter__"; js "__defineSetter__";
   js "hasOwnProperty"; js "__lookupGetter__"; js "__lookupSetter__";
   js "isPrototypeOf"; js "propertyIsEnumerable"; js "toString";
   js "valueOf"; js "__proto__"; js "toLocaleString"].

Fixpoint ownProperty {A} (obj : list (jsstring * A)) (key : jsstring) : option A :=
  match obj with
  | [] => None
  | (k, v) :: obj' => if JS.eqb k key then Some v else ownProperty obj' key
  end.

Definition getProperty {A} (obj : list (jsstring * A)) (key : jsstring) : property A :=
  match ownProperty obj key with
  | Some v => Own v
  | None => if arrayIncludes objectPrototypeKeys key then Inherited else Undefined
  end.

(* ================================================================= *)
(** ** [src/server/ai/huggingface.ts] *)

Module HuggingFaceService.
Section WithPlatform.
Variable pf : Platform.

(** Module-level constants, read from [process.env] when the module loads. *)
Definition HF_API_KEY (w : World) : option jsstring :=
  processEnv w (js "HUGGINGFACE_API_KEY").
Definition HF_MODEL_NER (w : World) : jsstring :=
  orElse (processEnv w (js "HF_MODEL_NER"))
         (js "dbmdz/bert-large-cased-finetuned-conll03-english").
Definition HF_MODEL_CLASSIFICATION (w : World) : jsstring :=
  orElse (processEnv w (js "HF_MODEL_CLASSIFICATION")) (js "distilbert-base-uncased").
Definition HF_MODEL_TEXT_GENERATION (w : World) : jsstring :=
  orElse (processEnv w (js "HF_MODEL_TEXT_GENERATION")) (js "gpt2").

Definition sentimentModel : jsstring :=
  js "cardiffnlp/twitter-roberta-base-sentiment-latest".

Definition notConfigured : jsstring := js "HUGGINGFACE_API_KEY not configured".

(** [async testConnection()] *)
Definition testConnection : Net AIServiceStatus :=
  tryCatch
    (key <- asks HF_API_KEY ;;
     if negb (truthy key) then
       ret {| connected := false; apiKeyConfigured := false;
              error := Some notConfigured |}
     else
       perform (HfTextClassification sentimentModel (js "Hello world, this is a test."))
               textClassification ;;;
       ret {| connected := true; apiKeyConfigured := true; error := None |})
    (fun error =>
       key <- asks HF_API_KEY ;;
       ret {| connected := false; apiKeyConfigured := truthy key;
              error := Some (errorMessage error) |}).

Record NEREntity : Type := {
  entity_group : option jsstring;
  confidence : Q;
  word : jsstring;
  start : N;
  end_ : N
}.

(** [item.entity_group || item.entity] *)
Definition strOr (a b : option jsstring) : option jsstring :=
  if truthy a then a else b.

(** [item.confidence || item.score || 0]: zero is falsy. *)
Definition numOr (a : option Q) (b : Q) : Q :=
  match a with
  | Some q => if Qeq_bool q 0 then b else q
  | None => b
  end.

(** [async extractEntities(text)] *)
Definition extractEntities (text : jsstring) : Net (list NEREntity) :=
  tryCatch
    (key <- asks HF_API_KEY ;;
     if negb (truthy key) then throw (Error notConfigured)
     else
       model <- asks HF_MODEL_NER ;;
       result <- perform (HfTokenClassification model text) tokenClassification ;;
       ret (map (fun item =>
                   {| entity_group := strOr (raw_entity_group item) (raw_entity item);
                      confidence := numOr (raw_confidence item) (numOr (raw_score item) 0);
                      word := raw_word item;
                      start := raw_start item;
                      end_ := raw_end item |}) result))
    (fun error => throw (Error (js "NER extraction failed: " ++ errorMessage error))).

(** [labels.map((label, index) => ({ label, score: scores[index] || 0 }))] *)
Fixpoint withScores (labels : list jsstring) (scores : list Q) : list ClassificationResult :=
  match labels with
  | [] => []
  | l :: labels' =>
      {| label := l; score := numOrZero (hd_error scores) |}
        :: withScores labels' (tl scores)
  end.

(** [async classifyText(text, candidateLabels)] *)
Definition classifyText (text : jsstring) (candidateLabels : list jsstring)
  : Net (list ClassificationResult) :=
  tryCatch
    (key <- asks HF_API_KEY ;;
     if negb (truthy key) then throw (Error notConfigured)
     else
       configured <- asks HF_MODEL_CLASSIFICATION ;;
       let classificationModel :=
         if JS.eqb configured (js "distilbert-base-uncased")
         then js "facebook/bart-large-mnli" else configured in
       result <- perform (HfZeroShotClassification classificationModel text candidateLabels)
                         zeroShotClassification ;;
       let scores := match zs_scores result with Some l => l | None => [] end in
       let labels := match zs_labels result with Some l => l | None => [] end in
       ret (withScores labels scores))
    (fun error => throw (Error (js "Text classification failed: " ++ errorMessage error))).

(** [async generateText(prompt, maxLength = 100)] *)
Definition generateText (prompt : jsstring) (maxLength : Q) : Net jsstring :=
  tryCatch
    (key <- asks HF_API_KEY ;;
     if negb (truthy key) then throw (Error notConfigured)
     else
       model <- asks HF_MODEL_TEXT_GENERATION ;;
       generated_text <- perform (HfTextGeneration model prompt maxLength 0.7 true)
                                 textGeneration ;;
       ret (orElse generated_text []))
    (fun error => throw (Error (js "Text generation failed: " ++ errorMessage error))).

(** The literal of [getContextMatches]. *)
Definition contextMappings : list (jsstring * list jsstring) :=
  [ (js "food", [js "eat"; js "cook"; js "meal"; js "dinner"; js "lunch";
                 js "breakfast"; js "recipe"; js "ingredient"]);
    (js "shopping", [js "buy"; js "purchase"; js "store"; js "market"; js "get"; js "need"]);
    (js "work", [js "meeting"; js "project"; js "deadline"; js "office"; js "email"; js "task"]);
    (js "health", [js "doctor"; js "medicine"; js "exercise"; js "gym"; js "hospital"]);
    (js "travel", [js "trip"; js "vacation"; js "flight"; js "hotel"; js "visit"]);
    (js "home", [js "house"; js "clean"; js "repair"; js "garden"; js "room"]);
    (js "finance", [js "money"; js "pay"; js "bill"; js "bank"; js "budget"; js "cost"]) ].

(** [private getContextMatches(content, tag)].  [contextMappings[tagKey]]
    walks the prototype chain: for a key such as "constructor" it is a
    function, which is truthy and has no [filter], so the call throws a
    [TypeError]. *)
Definition getContextMatches (content tag : jsstring) : outcome nat :=
  let tagKey := toLowerCase pf tag in
  match getProperty contextMappings tagKey with
  | Own keywords => Returned (length (filter (fun keyword => includes content keyword) keywords))
  | Undefined => Returned 0%nat
  | Inherited => Thrown (Error (js "keywords.filter is not a function"))
  end.

(** The two nested loops of [calculateTagRelevance]. *)
Definition wordStep (contentWord : jsstring) (score : Q) (tagWord : jsstring) : Q :=
  if JS.eqb contentWord tagWord then score + 0.6
  else if startsWith contentWord (substring0 3 tagWord)
          || startsWith tagWord (substring0 3 contentWord)
       then score + 0.3
       else score.

Definition wordLoop (contentWords tagWords : list jsstring) (score : Q) : Q :=
  fold_left (fun score contentWord => fold_left (wordStep contentWord) tagWords score)
            contentWords score.

Definition longWords (s : jsstring) : list jsstring :=
  filter (fun word => (2 <? length word)%nat) (splitRuns isNonWordChar s).

(** [private calculateTagRelevance(content, tag)] *)
Definition calculateTagRelevance (content tag : jsstring) : outcome Q :=
  let contentLower := toLowerCase pf content in
  let tagLower := toLowerCase pf tag in
  let score := 0 in
  let score := if includes contentLower tagLower then score + 0.8 else score in
  let score :=
    if includes tagLower (first (splitChar space contentLower))
       || existsb (fun word => includes word tagLower) (splitChar space contentLower)
    then score + 0.4 else score in
  let contentWords := longWords contentLower in
  let tagWords := longWords tagLower in
  let score := wordLoop contentWords tagWords score in
  Pure.bind (getContextMatches contentLower tagLower) (fun contextMatches =>
  let score := score + inject_Z (Z.of_nat contextMatches) * 0.4 in
  Returned (Qmin score 1.0)).

(** [private fallbackKeywordMatching(itemContent, availableTags)].  The
    third disjunct is only evaluated, and can only throw, when the first
    two are false. *)
Definition fallbackKeywordMatching (itemContent : jsstring) (availableTags : list jsstring)
  : outcome (list jsstring) :=
  let content := toLowerCase pf itemContent in
  Pure.bind
    (Pure.filterM
       (fun tag =>
          let tagLower := toLowerCase pf tag in
          if includes content tagLower
             || includes tagLower (first (splitChar space (toLowerCase pf content)))
          then Returned true
          else Pure.bind (calculateTagRelevance itemContent tag)
                         (fun relevance => Returned (Qgtb relevance 0.3)))
       availableTags)
    (fun matches => Returned (firstn 3 matches)).

Record TagScore : Type := { tag : jsstring; tagScore : Q }.

(** [(a, b) => b.score - a.score] on the records of the heuristic path. *)
Definition byTagScoreDescending (a b : TagScore) : Q := tagScore b - tagScore a.

Definition relatedPrompt (tag itemContent : jsstring) : jsstring :=
  js "Is the following text related to " ++ dquote ++ tag ++ dquote
     ++ js "? Text: " ++ dquote ++ itemContent ++ dquote.

(** The body of the [for (const tag of availableTags)] loop. *)
Definition scoreTag (itemContent tag : jsstring) : Net TagScore :=
  tryCatch
    (perform (HfTextClassification sentimentModel (relatedPrompt tag itemContent))
             textClassification ;;;
     relevanceScore <- lift (calculateTagRelevance itemContent tag) ;;
     ret {| tag := tag; tagScore := relevanceScore |})
    (fun _ =>
       fallbackScore <- lift (calculateTagRelevance itemContent tag) ;;
       ret {| tag := tag; tagScore := fallbackScore |}).

(** [private async suggestTagsWithDistilBERT(itemContent, availableTags)] *)
Definition suggestTagsWithDistilBERT (itemContent : jsstring) (availableTags : list jsstring)
  : Net (list jsstring) :=
  tryCatch
    (key <- asks HF_API_KEY ;;
     if negb (truthy key) then throw (Error notConfigured)
     else
       tagScores <- forEach (scoreTag itemContent) availableTags ;;
       let topTags :=
         map tag
             (firstn 3
                (sortBy byTagScoreDescending
                   (filter (fun result => Qgtb (tagScore result) 0.2) tagScores))) in
       if (0 <? length topTags)%nat then ret topTags
       else lift (fallbackKeywordMatching itemContent availableTags))
    (fun _ => lift (fallbackKeywordMatching itemContent availableTags)).

(** [async suggestTags(itemContent, availableTags)] *)
Definition suggestTags (itemContent : jsstring) (availableTags : list jsstring)
  : Net (list jsstring) :=
  tryCatch
    (configured <- asks HF_MODEL_CLASSIFICATION ;;
     if JS.eqb configured (js "distilbert-base-uncased") then
       suggestTagsWithDistilBERT itemContent availableTags
     else
       classification <- classifyText itemContent availableTags ;;
       let topTags :=
         map label
             (firstn 3
                (sortBy byScoreDescending
                   (filter (fun result => Qgtb (score result) 0.1) classification))) in
       ret topTags)
    (fun _ => ret []).

(** [/[.!?]/] *)
Definition isSentenceEnd (c : char) : bool :=
  N.eqb c 46 || N.eqb c 33 || N.eqb c 63.

(** The fragments [parseNote] keeps: split on [/[.!?]+/], trimmed, longer
    than 10 code units, with a letter. *)
Definition sentencesOf (noteText : jsstring) : list jsstring :=
  filter (fun s => testClass isAsciiLetter s)
    (filter (fun s => (10 <? length s)%nat)
       (map trim (splitRuns isSentenceEnd noteText))).

(** [async parseNote(noteText)]; the text of this method is the same in
    the earlier revision of the file that has no heuristic scorer. *)
Definition parseNote (noteText : jsstring) : Net (list jsstring) :=
  tryCatch
    (extractEntities noteText ;;;
     let sentences := sentencesOf noteText in
     if (1 <? length sentences)%nat then ret sentences
     else ret [trim noteText])
    (fun _ => ret [trim noteText]).

End WithPlatform.
End HuggingFaceService.

(** A template literal that spans several lines. *)
Definition lines (ls : list jsstring) : jsstring := join newline ls.

(* ================================================================= *)
(** ** [src/server/ai/openai.ts] *)

Module OpenAIService.
Section WithPlatform.
Variable pf : Platform.

Definition OPENAI_API_KEY (w : World) : option jsstring :=
  processEnv w (js "OPENAI_API_KEY").
Definition OPENAI_MODEL_CHAT (w : World) : jsstring :=
  orElse (processEnv w (js "OPENAI_MODEL_CHAT")) (js "gpt-3.5-turbo").

Definition notConfigured : jsstring := js "OPENAI_API_KEY not configured".

(** [async testConnection()] *)
Definition testConnection : Net AIServiceStatus :=
  tryCatch
    (key <- asks OPENAI_API_KEY ;;
     if negb (truthy key) then
       ret {| connected := false; apiKeyConfigured := false;
              error := Some notConfigured |}
     else
       model <- asks OPENAI_MODEL_CHAT ;;
       perform (OpenAIChatCompletion model (js "Hello, this is a test.") 5 None)
               chatCompletionsCreate ;;;
       ret {| connected := true; apiKeyConfigured := true; error := None |})
    (fun error =>
       key <- asks OPENAI_API_KEY ;;
       ret {| connected := false; apiKeyConfigured := truthy key;
              error := Some (errorMessage error) |}).

(** [result.label] and [result.score] on a parsed value: reading a
    property of [null] throws; no prototype defines either name, so on
    anything but an object with that own property the read is [undefined]. *)
Definition readField (result : json) (key : jsstring) : outcome (option json) :=
  match result with
  | JNull => Thrown (Error (js "Cannot read properties of null"))
  | JObject fields => Returned (ownProperty fields key)
  | _ => Returned None
  end.

(** The callback of [results.filter] in [classifyText]:
    [candidateLabels.includes(result.label) && typeof result.score === 'number'
     && result.score > 0].  A kept element is carried on as its label and
    score, the two fields read from it afterwards. *)
Definition relevantResult (candidateLabels : list jsstring) (result : json)
  : outcome (option ClassificationResult) :=
  Pure.bind (readField result (js "label")) (fun l =>
  match l with
  | Some (JString s) =>
      if arrayIncludes candidateLabels s then
        Pure.bind (readField result (js "score")) (fun sc =>
        match sc with
        | Some (JNumber q) =>
            Returned (if Qgtb q 0 then Some {| label := s; score := q |} else None)
        | _ => Returned None
        end)
      else Returned None
  | _ => Returned None
  end).

Fixpoint filterResults (candidateLabels : list jsstring) (results : list json)
  : outcome (list ClassificationResult) :=
  match results with
  | [] => Returned []
  | result :: results' =>
      Pure.bind (relevantResult candidateLabels result) (fun kept =>
      Pure.bind (filterResults candidateLabels results') (fun rest =>
      Returned (match kept with Some r => r :: rest | None => rest end)))
  end.

(** [results.filter(...)] on whatever [JSON.parse] gave: only an array has
    a callable [filter]. *)
Definition filterParsed (candidateLabels : list jsstring) (parsed : json)
  : outcome (list ClassificationResult) :=
  match parsed with
  | JArray results => filterResults candidateLabels results
  | _ => Thrown (Error (js "results.filter is not a function"))
  end.

Definition classifyPrompt (text : jsstring) (candidateLabels : list jsstring) : jsstring :=
  lines
    [ js "Classify the following text into one or more of these categories: "
        ++ join (js ", ") candidateLabels ++ js ".";
      js "Return a JSON array of objects with " ++ dquote ++ js "label" ++ dquote
        ++ js " and " ++ dquote ++ js "score" ++ dquote
        ++ js " (0-1 confidence) properties.";
      js "Only include categories that are relevant to the text.";
      [];
      js "Text: " ++ dquote ++ text ++ dquote;
      [];
      js "Response (JSON only):" ].

(** [async classifyText(text, candidateLabels)] *)
Definition classifyText (text : jsstring) (candidateLabels : list jsstring)
  : Net (list ClassificationResult) :=
  tryCatch
    (key <- asks OPENAI_API_KEY ;;
     if negb (truthy key) then throw (Error notConfigured)
     else
       model <- asks OPENAI_MODEL_CHAT ;;
       content <- perform (OpenAIChatCompletion model (classifyPrompt text candidateLabels)
                                                200 (Some 0.3))
                          chatCompletionsCreate ;;
       if negb (truthy content) then throw (Error (js "No response from OpenAI"))
       else
         tryCatch
           (lift (Pure.bind (JSON_parse pf (orElse content []))
                            (filterParsed candidateLabels)))
           (fun _ => ret []))
    (fun error =>
       throw (Error (js "OpenAI text classification failed: " ++ errorMessage error))).

(** [async generateText(prompt, maxTokens = 100)] *)
Definition generateText (prompt : jsstring) (maxTokens : Q) : Net jsstring :=
  tryCatch
    (key <- asks OPENAI_API_KEY ;;
     if negb (truthy key) then throw (Error notConfigured)
     else
       model <- asks OPENAI_MODEL_CHAT ;;
       content <- perform (OpenAIChatCompletion model prompt maxTokens (Some 0.7))
                          chatCompletionsCreate ;;
       ret (orElse content []))
    (fun error =>
       throw (Error (js "OpenAI text generation failed: " ++ errorMessage error))).

(** [async suggestTags(itemContent, availableTags)] *)
Definition suggestTags (itemContent : jsstring) (availableTags : list jsstring)
  : Net (list jsstring) :=
  tryCatch
    (classification <- classifyText itemContent availableTags ;;
     let topTags :=
       map label
           (firstn 3
              (sortBy byScoreDescending
                 (filter (fun result => Qgtb (score result) 0.1) classification))) in
     ret topTags)
    (fun _ => ret []).

Definition parsePrompt (noteText : jsstring) : jsstring :=
  lines
    [ js "Parse the following note and extract separate actionable items or tasks.";
      js "Return a JSON array of strings, where each string is a distinct item or task.";
      js "If the note contains only one item, return an array with that single item.";
      [];
      js "Note: " ++ dquote ++ noteText ++ dquote;
      [];
      js "Response (JSON array only):" ].

(** [items.filter(item => typeof item === 'string' && item.trim().length > 0)] *)
Fixpoint nonBlankStrings (items : list json) : list jsstring :=
  match items with
  | [] => []
  | JString s :: items' =>
      if (0 <? length (trim s))%nat then s :: nonBlankStrings items'
      else nonBlankStrings items'
  | _ :: items' => nonBlankStrings items'
  end.

(** [async parseNote(noteText)] *)
Definition parseNote (noteText : jsstring) : Net (list jsstring) :=
  tryCatch
    (model <- asks OPENAI_MODEL_CHAT ;;
     content <- perform (OpenAIChatCompletion model (parsePrompt noteText) 200 (Some 0.3))
                        chatCompletionsCreate ;;
     if negb (truthy content) then ret [trim noteText]
     else
       tryCatch
         (items <- lift (JSON_parse pf (orElse content [])) ;;
          match items with
          | JArray ((_ :: _) as items) => ret (nonBlankStrings items)
          | _ => ret [trim noteText]
          end)
         (fun _ => ret [trim noteText]))
    (fun _ => ret [trim noteText]).

End WithPlatform.
End OpenAIService.

(* ================================================================= *)
(** ** [src/server/ai/google.ts] *)

Module GoogleAIService.

Definition GOOGLE_API_KEY (w : World) : option jsstring :=
  processEnv w (js "GOOGLE_API_KEY").
Definition GOOGLE_MODEL (w : World) : jsstring :=
  orElse (processEnv w (js "GOOGLE_MODEL")) (js "gemini-1.5-flash").

(** [genAI], the value of [this.client]: [null] unless the key is set. *)
Definition client (w : World) : option unit :=
  if truthy (GOOGLE_API_KEY w) then Some tt else None.

(** [!GOOGLE_API_KEY || !this.client] *)
Definition unconfigured (w : World) : bool :=
  negb (truthy (GOOGLE_API_KEY w)) || match client w with Some _ => false | None => true end.

Definition notConfigured : jsstring := js "GOOGLE_API_KEY not configured".

(** [async testConnection()] *)
Definition testConnection : Net AIServiceStatus :=
  tryCatch
    (missing <- asks unconfigured ;;
     if missing then
       ret {| connected := false; apiKeyConfigured := false;
              error := Some notConfigured |}
     else
       model <- asks GOOGLE_MODEL ;;
       perform (GoogleGenerateContent model None (js "Hello, test connection."))
               generateContent ;;;
       ret {| connected := true; apiKeyConfigured := true; error := None |})
    (fun error =>
       key <- asks GOOGLE_API_KEY ;;
       ret {| connected := false; apiKeyConfigured := truthy key;
              error := Some (errorMessage error) |}).

Definition suggestPrompt (itemContent : jsstring) (availableTags : list jsstring) : jsstring :=
  lines
    [ js "Given the following text content, suggest the most relevant tags from the available options. Return only the tag names, separated by commas, with no additional text or explanation.";
      [];
      js "Content: " ++ dquote ++ itemContent ++ dquote;
      [];
      js "Available tags: " ++ join (js ", ") availableTags;
      [];
      js "Rules:";
      js "- Select maximum 3 most relevant tags";
      js "- Only use tags from the available list";
      js "- Consider the main topics, themes, and keywords in the content";
      js "- Return tag names only, separated by commas" ].

(** The chain applied to the answer of the model in [suggestTags]. *)
Definition tagsOfAnswer (text : jsstring) (availableTags : list jsstring) : list jsstring :=
  firstn 3
    (filter (fun tag => arrayIncludes availableTags tag)
       (filter (fun tag => (0 <? length tag)%nat)
          (map trim (splitChar comma text)))).

(** [async suggestTags(itemContent, availableTags)] *)
Definition suggestTags (itemContent : jsstring) (availableTags : list jsstring)
  : Net (list jsstring) :=
  tryCatch
    (missing <- asks unconfigured ;;
     if missing then throw (Error notConfigured)
     else
       model <- asks GOOGLE_MODEL ;;
       text <- perform (GoogleGenerateContent model None
                                              (suggestPrompt itemContent availableTags))
                       generateContent ;;
       let suggestedTags := tagsOfAnswer text availableTags in
       ret suggestedTags)
    (fun _ => ret []).

Definition parsePrompt (noteText : jsstring) : jsstring :=
  lines
    [ js "Break down the following text into separate, meaningful items. Each item should be a complete thought or piece of information that can stand alone.";
      [];
      js "Text: " ++ dquote ++ noteText ++ dquote;
      [];
      js "Rules:";
      js "- Split into logical, meaningful segments";
      js "- Each item should be complete and understandable on its own";
      js "- Preserve the original meaning and context";
      js "- Return each item on a new line with no numbering or bullets";
      js "- If the text is already a single coherent item, return it as is";
      [];
      js "Items:" ].

(** The class [[-•*\d\.]]; the bullet is U+2022. *)
Definition isListMark (c : char) : bool :=
  N.eqb c 45 || N.eqb c 8226 || N.eqb c 42 || isDigit c || N.eqb c 46.

(** [item.replace(/^[-•*\d\.]+\s*/, '')] *)
Definition stripListMark (item : jsstring) : jsstring :=
  match item with
  | c :: _ => if isListMark c then dropWhile isWhiteSpace (dropWhile isListMark item)
              else item
  | [] => []
  end.

(** [async parseNote(noteText)] *)
Definition parseNote (noteText : jsstring) : Net (list jsstring) :=
  tryCatch
    (missing <- asks unconfigured ;;
     if missing then throw (Error notConfigured)
     else
       model <- asks GOOGLE_MODEL ;;
       text <- perform (GoogleGenerateContent model None (parsePrompt noteText))
                       generateContent ;;
       let items :=
         filter (fun item => (0 <? length item)%nat)
           (map stripListMark
              (filter (fun item => testClass isAsciiLetter item)
                 (filter (fun item => (10 <? length item)%nat)
                    (map trim (splitChar lineFeed text))))) in
       if (length items =? 0)%nat then ret [trim noteText]
       else ret items)
    (fun _ => ret [trim noteText]).

(** [async generateText(prompt, maxTokens = 150)] *)
Definition generateText (prompt : jsstring) (maxTokens : Q) : Net jsstring :=
  tryCatch
    (missing <- asks unconfigured ;;
     if missing then throw (Error notConfigured)
     else
       model <- asks GOOGLE_MODEL ;;
       text <- perform (GoogleGenerateContent model (Some (maxTokens, 0.7)) prompt)
                       generateContent ;;
       ret (trim text))
    (fun error => throw (Error (js "Text generation failed: " ++ errorMessage error))).

End GoogleAIService.

(** The three clients of the repository behind the client interface: their
    methods, as they run once the module of the client is loaded. *)
Definition hfService (pf : Platform) : Client.t World request :=
  {| Client.testConnection := HuggingFaceService.testConnection;
     Client.suggestTags := HuggingFaceService.suggestTags pf;
     Client.parseNote := HuggingFaceService.parseNote;
     Client.generateText := HuggingFaceService.generateText |}.

Definition openAIService (pf : Platform) : Client.t World request :=
  {| Client.testConnection := OpenAIService.testConnection;
     Client.suggestTags := OpenAIService.suggestTags pf;
     Client.parseNote := OpenAIService.parseNote pf;
     Client.generateText := OpenAIService.generateText |}.

Definition googleAIService : Client.t World request :=
  {| Client.testConnection := GoogleAIService.testConnection;
     Client.suggestTags := GoogleAIService.suggestTags;
     Client.parseNote := GoogleAIService.parseNote;
     Client.generateText := GoogleAIService.generateText |}.

Definition clientOf (pf : Platform) (p : ProviderName) : Client.t World request :=
  match p with
  | HuggingFace => hfService pf
  | OpenAI => openAIService pf
  | Google => googleAIService
  end.

(** The credential each client reads, and the message it reports without. *)
Definition credentialOf (p : ProviderName) (w : World) : option jsstring :=
  match p with
  | HuggingFace => HuggingFaceService.HF_API_KEY w
  | OpenAI => OpenAIService.OPENAI_API_KEY w
  | Google => GoogleAIService.GOOGLE_API_KEY w
  end.

Definition notConfiguredOf (p : ProviderName) : jsstring :=
  match p with
  | HuggingFace => HuggingFaceService.notConfigured
  | OpenAI => OpenAIService.notConfigured
  | Google => GoogleAIService.notConfigured
  end.

(* ================================================================= *)
(** ** [src/server/ai/index.ts] *)

Module UnifiedAIService.

(** [const AI_PROVIDER = process.env.AI_PROVIDER || 'google'], the value
    the constructor stores in [this.provider]. *)
Definition AI_PROVIDER (w : World) : jsstring :=
  orElse (processEnv w (js "AI_PROVIDER")) (js "google").

Record AIServiceStatus : Type := {
  connected : bool;
  apiKeyConfigured : bool;
  provider : jsstring;
  error : option jsstring
}.

(** [{ ...result, provider: name }] *)
Definition withProvider (result : Client.AIServiceStatus) (name : jsstring)
  : AIServiceStatus :=
  {| connected := Client.connected result;
     apiKeyConfigured := Client.apiKeyConfigured result;
     provider := name;
     error := Client.error result |}.

Record TagSuggestion : Type := {
  tags : list jsstring;
  suggestedBy : jsstring;            (* the field [provider] *)
  suggestionError : option jsstring  (* the field [error] *)
}.

Section Service.
Variables Env Ev : Type.
Variables hfService openaiService googleService : Client.t Env Ev.

(** The client the [if]/[else if]/[else] chain of every method picks. *)
Definition selected (provider : jsstring) : Client.t Env Ev :=
  if JS.eqb provider (js "openai") then openaiService
  else if JS.eqb provider (js "google") then googleService
  else hfService.

(** [getProvider()] and [setProvider(provider)] on the field
    [this.provider], which every method below takes as [this_provider]. *)
Definition getProvider (this_provider : jsstring) : jsstring := this_provider.
Definition setProvider (this_provider provider : jsstring) : jsstring := provider.

(** [async testConnectionWithProvider(provider)]; [async testConnection()]
    is the same text on [this.provider]. *)
Definition testConnectionWithProvider (provider : jsstring) : IO Env Ev AIServiceStatus :=
  tryCatch
    (if JS.eqb provider (js "openai") then
       result <- Client.testConnection openaiService ;;
       ret (withProvider result (js "openai"))
     else if JS.eqb provider (js "google") then
       result <- Client.testConnection googleService ;;
       ret (withProvider result (js "google"))
     else
       result <- Client.testConnection hfService ;;
       ret (withProvider result (js "huggingface")))
    (fun error =>
       ret {| connected := false; apiKeyConfigured := false; provider := provider;
              error := Some (errorMessage error) |}).

Definition testConnection (this_provider : jsstring) : IO Env Ev AIServiceStatus :=
  testConnectionWithProvider this_provider.

(** [async suggestTags(itemContent, availableTags)] *)
Definition suggestTags (this_provider : jsstring)
           (itemContent : jsstring) (availableTags : list jsstring)
  : IO Env Ev (list jsstring) :=
  tryCatch
    (if JS.eqb this_provider (js "openai") then
       Client.suggestTags openaiService itemContent availableTags
     else if JS.eqb this_provider (js "google") then
       Client.suggestTags googleService itemContent availableTags
     else
       Client.suggestTags hfService itemContent availableTags)
    (fun _ => ret []).

(** [async suggestTagsWithProvider(itemContent, availableTags, provider)] *)
Definition suggestTagsWithProvider
           (itemContent : jsstring) (availableTags : list jsstring) (provider : jsstring)
  : IO Env Ev TagSuggestion :=
  tryCatch
    (tags <- (if JS.eqb provider (js "openai") then
                Client.suggestTags openaiService itemContent availableTags
              else if JS.eqb provider (js "google") then
                Client.suggestTags googleService itemContent availableTags
              else
                Client.suggestTags hfService itemContent availableTags) ;;
     ret {| tags := tags; suggestedBy := provider; suggestionError := None |})
    (fun error =>
       ret {| tags := []; suggestedBy := provider;
              suggestionError := Some (errorMessage error) |}).

(** [async parseNote(noteText)] *)
Definition parseNote (this_provider : jsstring) (noteText : jsstring)
  : IO Env Ev (list jsstring) :=
  tryCatch
    (if JS.eqb this_provider (js "openai") then
       Client.parseNote openaiService noteText
     else if JS.eqb this_provider (js "google") then
       Client.parseNote googleService noteText
     else
       Client.parseNote hfService noteText)
    (fun _ => ret [trim noteText]).

(** [async generateText(prompt, maxLength = 100)] *)
Definition generateText (this_provider : jsstring) (prompt : jsstring) (maxLength : Q)
  : IO Env Ev jsstring :=
  tryCatch
    (if JS.eqb this_provider (js "openai") then
       Client.generateText openaiService prompt maxLength
     else if JS.eqb this_provider (js "google") then
       Client.generateText googleService prompt maxLength
     else
       Client.generateText hfService prompt maxLength)
    (fun _ => ret []).

End Service.
End UnifiedAIService.

(* ================================================================= *)
(** ** [src/server/ai/aiService.ts] *)

Module FallbackAIService.

(** [type AIProvider = 'huggingface' | 'google'] *)
Inductive AIProvider : Type := huggingface | google.

Definition nameOf (p : AIProvider) : ProviderName :=
  match p with
  | huggingface => HuggingFace
  | google => Google
  end.

Section Service.
Variables Env Ev : Type.
Variables hfService googleService : Client.t Env Ev.

(** The statements of [suggestTags] after the Google branch: HuggingFace
    as the choice or as what is left when Google is not connected. *)
Definition viaHuggingFace (itemContent : jsstring) (availableTags : list jsstring)
  : IO Env Ev (list jsstring) :=
  hfStatus <- Client.testConnection hfService ;;
  if Client.connected hfStatus then
    Client.suggestTags hfService itemContent availableTags
  else ret [].

(** The [try] block of [suggestTags]. *)
Definition attempt (useProvider : AIProvider)
           (itemContent : jsstring) (availableTags : list jsstring)
  : IO Env Ev (list jsstring) :=
  match useProvider with
  | google =>
      googleStatus <- Client.testConnection googleService ;;
      if Client.connected googleStatus then
        Client.suggestTags googleService itemContent availableTags
      else viaHuggingFace itemContent availableTags
  | huggingface => viaHuggingFace itemContent availableTags
  end.

(** [useProvider === 'google' ? 'huggingface' : 'google'] *)
Definition fallbackOf (useProvider : AIProvider) : AIProvider :=
  match useProvider with
  | google => huggingface
  | huggingface => google
  end.

(** [async suggestTags(itemContent, availableTags, provider?)].  The
    method calls itself from its [catch] block, so the model counts the
    nested calls: [None] is a run still going when [fuel] calls have been
    entered. *)
Fixpoint suggestTags (fuel : nat) (defaultProvider : AIProvider)
         (itemContent : jsstring) (availableTags : list jsstring)
         (provider : option AIProvider)
  : IO Env Ev (option (list jsstring)) :=
  match fuel with
  | O => ret None
  | S fuel' =>
      let useProvider := match provider with Some p => p | None => defaultProvider end in
      tryCatch
        (tags <- attempt useProvider itemContent availableTags ;; ret (Some tags))
        (fun _ =>
           let fallbackProvider := fallbackOf useProvider in
           tryCatch
             (suggestTags fuel' defaultProvider itemContent availableTags
                          (Some fallbackProvider))
             (fun _ => ret (Some [])))
  end.

End Service.
End FallbackAIService.

(* ================================================================= *)
(** ** [src/server/operations.ts]: [compareProviders] *)

Module Operations.

Record TagRow : Type := { name : jsstring }.

(** What the operation reads from its [context] and from the clock:
    the signed-in user, the answer of [context.entities.Tag.findMany] and
    [new Date().toISOString()]. *)
Record Context : Type := {
  user : option unit;
  Tag_findMany : outcome (list TagRow);
  now : jsstring
}.

(** An element of the array [Promise.allSettled] resolves to. *)
Inductive PromiseSettledResult (A : Type) : Type :=
| fulfilled (value : A)
| rejected (reason : exn).
Arguments fulfilled {A} value.
Arguments rejected {A} reason.

(** ['fulfilled' | 'rejected'] *)
Inductive SettledStatus : Type := Fulfilled | Rejected.

Definition statusOf {A} (r : PromiseSettledResult A) : SettledStatus :=
  match r with
  | fulfilled _ => Fulfilled
  | rejected _ => Rejected
  end.

(** [reason?.message] *)
Definition reasonMessage (reason : exn) : option jsstring :=
  match reason with
  | Error message => Some message
  | HttpError _ message => Some message
  | NonError => None
  end.

Record ProviderEntry : Type := {
  status : SettledStatus;
  tags : list jsstring;
  error : option jsstring
}.

(** The object literal built for each provider from its settled result. *)
Definition entryOf (r : PromiseSettledResult UnifiedAIService.TagSuggestion) : ProviderEntry :=
  {| status := statusOf r;
     tags := match r with
             | fulfilled value => UnifiedAIService.tags value
             | rejected _ => []
             end;
     error := match r with
              | fulfilled value => UnifiedAIService.suggestionError value
              | rejected reason => reasonMessage reason
              end |}.

(** The two shapes of the object [compareProviders] returns. *)
Inductive CompareResult : Type :=
| Comparison (timestamp input : jsstring) (availableTagCount : nat)
             (huggingface openai google : ProviderEntry)
| Failure (timestamp input error : jsstring).

Section Operation.
Variables Env Ev : Type.
Variables hfService openaiService googleService : Client.t Env Ev.

(** A promise awaited through [Promise.allSettled]: a rejection becomes a
    value. *)
Definition settle {A} (c : IO Env Ev A) : IO Env Ev (PromiseSettledResult A) :=
  fun w log =>
    match c w log with
    | (Returned a, log') => (Returned (fulfilled a), log')
    | (Thrown e, log') => (Returned (rejected e), log')
    end.

Definition suggestWith (text : jsstring) (tagNames : list jsstring) (provider : jsstring)
  : IO Env Ev UnifiedAIService.TagSuggestion :=
  UnifiedAIService.suggestTagsWithProvider hfService openaiService googleService
                                           text tagNames provider.

(** [compareProviders(args, context)].  The three calls are started in
    the order of the array literal; the model also finishes them in that
    order. *)
Definition compareProviders (text : jsstring) (context : Context) : IO Env Ev CompareResult :=
  match user context with
  | None => throw (HttpError 401 (js "Not authorized"))
  | Some _ =>
      tryCatch
        (availableTags <- lift (Tag_findMany context) ;;
         let tagNames := map name availableTags in
         hfResult <- settle (suggestWith text tagNames (js "huggingface")) ;;
         openaiResult <- settle (suggestWith text tagNames (js "openai")) ;;
         googleResult <- settle (suggestWith text tagNames (js "google")) ;;
         ret (Comparison (now context) text (length tagNames)
                         (entryOf hfResult) (entryOf openaiResult) (entryOf googleResult)))
        (fun error => ret (Failure (now context) text (errorMessage error)))
  end.

End Operation.
End Operations.

(* ================================================================= *)
(** ** Stub clients

    A client whose every method is decided by a table: the call is logged
    and the table says what it returns or throws.  This is the mocked
    provider of the unit tests the design calls for. *)

Module Stub.

Inductive call : Type :=
| TestConnection (p : ProviderName)
| SuggestTags (p : ProviderName) (itemContent : jsstring) (availableTags : list jsstring)
| ParseNote (p : ProviderName) (noteText : jsstring)
| GenerateText (p : ProviderName) (prompt : jsstring) (maxLength : Q).

Record Behaviour : Type := {
  onTestConnection : ProviderName -> outcome Client.AIServiceStatus;
  onSuggestTags : ProviderName -> jsstring -> list jsstring -> outcome (list jsstring);
  onParseNote : ProviderName -> jsstring -> outcome (list jsstring);
  onGenerateText : ProviderName -> jsstring -> Q -> outcome jsstring
}.

Definition client (p : ProviderName) : Client.t Behaviour call :=
  {| Client.testConnection :=
       perform (TestConnection p) (fun b _ => onTestConnection b p);
     Client.suggestTags := fun itemContent availableTags =>
       perform (SuggestTags p itemContent availableTags)
               (fun b _ => onSuggestTags b p itemContent availableTags);
     Client.parseNote := fun noteText =>
       perform (ParseNote p noteText) (fun b _ => onParseNote b p noteText);
     Client.generateText := fun prompt maxLength =>
       perform (GenerateText p prompt maxLength)
               (fun b _ => onGenerateText b p prompt maxLength) |}.

(** The entry of [compareProviders] a provider's own behaviour calls for:
    its tags when [suggestTags] returns, no tag and the message when it
    throws. *)
Definition entryFor (b : Behaviour) (p : ProviderName)
           (text : jsstring) (tagNames : list jsstring) : Operations.ProviderEntry :=
  match onSuggestTags b p text tagNames with
  | Returned tags =>
      {| Operations.status := Operations.Fulfilled;
         Operations.tags := tags;
         Operations.error := None |}
  | Thrown e =>
      {| Operations.status := Operations.Fulfilled;
         Operations.tags := [];
         Operations.error := Some (errorMessage e) |}
  end.

(** The providers a chain of [n] failed attempts visits, from [p] on:
    [p], the other one, [p] again, and so on. *)
Fixpoint alternation (p : FallbackAIService.AIProvider) (n : nat) : list ProviderName :=
  match n with
  | O => []
  | S n' => FallbackAIService.nameOf p
              :: alternation (FallbackAIService.fallbackOf p) n'
  end.

(** The [suggestTags] calls in a log, in order. *)
Definition suggestCalls (log : list call) : list ProviderName :=
  flat_map (fun c => match c with SuggestTags p _ _ => [p] | _ => [] end) log.

End Stub.

(* ================================================================= *)
(** ** The relevance score as the specification words it

    [relevance] follows the sentence of the specification about the local
    scoring function, term by term; the theorems below compare it with
    [HuggingFaceService.calculateTagRelevance]. *)

Module RelevanceSpec.
Section Score.
Variable pf : Platform.

Definition Qnat (n : nat) : Q := inject_Z (Z.of_nat n).

Definition bonus (weight : Q) (applies : bool) : Q := if applies then weight else 0.

(** The tokens of a string: split at the non-word characters, tokens
    longer than 2 characters kept. *)
Definition tokens (s : jsstring) : list jsstring :=
  filter (fun t => (2 <? length t)%nat) (splitRuns isNonWordChar s).

(** The first word of the note: what stands before its first space. *)
Definition firstWord (note : jsstring) : jsstring := first (splitChar space note).

(** A partial overlap of a word and the tag: one occurs inside the other. *)
Definition overlaps (word tag : jsstring) : bool :=
  includes tag word || includes word tag.

(** An exact token match, and a 3-character-prefix match: two different
    tokens with the same first three characters. *)
Definition exactMatch (p : jsstring * jsstring) : bool := JS.eqb (fst p) (snd p).
Definition prefixMatch (p : jsstring * jsstring) : bool :=
  negb (JS.eqb (fst p) (snd p)) && JS.eqb (firstn 3 (fst p)) (firstn 3 (snd p)).

Definition countMatches (kind : jsstring * jsstring -> bool)
           (noteTokens tagTokens : list jsstring) : nat :=
  length (filter kind (list_prod noteTokens tagTokens)).

(** The fixed category table as a finite map: the keywords of a key of
    the table, no keyword for any other name. *)
Definition keywordsOf (name : jsstring) : list jsstring :=
  match ownProperty HuggingFaceService.contextMappings name with
  | Some keywords => keywords
  | None => []
  end.

Definition contextHits (note name : jsstring) : nat :=
  length (filter (fun keyword => includes note keyword) (keywordsOf name)).

(** Terms (a), (c) and (d), which the specification and the code share. *)
Definition sharedTerms (note tag : jsstring) : Q :=
  bonus 0.8 (includes note tag)
  + 0.6 * Qnat (countMatches exactMatch (tokens note) (tokens tag))
  + 0.3 * Qnat (countMatches prefixMatch (tokens note) (tokens tag))
  + 0.4 * Qnat (contextHits note tag).

(** The score of the specification: term (b) is 0.4 when the first word
    of the note partially overlaps the tag. *)
Definition relevance (content tag : jsstring) : Q :=
  let note := toLowerCase pf content in
  let name := toLowerCase pf tag in
  Qmin 1.0 (sharedTerms note name + bonus 0.4 (overlaps (firstWord note) name)).

(** Term (b) as the code has it: the tag contains the first word of the
    note, or some space-separated word of the note contains the tag. *)
Definition partialMatch (note name : jsstring) : bool :=
  includes name (firstWord note)
  || existsb (fun word => includes word name) (splitChar space note).

Definition relevanceAmended (content tag : jsstring) : Q :=
  let note := toLowerCase pf content in
  let name := toLowerCase pf tag in
  Qmin 1.0 (sharedTerms note name + bonus 0.4 (partialMatch note name)).

End Score.
End RelevanceSpec.

(** What the design asks of a list of suggested tags, duplicates apart:
    at most three of them, all taken from the vocabulary. *)
Definition atMostThreeFrom (vocabulary suggested : list jsstring) : Prop :=
  (length suggested <= 3)%nat /\ forall x, In x suggested -> In x vocabulary.

(* ================================================================= *)
(** ** Concrete platforms and worlds for the examples *)

Module Examples.

Definition fetchFailed {A} : list request -> outcome A :=
  fun _ => Thrown (Error (js "fetch failed")).

(** [process.env] with the given variables. *)
Definition envOf (vars : list (jsstring * jsstring)) : jsstring -> option jsstring :=
  ownProperty vars.

(** A world with the given environment variables in which every remote
    call fails. *)
Definition offline (vars : list (jsstring * jsstring)) : World :=
  {| processEnv := envOf vars;
     textClassification := fetchFailed;
     tokenClassification := fetchFailed;
     zeroShotClassification := fetchFailed;
     textGeneration := fetchFailed;
     chatCompletionsCreate := fetchFailed;
     generateContent := fetchFailed |}.

(** No credential at all. *)
Definition unconfigured : World := offline [].

(** HuggingFace configured and answering: sentiment classification and
    entity extraction succeed. *)
Definition hfOnline : World :=
  {| processEnv := envOf [(js "HUGGINGFACE_API_KEY", js "hf_key")];
     textClassification := fun _ => Returned tt;
     tokenClassification := fun _ => Returned [];
     zeroShotClassification := fetchFailed;
     textGeneration := fetchFailed;
     chatCompletionsCreate := fetchFailed;
     generateContent := fetchFailed |}.

(** Google configured, the model answering every prompt with [text]. *)
Definition googleAnswering (text : jsstring) : World :=
  {| processEnv := envOf [(js "GOOGLE_API_KEY", js "g_key")];
     textClassification := fetchFailed;
     tokenClassification := fetchFailed;
     zeroShotClassification := fetchFailed;
     textGeneration := fetchFailed;
     chatCompletionsCreate := fetchFailed;
     generateContent := fun _ => Returned text |}.

(** OpenAI configured, the model answering every prompt with [content]. *)
Definition openaiAnswering (content : jsstring) : World :=
  {| processEnv := envOf [(js "OPENAI_API_KEY", js "sk_key")];
     textClassification := fetchFailed;
     tokenClassification := fetchFailed;
     zeroShotClassification := fetchFailed;
     textGeneration := fetchFailed;
     chatCompletionsCreate := fun _ => Returned (Some content);
     generateContent := fetchFailed |}.

(** HuggingFace configured with a zero-shot model, the endpoint answering
    with the given labels and scores. *)
Definition zeroShotAnswering (labels : list jsstring) (scores : list Q) : World :=
  {| processEnv := envOf [(js "HUGGINGFACE_API_KEY", js "hf_key");
                          (js "HF_MODEL_CLASSIFICATION", js "facebook/bart-large-mnli")];
     textClassification := fetchFailed;
     tokenClassification := fetchFailed;
     zeroShotClassification :=
       fun _ => Returned {| zs_scores := Some scores; zs_labels := Some labels |};
     textGeneration := fetchFailed;
     chatCompletionsCreate := fetchFailed;
     generateContent := fetchFailed |}.

(** The text [[{"label":"work","score":0.9},{"label":"work","score":0.8}]]. *)
Definition twiceWork : jsstring :=
  js "[{" ++ dquote ++ js "label" ++ dquote ++ js ":" ++ dquote ++ js "work" ++ dquote
     ++ js "," ++ dquote ++ js "score" ++ dquote ++ js ":0.9},{"
     ++ dquote ++ js "label" ++ dquote ++ js ":" ++ dquote ++ js "work" ++ dquote
     ++ js "," ++ dquote ++ js "score" ++ dquote ++ js ":0.8}]".

(** A platform for strings of code units below U+0100; its [JSON.parse]
    knows the one text the examples parse and rejects every other. *)
Definition latin1 : Platform :=
  {| toLowerCase := toLowerCaseLatin1;
     JSON_parse := fun text =>
       if JS.eqb text twiceWork then
         Returned (JArray [ JObject [(js "label", JString (js "work"));
                                     (js "score", JNumber 0.9)];
                            JObject [(js "label", JString (js "work"));
                                     (js "score", JNumber 0.8)] ])
       else Thrown (Error (js "Unexpected token")) |}.

(** Stub behaviours. *)
Definition connectedStatus : Client.AIServiceStatus :=
  {| Client.connected := true; Client.apiKeyConfigured := true; Client.error := None |}.

(** Every provider connected; [suggestTags] throws on the providers
    [failing] names and returns [answer p] on the others. *)
Definition behaviour (failing : ProviderName -> bool)
           (answer : ProviderName -> list jsstring) : Stub.Behaviour :=
  {| Stub.onTestConnection := fun _ => Returned connectedStatus;
     Stub.onSuggestTags := fun p _ _ =>
       if failing p then Thrown (Error (js "boom")) else Returned (answer p);
     Stub.onParseNote := fun _ noteText => Returned [noteText];
     Stub.onGenerateText := fun p _ _ =>
       if failing p then Thrown (Error (js "boom")) else Returned (js "text") |}.

(** A request context with a signed-in user, the tag table holding the
    given names. *)
Definition signedIn (names : list jsstring) : Operations.Context :=
  {| Operations.user := Some tt;
     Operations.Tag_findMany := Returned (map Operations.Build_TagRow names);
     Operations.now := js "2025-01-01T00:00:00.000Z" |}.

End Examples.
(* ================================================================= *)
(** ** [Promise.all] *)

Section Promises.
Variables Env Ev : Type.

(** [await Promise.all(calls)]: the calls are started in the order of the
    array and every one of them runs; the join rejects when one of them
    does, in the model with the rejection of the first in array order. *)
Fixpoint promiseAll {A} (calls : list (IO Env Ev A)) : IO Env Ev (list A) :=
  match calls with
  | [] => ret []
  | call :: calls' =>
      fun w log =>
        match call w log with
        | (Returned a, log1) =>
            match promiseAll calls' w log1 with
            | (Returned rest, log2) => (Returned (a :: rest), log2)
            | (Thrown e, log2) => (Thrown e, log2)
            end
        | (Thrown e, log1) => (Thrown e, snd (promiseAll calls' w log1))
        end
  end.

(** [Promise.all] on an array literal of two calls. *)
Definition promiseAll2 {A B} (first : IO Env Ev A) (second : IO Env Ev B)
  : IO Env Ev (A * B) :=
  fun w log =>
    match first w log with
    | (Returned a, log1) =>
        match second w log1 with
        | (Returned b, log2) => (Returned (a, b), log2)
        | (Thrown e, log2) => (Thrown e, log2)
        end
    | (Thrown e, log1) => (Thrown e, snd (second w log1))
    end.
End Promises.
Arguments promiseAll {Env Ev A} calls.
Arguments promiseAll2 {Env Ev A B} first second.

(* ================================================================= *)
(** ** [src/server/ai/aiService.ts], the other methods *)

Module FallbackAIServiceRest.
Import FallbackAIService.

Record UnifiedAIServiceStatus : Type := {
  provider : AIProvider;
  connected : bool;
  apiKeyConfigured : bool;
  error : option jsstring
}.

(** [{ provider: name, ...status }] *)
Definition labelled (name : AIProvider) (status : Client.AIServiceStatus)
  : UnifiedAIServiceStatus :=
  {| provider := name;
     connected := Client.connected status;
     apiKeyConfigured := Client.apiKeyConfigured status;
     error := Client.error status |}.

Record ProviderComparison : Type := {
  huggingfaceStatus : UnifiedAIServiceStatus;   (* the field [huggingface] *)
  googleStatus : UnifiedAIServiceStatus;        (* the field [google] *)
  recommended : option AIProvider
}.

Section Service.
Variables Env Ev : Type.
Variables hfService googleService : Client.t Env Ev.

(** [async testAllProviders()] *)
Definition testAllProviders : IO Env Ev ProviderComparison :=
  statuses <- promiseAll2 (Client.testConnection hfService)
                          (Client.testConnection googleService) ;;
  let (hfStatus, googleStatus) := statuses in
  let recommended :=
    if Client.connected googleStatus then Some google
    else if Client.connected hfStatus then Some huggingface
    else None in
  ret {| huggingfaceStatus := labelled huggingface hfStatus;
         googleStatus := labelled google googleStatus;
         recommended := recommended |}.

(** [async testProvider(provider)] *)
Definition testProvider (provider : AIProvider) : IO Env Ev UnifiedAIServiceStatus :=
  status <- (match provider with
             | huggingface => Client.testConnection hfService
             | google => Client.testConnection googleService
             end) ;;
  ret (labelled provider status).

(** [async getBestProvider()] *)
Definition getBestProvider : IO Env Ev (option AIProvider) :=
  comparison <- testAllProviders ;;
  ret (recommended comparison).

(** The [try] block of [parseNote]. *)
Definition parseVia (useProvider : AIProvider) (noteText : jsstring)
  : IO Env Ev (list jsstring) :=
  let viaHuggingFace :=
    hfStatus <- Client.testConnection hfService ;;
    if Client.connected hfStatus then Client.parseNote hfService noteText
    else ret [trim noteText] in
  match useProvider with
  | google =>
      googleStatus <- Client.testConnection googleService ;;
      if Client.connected googleStatus then Client.parseNote googleService noteText
      else viaHuggingFace
  | huggingface => viaHuggingFace
  end.

(** [async parseNote(noteText, provider?)]; like [suggestTags] it calls
    itself from its [catch] block, and [None] is a run still going when
    [fuel] calls have been entered. *)
Fixpoint parseNote (fuel : nat) (defaultProvider : AIProvider)
         (noteText : jsstring) (provider : option AIProvider)
  : IO Env Ev (option (list jsstring)) :=
  match fuel with
  | O => ret None
  | S fuel' =>
      let useProvider := match provider with Some p => p | None => defaultProvider end in
      tryCatch
        (items <- parseVia useProvider noteText ;; ret (Some items))
        (fun _ =>
           let fallbackProvider := fallbackOf useProvider in
           tryCatch
             (parseNote fuel' defaultProvider noteText (Some fallbackProvider))
             (fun _ => ret (Some [trim noteText])))
  end.

(** [setDefaultProvider(provider)] and [getDefaultProvider()] on the field
    [this.defaultProvider]. *)
Definition setDefaultProvider (this_defaultProvider provider : AIProvider) : AIProvider :=
  provider.
Definition getDefaultProvider (this_defaultProvider : AIProvider) : AIProvider :=
  this_defaultProvider.

End Service.
End FallbackAIServiceRest.

(* ================================================================= *)
(** ** [src/server/operations.ts], the other AI operations

    [aiService] is the singleton of [index.ts]; its field [this.provider]
    is passed to each operation, and [setAIProvider] returns its new value
    beside the result. *)

Module AIOperations.
Import Operations.

(** The object [testAIConnection] returns. *)
Record ConnectionReport : Type := {
  cr_timestamp : jsstring;
  cr_connected : bool;
  cr_apiKeyConfigured : bool;
  cr_provider : option jsstring;
  cr_error : option jsstring
}.

(** The object [testTagSuggestion] returns. *)
Record SuggestionReport : Type := {
  sr_timestamp : jsstring;
  sr_provider : jsstring;
  sr_input : jsstring;
  sr_availableTagCount : option nat;
  sr_suggestedTags : list jsstring;
  sr_error : option jsstring
}.

(** The object [testAIProvider] and [testGoogleAI] return. *)
Record ProviderReport : Type := {
  pr_timestamp : jsstring;
  pr_provider : jsstring;
  pr_input : jsstring;
  pr_availableTagCount : option nat;
  pr_connectionStatus : option UnifiedAIService.AIServiceStatus;
  pr_suggestedTags : list jsstring;
  pr_error : option jsstring
}.

(** The object [setAIProvider] returns. *)
Record SwitchReport : Type := {
  sw_timestamp : jsstring;
  sw_success : bool;
  sw_provider : jsstring;
  sw_previousProvider : option jsstring;
  sw_message : option jsstring;
  sw_error : option jsstring
}.

Definition notAuthorized : exn := HttpError 401 (js "Not authorized").

(** [a || b] for an optional string and a string. *)
Definition orText (a : option jsstring) (b : jsstring) : option jsstring :=
  Some (orElse a b).

Section Operation.
Variables Env Ev : Type.
Variables hfService openaiService googleService : Client.t Env Ev.

(** [testAIConnection(_args, context)] *)
Definition testAIConnection (this_provider : jsstring) (context : Context)
  : IO Env Ev ConnectionReport :=
  match user context with
  | None => throw notAuthorized
  | Some _ =>
      tryCatch
        (status <- UnifiedAIService.testConnection hfService openaiService googleService
                                                   this_provider ;;
         ret {| cr_timestamp := now context;
                cr_connected := UnifiedAIService.connected status;
                cr_apiKeyConfigured := UnifiedAIService.apiKeyConfigured status;
                cr_provider := Some (UnifiedAIService.provider status);
                cr_error := UnifiedAIService.error status |})
        (fun error =>
           ret {| cr_timestamp := now context;
                  cr_connected := false;
                  cr_apiKeyConfigured := false;
                  cr_provider := None;
                  cr_error := Some (errorMessage error) |})
  end.

(** [testTagSuggestion(args, context)] *)
Definition testTagSuggestion (this_provider : jsstring) (text : jsstring) (context : Context)
  : IO Env Ev SuggestionReport :=
  match user context with
  | None => throw notAuthorized
  | Some _ =>
      tryCatch
        (availableTags <- lift (Tag_findMany context) ;;
         let tagNames := map name availableTags in
         suggestedTags <- UnifiedAIService.suggestTags hfService openaiService googleService
                                                       this_provider text tagNames ;;
         ret {| sr_timestamp := now context;
                sr_provider := UnifiedAIService.getProvider this_provider;
                sr_input := text;
                sr_availableTagCount := Some (length tagNames);
                sr_suggestedTags := suggestedTags;
                sr_error := None |})
        (fun error =>
           ret {| sr_timestamp := now context;
                  sr_provider := UnifiedAIService.getProvider this_provider;
                  sr_input := text;
                  sr_availableTagCount := None;
                  sr_suggestedTags := [];
                  sr_error := Some (errorMessage error) |})
  end.

(** The body [testAIProvider] and [testGoogleAI] share: the second is the
    first with the provider fixed to 'google' and its own default message. *)
Definition testWithProvider (provider notConnected : jsstring)
           (text : jsstring) (context : Context)
  : IO Env Ev ProviderReport :=
  match user context with
  | None => throw notAuthorized
  | Some _ =>
      tryCatch
        (connectionStatus <-
           UnifiedAIService.testConnectionWithProvider hfService openaiService googleService
                                                       provider ;;
         if negb (UnifiedAIService.connected connectionStatus) then
           ret {| pr_timestamp := now context;
                  pr_provider := provider;
                  pr_input := text;
                  pr_availableTagCount := None;
                  pr_connectionStatus := Some connectionStatus;
                  pr_suggestedTags := [];
                  pr_error := orText (UnifiedAIService.error connectionStatus)
                                     notConnected |}
         else
           availableTags <- lift (Tag_findMany context) ;;
           let tagNames := map name availableTags in
           result <- UnifiedAIService.suggestTagsWithProvider
                       hfService openaiService googleService text tagNames provider ;;
           ret {| pr_timestamp := now context;
                  pr_provider := provider;
                  pr_input := text;
                  pr_availableTagCount := Some (length tagNames);
                  pr_connectionStatus := Some connectionStatus;
                  pr_suggestedTags := UnifiedAIService.tags result;
                  pr_error := UnifiedAIService.suggestionError result |})
        (fun error =>
           ret {| pr_timestamp := now context;
                  pr_provider := provider;
                  pr_input := text;
                  pr_availableTagCount := None;
                  pr_connectionStatus := None;
                  pr_suggestedTags := [];
                  pr_error := Some (errorMessage error) |})
  end.

(** [testAIProvider(args, context)] *)
Definition testAIProvider (provider text : jsstring) (context : Context)
  : IO Env Ev ProviderReport :=
  testWithProvider provider (js "Provider not connected") text context.

(** [testGoogleAI(args, context)] *)
Definition testGoogleAI (text : jsstring) (context : Context) : IO Env Ev ProviderReport :=
  testWithProvider (js "google") (js "Google AI not connected") text context.

(** [setAIProvider(args, context)]: the result and the value of
    [this.provider] afterwards.  [previousProvider] is read with
    [getProvider()] after [setProvider] has run. *)
Definition setAIProvider (this_provider : jsstring) (provider : jsstring) (context : Context)
  : IO Env Ev (SwitchReport * jsstring) :=
  match user context with
  | None => throw notAuthorized
  | Some _ =>
      tryCatch
        (connectionStatus <-
           UnifiedAIService.testConnectionWithProvider hfService openaiService googleService
                                                       provider ;;
         if negb (UnifiedAIService.connected connectionStatus) then
           ret ({| sw_timestamp := now context;
                   sw_success := false;
                   sw_provider := provider;
                   sw_previousProvider := None;
                   sw_message := None;
                   sw_error := orText (UnifiedAIService.error connectionStatus)
                                      (js "Provider not available") |},
                this_provider)
         else
           let this_provider' := UnifiedAIService.setProvider this_provider provider in
           ret ({| sw_timestamp := now context;
                   sw_success := true;
                   sw_provider := provider;
                   sw_previousProvider := Some (UnifiedAIService.getProvider this_provider');
                   sw_message := Some (js "AI provider switched to " ++ provider);
                   sw_error := None |},
                this_provider'))
        (fun error =>
           ret ({| sw_timestamp := now context;
                   sw_success := false;
                   sw_provider := provider;
                   sw_previousProvider := None;
                   sw_message := None;
                   sw_error := Some (errorMessage error) |},
                this_provider))
  end.

End Operation.
End AIOperations.

(* ================================================================= *)
(** ** [src/server/operations.ts], the item, activity and tag operations

    The database is the mocked Prisma client of a unit test: every query
    is logged with the arguments the source passes, and the environment
    decides what it resolves to. *)

Module ItemOperations.

Record Tag : Type := {
  tag_id : Z;
  tag_name : jsstring;
  tag_category : jsstring;
  tag_color : option jsstring;
  tag_userId : option Z;
  tag_createdAt : jsstring
}.

Record Activity : Type := {
  activity_id : Z;
  activity_name : jsstring;
  activity_description : option jsstring;
  activity_icon : option jsstring;
  activity_isDefault : bool;
  activity_userId : option Z;
  activity_createdAt : jsstring
}.

(** An [Item] row with the relations the queries include. *)
Record Item : Type := {
  id : Z;
  content : jsstring;
  sourceNote : option jsstring;
  relevance : Q;
  isCompleted : bool;
  userId : Z;
  activityId : option Z;
  createdAt : jsstring;
  updatedAt : jsstring;
  tags : list Tag;
  activity : option Activity
}.

(** A number as an operation receives it in its arguments: a finite
    value, or one of the three numbers that are none. *)
Inductive number : Type :=
| Finite (q : Q)
| NaN
| PlusInfinity
| MinusInfinity.

(** [n < 0] and [n > 1]: every comparison with [NaN] is false. *)
Definition belowZero (n : number) : bool :=
  match n with
  | Finite q => Qgtb 0 q
  | MinusInfinity => true
  | NaN | PlusInfinity => false
  end.

Definition aboveOne (n : number) : bool :=
  match n with
  | Finite q => Qgtb q 1
  | PlusInfinity => true
  | NaN | MinusInfinity => false
  end.

(** The queries of the operations. *)
Inductive DbRequest : Type :=
| Item_findMany (where_userId : Z) (where_activityId : option Z)
| Item_create (data_content : jsstring) (data_sourceNote : option jsstring)
              (data_activityId : option Z) (data_userId : Z)
| ItemTag_create (data_itemId data_tagId : Z)
| Item_findUnique (where_id : Z)
| Item_findFirst (where_id where_userId : Z)
| Item_update (where_id : Z) (data_content : option jsstring)
              (data_isCompleted : option bool) (data_activityId : option Z)
              (data_updatedAt : jsstring)
| Item_updateRelevance (where_id : Z) (data_relevance : number) (data_updatedAt : jsstring)
| ItemTag_deleteMany (where_itemId : Z)
| Item_delete (where_id : Z)
| Activity_findMany
| Tag_findMany
| Tag_findFirst (where_name : jsstring) (where_userId : Z)
| Tag_create (data_name data_category : jsstring) (data_color : option jsstring)
             (data_userId : Z).

(** What each kind of query resolves to, given the log up to and
    including it. *)
Record Db : Type := {
  item_findMany : list DbRequest -> outcome (list Item);
  item_create : list DbRequest -> outcome Item;
  itemTag_create : list DbRequest -> outcome unit;
  item_findUnique : list DbRequest -> outcome (option Item);
  item_findFirst : list DbRequest -> outcome (option Item);
  item_update : list DbRequest -> outcome Item;
  itemTag_deleteMany : list DbRequest -> outcome unit;
  item_delete : list DbRequest -> outcome unit;
  activity_findMany : list DbRequest -> outcome (list Activity);
  tag_findMany : list DbRequest -> outcome (list Tag);
  tag_findFirst : list DbRequest -> outcome (option Tag);
  tag_create : list DbRequest -> outcome Tag
}.

Definition Query (A : Type) : Type := IO Db DbRequest A.

(** [context]: the signed-in user's id, and the clock. *)
Record Context : Type := {
  user : option Z;
  now : jsstring
}.

Definition notAuthorized : exn := HttpError 401 (js "Not authorized").
Definition itemNotFound : exn := HttpError 404 (js "Item not found").

(** [if (args.activityId)]: an id that is absent or 0 adds no filter. *)
Definition activityFilter (activityId : option Z) : option Z :=
  match activityId with
  | Some a => if Z.eqb a 0 then None else Some a
  | None => None
  end.

(** [getItems(args, context)] *)
Definition getItems (activityId : option Z) (context : Context) : Query (list Item) :=
  match user context with
  | None => throw notAuthorized
  | Some userId =>
      perform (Item_findMany userId (activityFilter activityId)) item_findMany
  end.

(** [limitedTagIds.map(tagId => context.entities.ItemTag.create(...))]
    under [Promise.all]. *)
Definition attachTags (itemId : Z) (tagIds : list Z) : Query (list unit) :=
  let limitedTagIds := firstn 3 tagIds in
  promiseAll (map (fun tagId => perform (ItemTag_create itemId tagId) itemTag_create)
                  limitedTagIds).

(** [createItem(args, context)]; the result is [null] when the final
    [findUnique] finds nothing. *)
Definition createItem (content : jsstring) (sourceNote : option jsstring)
           (activityId : option Z) (tagIds : option (list Z)) (context : Context)
  : Query (option Item) :=
  match user context with
  | None => throw notAuthorized
  | Some userId =>
      item <- perform (Item_create content sourceNote activityId userId) item_create ;;
      match tagIds with
      | Some ((_ :: _) as tagIds) =>
          attachTags (id item) tagIds ;;;
          perform (Item_findUnique (id item)) item_findUnique
      | _ => ret (Some item)
      end
  end.

(** [updateItem(args, context)] *)
Definition updateItem (itemId : Z) (content : option jsstring) (isCompleted : option bool)
           (activityId : option Z) (tagIds : option (list Z)) (context : Context)
  : Query (option Item) :=
  match user context with
  | None => throw notAuthorized
  | Some userId =>
      existingItem <- perform (Item_findFirst itemId userId) item_findFirst ;;
      match existingItem with
      | None => throw itemNotFound
      | Some _ =>
          perform (Item_update itemId content isCompleted activityId (now context))
                  item_update ;;;
          (match tagIds with
           | Some tagIds =>
               perform (ItemTag_deleteMany itemId) itemTag_deleteMany ;;;
               (match tagIds with
                | _ :: _ => attachTags itemId tagIds ;;; ret tt
                | [] => ret tt
                end)
           | None => ret tt
           end) ;;;
          perform (Item_findUnique itemId) item_findUnique
      end
  end.

(** [deleteItem(args, context)] *)
Definition deleteItem (itemId : Z) (context : Context) : Query unit :=
  match user context with
  | None => throw notAuthorized
  | Some userId =>
      existingItem <- perform (Item_findFirst itemId userId) item_findFirst ;;
      match existingItem with
      | None => throw itemNotFound
      | Some _ => perform (Item_delete itemId) item_delete
      end
  end.

(** [updateItemRelevance(args, context)] *)
Definition updateItemRelevance (itemId : Z) (newRelevance : number) (context : Context)
  : Query Item :=
  match user context with
  | None => throw notAuthorized
  | Some userId =>
      if belowZero newRelevance || aboveOne newRelevance then
        throw (HttpError 400 (js "Relevance must be between 0.0 and 1.0"))
      else
        existingItem <- perform (Item_findFirst itemId userId) item_findFirst ;;
        match existingItem with
        | None => throw itemNotFound
        | Some _ =>
            perform (Item_updateRelevance itemId newRelevance (now context)) item_update
        end
  end.

(** [getActivities(_args, context)] *)
Definition getActivities (context : Context) : Query (list Activity) :=
  perform Activity_findMany activity_findMany.

(** [getTags(_args, context)] *)
Definition getTags (context : Context) : Query (list Tag) :=
  perform Tag_findMany tag_findMany.

(** [createTag(args, context)] *)
Definition createTag (name category : jsstring) (color : option jsstring)
           (context : Context) : Query Tag :=
  match user context with
  | None => throw notAuthorized
  | Some userId =>
      existingTag <- perform (Tag_findFirst name userId) tag_findFirst ;;
      match existingTag with
      | Some _ => throw (HttpError 400 (js "Tag with this name already exists"))
      | None => perform (Tag_create name category color userId) tag_create
      end
  end.

(** The queries of a log that write. *)
Definition isWrite (q : DbRequest) : bool :=
  match q with
  | Item_create _ _ _ _ | ItemTag_create _ _ | Item_update _ _ _ _ _
  | Item_updateRelevance _ _ _ | ItemTag_deleteMany _ | Item_delete _
  | Tag_create _ _ _ _ => true
  | _ => false
  end.

(** The tag ids of the [ItemTag.create] queries of a log, in order. *)
Definition attached (log : list DbRequest) : list Z :=
  flat_map (fun q => match q with ItemTag_create _ tagId => [tagId] | _ => [] end) log.

End ItemOperations.

(** A mocked database for the examples: every query answers, and the
    two lookups find their row exactly when [found] is set. *)
Module ItemExamples.
Import ItemOperations.

Definition aTag : Tag :=
  {| tag_id := 3; tag_name := js "groceries"; tag_category := js "shopping";
     tag_color := None; tag_userId := None;
     tag_createdAt := js "2025-01-01T00:00:00.000Z" |}.

Definition anItem : Item :=
  {| id := 7; content := js "Buy milk"; sourceNote := None; relevance := 0.5;
     isCompleted := false; userId := 1; activityId := None;
     createdAt := js "2025-01-01T00:00:00.000Z";
     updatedAt := js "2025-01-01T00:00:00.000Z";
     tags := []; activity := None |}.

Definition db (found : bool) : Db :=
  {| item_findMany := fun _ => Returned [anItem];
     item_create := fun _ => Returned anItem;
     itemTag_create := fun _ => Returned tt;
     item_findUnique := fun _ => Returned (Some anItem);
     item_findFirst := fun _ => Returned (if found then Some anItem else None);
     item_update := fun _ => Returned anItem;
     itemTag_deleteMany := fun _ => Returned tt;
     item_delete := fun _ => Returned tt;
     activity_findMany := fun _ => Returned [];
     tag_findMany := fun _ => Returned [aTag];
     tag_findFirst := fun _ => Returned (if found then Some aTag else None);
     tag_create := fun _ => Returned aTag |}.

Definition signedIn : Context :=
  {| user := Some 1%Z; now := js "2025-06-01T00:00:00.000Z" |}.

Definition anonymous : Context :=
  {| user := None; now := js "2025-06-01T00:00:00.000Z" |}.

End ItemExamples.

(* ================================================================= *)
(** ** [src/server/ai/google.ts], [suggestTagsWithReasoning]

    The method returns what [JSON.parse] made of the answer of the model,
    so its result is typed here as the values are at run time: the field
    [suggestedTags] is whatever [slice] gave, the field [reasoning] any
    truthy value of the answer. *)

Module GoogleReasoning.
Import GoogleAIService.

Record TagSuggestionResult : Type := {
  suggestedTags : json;
  reasoning : json
}.

Definition reasoningPrompt (itemContent : jsstring) (availableTags : list jsstring)
  : jsstring :=
  lines
    [ js "Analyze the following text content and suggest the most relevant tags from the available options. Provide both the suggested tags and your reasoning.";
      [];
      js "Content: " ++ dquote ++ itemContent ++ dquote;
      [];
      js "Available tags: " ++ join (js ", ") availableTags;
      [];
      js "Please respond in this exact JSON format:";
      js "{";
      js "  " ++ dquote ++ js "suggestedTags" ++ dquote ++ js ": ["
         ++ dquote ++ js "tag1" ++ dquote ++ js ", "
         ++ dquote ++ js "tag2" ++ dquote ++ js ", "
         ++ dquote ++ js "tag3" ++ dquote ++ js "],";
      js "  " ++ dquote ++ js "reasoning" ++ dquote ++ js ": "
         ++ dquote ++ js "Brief explanation of why these tags were chosen" ++ dquote;
      js "}";
      [];
      js "Rules:";
      js "- Select maximum 3 most relevant tags";
      js "- Only use tags from the available list";
      js "- Consider the main topics, themes, and keywords in the content" ].

(** [!!v] for a value read from the parsed answer; [None] is [undefined]. *)
Definition jsonTruthy (v : option json) : bool :=
  match v with
  | None => false
  | Some JNull => false
  | Some (JBool b) => b
  | Some (JNumber q) => negb (Qeq_bool q 0)
  | Some (JString s) => match s with [] => false | _ :: _ => true end
  | Some (JArray _) => true
  | Some (JObject _) => true
  end.

(** [parsed.suggestedTags?.slice(0, 3) || []].  [?.] stops at [undefined]
    and [null]; arrays and strings have a [slice]; on any other value
    [slice] is not a function and the call throws.  The empty string that
    [slice] gives of an empty string is falsy. *)
Definition slicedTags (v : option json) : outcome json :=
  match v with
  | None => Returned (JArray [])
  | Some JNull => Returned (JArray [])
  | Some (JArray items) => Returned (JArray (firstn 3 items))
  | Some (JString s) =>
      Returned (match firstn 3 s with
                | [] => JArray []
                | c :: rest => JString (c :: rest)
                end)
  | Some _ => Thrown (Error (js "parsed.suggestedTags?.slice is not a function"))
  end.

(** [parsed.reasoning || 'No reasoning provided'] *)
Definition reasoningOr (v : option json) : json :=
  match v with
  | Some value => if jsonTruthy v then value else JString (js "No reasoning provided")
  | None => JString (js "No reasoning provided")
  end.

(** The object literal of the inner [try], its fields evaluated in order. *)
Definition structured (parsed : json) : outcome TagSuggestionResult :=
  Pure.bind (OpenAIService.readField parsed (js "suggestedTags")) (fun tagsField =>
  Pure.bind (slicedTags tagsField) (fun tags =>
  Pure.bind (OpenAIService.readField parsed (js "reasoning")) (fun reasoningField =>
  Returned {| suggestedTags := tags; reasoning := reasoningOr reasoningField |}))).

(** [availableTags.filter(tag => text.toLowerCase().includes(tag.toLowerCase()))
     .slice(0, 3)] *)
Definition tagMatches (pf : Platform) (text : jsstring) (availableTags : list jsstring)
  : list jsstring :=
  firstn 3
    (filter (fun tag => includes (toLowerCase pf text) (toLowerCase pf tag))
            availableTags).

(** [async suggestTagsWithReasoning(itemContent, availableTags)] *)
Definition suggestTagsWithReasoning (pf : Platform)
           (itemContent : jsstring) (availableTags : list jsstring)
  : Net TagSuggestionResult :=
  tryCatch
    (missing <- asks unconfigured ;;
     if missing then throw (Error notConfigured)
     else
       model <- asks GOOGLE_MODEL ;;
       text <- perform (GoogleGenerateContent model None
                                              (reasoningPrompt itemContent availableTags))
                       generateContent ;;
       tryCatch
         (lift (Pure.bind (JSON_parse pf text) structured))
         (fun _ =>
            ret {| suggestedTags := JArray (map JString (tagMatches pf text availableTags));
                   reasoning :=
                     JString (js "Failed to parse structured response, extracted tags from text")
                |}))
    (fun error =>
       ret {| suggestedTags := JArray [];
              reasoning := JString (js "Error: " ++ errorMessage error) |}).

(** What [suggestedTags] holds: the number of entries of an array, of code
    units of a string. *)
Definition entries (v : json) : option nat :=
  match v with
  | JArray items => Some (length items)
  | JString s => Some (length s)
  | _ => None
  end.

Section Unified.
Variables Env Ev : Type.
Variables hfService googleService : Client.t Env Ev.
Variable googleReasoning : jsstring -> list jsstring -> IO Env Ev TagSuggestionResult.

(** [async suggestTagsWithReasoning(itemContent, availableTags)] of
    [aiService.ts]; [fuel] bounds the nested calls of the [suggestTags] it
    awaits, and [None] is a run still going when they are used up. *)
Definition unifiedSuggestTagsWithReasoning (fuel : nat)
           (defaultProvider : FallbackAIService.AIProvider)
           (itemContent : jsstring) (availableTags : list jsstring)
  : IO Env Ev (option TagSuggestionResult) :=
  tryCatch
    (googleStatus <- Client.testConnection googleService ;;
     if Client.connected googleStatus then
       result <- googleReasoning itemContent availableTags ;;
       ret (Some result)
     else
       tags <- FallbackAIService.suggestTags hfService googleService fuel defaultProvider
                 itemContent availableTags (Some FallbackAIService.huggingface) ;;
       match tags with
       | Some tags =>
           ret (Some {| suggestedTags := JArray (map JString tags);
                        reasoning :=
                          JString (js "Used HuggingFace provider - reasoning not available")
                     |})
       | None => ret None
       end)
    (fun error =>
       ret (Some {| suggestedTags := JArray [];
                    reasoning := JString (js "Error: " ++ errorMessage error) |})).
End Unified.

End GoogleReasoning.

(* ================================================================= *)
(** ** Names for what the clients send and throw *)

(** The prefix each client puts before the cause when [generateText]
    rethrows. *)
Definition generationPrefix (p : ProviderName) : jsstring :=
  match p with
  | HuggingFace => js "Text generation failed: "
  | OpenAI => js "OpenAI text generation failed: "
  | Google => js "Text generation failed: "
  end.

(** The one request of [OpenAIService.parseNote]. *)
Definition openaiParseRequest (noteText : jsstring) (w : World) : request :=
  OpenAIChatCompletion (OpenAIService.OPENAI_MODEL_CHAT w)
                       (OpenAIService.parsePrompt noteText) 200 (Some 0.3).

(** The requests of the heuristic path of [HuggingFaceService.suggestTags]:
    one sentiment classification per tag. *)
Definition sentimentRequests (itemContent : jsstring) (availableTags : list jsstring)
  : list request :=
  map (fun tag => HfTextClassification HuggingFaceService.sentimentModel
                                       (HuggingFaceService.relatedPrompt tag itemContent))
      availableTags.
(* ================================================================= *)
(** ** Numbers as the runtime has them

    A JavaScript number is a binary64 floating-point number, and every
    [+] and [*] rounds its exact result to the nearest one, ties to the
    even significand.  The value of a finite number is a rational, so the
    arithmetic of the runtime is the exact arithmetic followed by the
    rounding [binary64].  The rounding is the one of the normal range, from
    2^-1022 up to 2^1024: the scores, sums of a few tenths, stay inside. *)

Module Binary64.

Definition pow2 (e : Z) : Q := Qpower 2 e.

(** The exponent of a positive rational: the [e] with 2^e <= a < 2^(e+1). *)
Definition exponentOf (a : Q) : Z :=
  let e0 := (Z.log2 (Qnum a) - Z.log2 (Zpos (Qden a)))%Z in
  if Qle_bool (pow2 e0) a then e0 else (e0 - 1)%Z.

(** The integer nearest to a rational, the even one of two at the same
    distance. *)
Definition nearestEven (m : Q) : Z :=
  let below := Qfloor m in
  match Qcompare (m - inject_Z below) (1 # 2) with
  | Lt => below
  | Gt => (below + 1)%Z
  | Eq => if Z.even below then below else (below + 1)%Z
  end.

(** The number with a significand of 53 bits nearest to a positive
    rational. *)
Definition nearest (a : Q) : Q :=
  let e := exponentOf a in
  inject_Z (nearestEven (a * pow2 (52 - e))) * pow2 (e - 52).

(** The binary64 number a rational rounds to. *)
Definition binary64 (q : Q) : Q :=
  let q := Qred q in
  match Qnum q with
  | Z0 => 0
  | Zpos _ => Qred (nearest q)
  | Zneg _ => Qred (- nearest (- q))
  end.

(** [a + b] and [a * b] on numbers. *)
Definition add (a b : Q) : Q := binary64 (a + b).
Definition mul (a b : Q) : Q := binary64 (a * b).

End Binary64.

(* ================================================================= *)
(** ** [calculateTagRelevance] with the arithmetic of the runtime

    The same method as [HuggingFaceService.calculateTagRelevance], every
    literal being the binary64 number its decimal text denotes and every
    [+=] and [*] rounding its result.  [Math.min] does not round. *)

Module HuggingFaceService64.
Section WithPlatform.
Variable pf : Platform.

(** The two nested loops of [calculateTagRelevance]. *)
Definition wordStep (contentWord : jsstring) (score : Q) (tagWord : jsstring) : Q :=
  if JS.eqb contentWord tagWord then Binary64.add score (Binary64.binary64 0.6)
  else if startsWith contentWord (substring0 3 tagWord)
          || startsWith tagWord (substring0 3 contentWord)
       then Binary64.add score (Binary64.binary64 0.3)
       else score.

Definition wordLoop (contentWords tagWords : list jsstring) (score : Q) : Q :=
  fold_left (fun score contentWord => fold_left (wordStep contentWord) tagWords score)
            contentWords score.

(** [private calculateTagRelevance(content, tag)] *)
Definition calculateTagRelevance (content tag : jsstring) : outcome Q :=
  let contentLower := toLowerCase pf content in
  let tagLower := toLowerCase pf tag in
  let score := 0 in
  let score := if includes contentLower tagLower
               then Binary64.add score (Binary64.binary64 0.8) else score in
  let score :=
    if includes tagLower (first (splitChar space contentLower))
       || existsb (fun word => includes word tagLower) (splitChar space contentLower)
    then Binary64.add score (Binary64.binary64 0.4) else score in
  let contentWords := HuggingFaceService.longWords contentLower in
  let tagWords := HuggingFaceService.longWords tagLower in
  let score := wordLoop contentWords tagWords score in
  Pure.bind (HuggingFaceService.getContextMatches pf contentLower tagLower)
            (fun contextMatches =>
  let score :=
    Binary64.add score
                 (Binary64.mul (inject_Z (Z.of_nat contextMatches))
                               (Binary64.binary64 0.4)) in
  Returned (Qmin score (Binary64.binary64 1.0))).

End WithPlatform.
End HuggingFaceService64.

(** How the rounded score stands to the exact sum. *)
Module Rounded.

(** The sums below 1 that the weights 0.8, 0.6, 0.4 and 0.3 can make, each
    with the number the additions of the runtime make of it: the number
    nearest to the sum, save for 0.9, which 0.6 + 0.3 misses by one unit in
    the last place. *)
Definition sums : list (Q * Q) :=
  [ (0, 0);
    (0.3, Binary64.binary64 0.3);
    (0.4, Binary64.binary64 0.4);
    (0.6, Binary64.binary64 0.6);
    (0.7, Binary64.binary64 0.7);
    (0.8, Binary64.binary64 0.8);
    (0.9, Binary64.binary64 0.8999999999999999) ].

(** The running score [actual] of the runtime beside the exact sum
    [exact]: both have reached 1, or the sum is one of [sums] and the score
    is the number beside it. *)
Definition computes (exact actual : Q) : Prop :=
  (1 <= exact /\ 1 <= actual)
  \/ exists entry, In entry sums /\ exact == fst entry /\ actual = snd entry.

(** The number the method returns for a capped exact sum. *)
Definition asComputed (exact : Q) : Q :=
  if Qeq_bool exact 0.9 then Binary64.binary64 0.8999999999999999
  else Binary64.binary64 exact.

End Rounded.

(* ================================================================= *)
(** ** Importing the clients

    A caller reaches a client through the import of its module, whose
    top-level statements run first.  [openai.ts] builds its client there,
    [const openai = new OpenAI({ apiKey: OPENAI_API_KEY })], and the
    constructor of the SDK throws an [OpenAIError] when the key is
    [undefined]; an empty key is accepted.  [huggingface.ts] builds its
    client with [new HfInference(HF_API_KEY)], which accepts an absent key,
    and [google.ts] builds its client only under [if (GOOGLE_API_KEY)]. *)

Module Loading.

(** The message of the [OpenAIError]. *)
Definition missingKey : jsstring :=
  js "The OPENAI_API_KEY environment variable is missing or empty; either provide it, or instantiate the OpenAI client with an apiKey option, like new OpenAI({ apiKey: 'My API Key' }).".

(** [const openai = new OpenAI({ apiKey: OPENAI_API_KEY })] *)
Definition openai (w : World) : outcome unit :=
  match OpenAIService.OPENAI_API_KEY w with
  | Some _ => Returned tt
  | None => Thrown (Error missingKey)
  end.

(** A method of the exported [openAIService] as an importer reaches it:
    what the top-level statement throws is what the importer gets, before
    any request. *)
Definition viaImport {A} (method : Net A) : Net A :=
  fun w log =>
    match openai w with
    | Returned _ => method w log
    | Thrown e => (Thrown e, log)
    end.

(** The three exported clients as an importer reaches them. *)
Definition importedClientOf (pf : Platform) (p : ProviderName) : Client.t World request :=
  match p with
  | OpenAI =>
      {| Client.testConnection := viaImport OpenAIService.testConnection;
         Client.suggestTags := fun itemContent availableTags =>
           viaImport (OpenAIService.suggestTags pf itemContent availableTags);
         Client.parseNote := fun noteText =>
           viaImport (OpenAIService.parseNote pf noteText);
         Client.generateText := fun prompt maxTokens =>
           viaImport (OpenAIService.generateText prompt maxTokens) |}
  | HuggingFace => hfService pf
  | Google => googleAIService
  end.

(** Whether the module of a client can be imported. *)
Definition imports (p : ProviderName) (w : World) : bool :=
  match p, OpenAIService.OPENAI_API_KEY w with
  | OpenAI, None => false
  | _, _ => true
  end.

End Loading.

(** The request [generateText] of each client sends. *)
Definition generationRequest (p : ProviderName) (prompt : jsstring) (maxLength : Q)
           (w : World) : request :=
  match p with
  | HuggingFace =>
      HfTextGeneration (HuggingFaceService.HF_MODEL_TEXT_GENERATION w) prompt maxLength
                       0.7 true
  | OpenAI =>
      OpenAIChatCompletion (OpenAIService.OPENAI_MODEL_CHAT w) prompt maxLength (Some 0.7)
  | Google =>
      GoogleGenerateContent (GoogleAIService.GOOGLE_MODEL w) (Some (maxLength, 0.7)) prompt
  end.

(** What each client makes of the answer to that request: the text it
    returns when the endpoint answers, the cause when it does not. *)
Definition generationAnswer (p : ProviderName) (w : World) (sent : list request)
  : outcome jsstring :=
  match p with
  | HuggingFace =>
      Pure.bind (textGeneration w sent) (fun generated_text =>
      Returned (orElse generated_text []))
  | OpenAI =>
      Pure.bind (chatCompletionsCreate w sent) (fun content =>
      Returned (orElse content []))
  | Google =>
      Pure.bind (generateContent w sent) (fun text => Returned (trim text))
  end.
(* ================================================================= *)
(** * Properties *)

(** ** Strings and lists *)

Lemma eqb_eq (s t : jsstring) : JS.eqb s t = true <-> s = t.
Proof.
  revert t; induction s as [| c s IH]; intros [| d t]; simpl; split;
    try congruence; try reflexivity.
  - intros H. apply andb_prop in H as [Hc Hs].
    apply N.eqb_eq in Hc. apply IH in Hs. congruence.
  - intros H. injection H as -> ->. rewrite N.eqb_refl. simpl. now apply IH.
Qed.

Lemma eqb_refl (s : jsstring) : JS.eqb s s = true.
Proof. now apply eqb_eq. Qed.

Lemma eqb_neq (s t : jsstring) : JS.eqb s t = false <-> s <> t.
Proof.
  split.
  - intros H E. apply eqb_eq in E. congruence.
  - intros H. destruct (JS.eqb s t) eqn:E; [| reflexivity].
    apply eqb_eq in E. contradiction.
Qed.

Lemma eqb_sym (s t : jsstring) : JS.eqb s t = JS.eqb t s.
Proof.
  destruct (JS.eqb t s) eqn:E.
  - apply eqb_eq in E. subst. apply eqb_refl.
  - apply eqb_neq. apply eqb_neq in E. congruence.
Qed.

Lemma arrayIncludes_In (arr : list jsstring) (x : jsstring) :
  arrayIncludes arr x = true <-> In x arr.
Proof.
  unfold arrayIncludes. rewrite existsb_exists. split.
  - intros (y & Hy & E). apply eqb_eq in E. now subst.
  - intros H. exists x. split; [assumption | apply eqb_refl].
Qed.

Lemma In_firstn {A} (n : nat) (l : list A) (x : A) : In x (firstn n l) -> In x l.
Proof.
  intros H. rewrite <- (firstn_skipn n l). apply in_or_app. now left.
Qed.

Lemma NoDup_firstn {A} (n : nat) (l : list A) : NoDup l -> NoDup (firstn n l).
Proof.
  revert l; induction n as [| n IH]; intros [| x l] H; simpl; try constructor.
  - inversion H; subst. intros Hin. apply In_firstn in Hin. contradiction.
  - inversion H; subst. now apply IH.
Qed.

(** Filtering records keeps their names distinct. *)
Lemma filter_keeps_names_distinct {A} (name : A -> jsstring) (keep : A -> bool)
      (records : list A) (Hdistinct : NoDup (map name records)) :
  NoDup (map name (filter keep records)).
Proof.
  induction records as [| r records IH]; simpl in *; [constructor |].
  apply NoDup_cons_iff in Hdistinct as [Hfresh Hrest].
  destruct (keep r); simpl; [| now apply IH].
  apply NoDup_cons_iff. split; [| now apply IH].
  rewrite in_map_iff. intros (r' & Ename & Hkept).
  apply filter_In in Hkept as [Hr' _].
  apply Hfresh. rewrite <- Ename. now apply in_map.
Qed.

Lemma map_firstn_commute {A B} (f : A -> B) (n : nat) (l : list A) :
  map f (firstn n l) = firstn n (map f l).
Proof.
  revert l; induction n as [| n IH]; intros [| x l]; simpl; try reflexivity.
  now rewrite IH.
Qed.

Section SortFacts.
Variable A : Type.
Variable cmp : A -> A -> Q.

Lemma insertBy_perm (x : A) (l : list A) : Permutation (insertBy cmp x l) (x :: l).
Proof.
  induction l as [| y l IH]; simpl; [reflexivity |].
  destruct (Qgtb (cmp x y) 0); [| reflexivity].
  rewrite IH. apply perm_swap.
Qed.

Lemma sortBy_perm (l : list A) : Permutation (sortBy cmp l) l.
Proof.
  induction l as [| x l IH]; simpl; [reflexivity |].
  rewrite insertBy_perm. now constructor.
Qed.
End SortFacts.

(** The chain [filter(...).sort(...).slice(0, 3).map(...)] that ends the
    three [suggestTags] methods. *)
Section TopThree.
Variables (A : Type) (name : A -> jsstring) (keep : A -> bool) (cmp : A -> A -> Q).

Lemma topThree_length (l : list A) :
  (length (map name (firstn 3 (sortBy cmp (filter keep l)))) <= 3)%nat.
Proof. rewrite length_map. apply firstn_le_length. Qed.

Lemma topThree_In (l : list A) (x : jsstring) :
  In x (map name (firstn 3 (sortBy cmp (filter keep l)))) -> In x (map name l).
Proof.
  intros H. apply in_map_iff in H as (r & E & Hr).
  apply In_firstn in Hr.
  apply (Permutation_in _ (sortBy_perm cmp _)) in Hr.
  apply filter_In in Hr as [Hr _].
  apply in_map_iff. now exists r.
Qed.

Lemma topThree_NoDup (l : list A) :
  NoDup (map name l) -> NoDup (map name (firstn 3 (sortBy cmp (filter keep l)))).
Proof.
  intros H. rewrite map_firstn_commute. apply NoDup_firstn.
  apply (Permutation_NoDup (l := map name (filter keep l))).
  - apply Permutation_map. symmetry. apply sortBy_perm.
  - now apply filter_keeps_names_distinct.
Qed.
End TopThree.

Ltac io_unfold :=
  unfold tryCatch, bind, asks, perform, ret, throw, lift in *.

(* ================================================================= *)
(** ** Connection tests without a credential *)

(** C5.  With [OPENAI_API_KEY] not defined, a caller of [testConnection]
    of the OpenAI client gets no status: the import of the client throws
    the error of the constructor, before any request.  In the same
    environment the HuggingFace and Google clients, which build their
    client without throwing, return [connected: false],
    [apiKeyConfigured: false] and the message naming the missing variable,
    and send nothing. *)
Theorem testConnection_openai_key_undefined :
  Client.testConnection (Loading.importedClientOf Examples.latin1 OpenAI)
                        Examples.unconfigured []
  = (Thrown (Error Loading.missingKey), [])
  /\ Client.testConnection (Loading.importedClientOf Examples.latin1 HuggingFace)
                           Examples.unconfigured []
     = (Returned {| Client.connected := false;
                    Client.apiKeyConfigured := false;
                    Client.error := Some (js "HUGGINGFACE_API_KEY not configured") |}, [])
  /\ Client.testConnection (Loading.importedClientOf Examples.latin1 Google)
                           Examples.unconfigured []
     = (Returned {| Client.connected := false;
                    Client.apiKeyConfigured := false;
                    Client.error := Some (js "GOOGLE_API_KEY not configured") |}, []).
Proof.
  split; [reflexivity | split; reflexivity].
Qed.

(* ================================================================= *)
(** ** The heuristic [parseNote] *)

Section ParseNote.
Import HuggingFaceService.

(** What [parseNote] returns, by the outcome of the entity extraction. *)
Lemma parseNote_cases (noteText : jsstring) (w : World) (log : list request) :
  fst (parseNote noteText w log) =
  match fst (extractEntities noteText w log) with
  | Returned _ =>
      if (1 <? length (sentencesOf noteText))%nat
      then Returned (sentencesOf noteText)
      else Returned [trim noteText]
  | Thrown _ => Returned [trim noteText]
  end.
Proof.
  unfold parseNote. io_unfold.
  destruct (extractEntities noteText w log) as [[entities | e] log']; simpl.
  - destruct (1 <? length (sentencesOf noteText))%nat; reflexivity.
  - reflexivity.
Qed.

Lemma sentencesOf_kept (noteText : jsstring) :
  Forall (fun s => In s (map trim (splitRuns isSentenceEnd noteText))
                   /\ (10 < length s)%nat
                   /\ testClass isAsciiLetter s = true)
         (sentencesOf noteText).
Proof.
  apply Forall_forall. intros s H. unfold sentencesOf in H.
  apply filter_In in H as [H Hletter].
  apply filter_In in H as [H Hlong].
  apply Nat.ltb_lt in Hlong. auto.
Qed.
End ParseNote.

(** C6, as the code has it.  On "Buy milk. Call dentist tomorrow. Finish
    report by Friday." the fragment "Buy milk" has 8 characters and is
    dropped: when the entity extraction returns, [parseNote] gives the two
    items "Call dentist tomorrow" and "Finish report by Friday", each longer
    than 10 characters and with a letter; when it throws, [parseNote] gives
    the whole text as one item. *)
Theorem parseNote_three_sentences (w : World) (log : list request) :
  let noteText := js "Buy milk. Call dentist tomorrow. Finish report by Friday." in
  let items := [js "Call dentist tomorrow"; js "Finish report by Friday"] in
  fst (HuggingFaceService.parseNote noteText w log) =
    match fst (HuggingFaceService.extractEntities noteText w log) with
    | Returned _ => Returned items
    | Thrown _ => Returned [noteText]
    end
  /\ Forall (fun s => (10 < length s)%nat /\ testClass isAsciiLetter s = true) items.
Proof.
  intros noteText items. split.
  - rewrite parseNote_cases.
    destruct (fst (HuggingFaceService.extractEntities noteText w log)); reflexivity.
  - repeat constructor.
Qed.

(** C6, as the specification states it, fails: with HuggingFace configured and the
    entity extraction answering, the three-sentence note comes back as two
    items, not three. *)
Lemma parseNote_three_sentences_counterexample :
  let result :=
    fst (HuggingFaceService.parseNote
           (js "Buy milk. Call dentist tomorrow. Finish report by Friday.")
           Examples.hfOnline []) in
  result = Returned [js "Call dentist tomorrow"; js "Finish report by Friday"]
  /\ ~ (exists items, result = Returned items /\ length items = 3%nat).
Proof.
  split; [reflexivity |].
  intros (items & E & H). vm_compute in E. injection E as <-. discriminate.
Qed.

(** C8.  [parseNote("ok")] is the one-element sequence ["ok"] in every
    world: whether the entity extraction returns or throws. *)
Theorem parseNote_ok (w : World) (log : list request) :
  fst (HuggingFaceService.parseNote (js "ok") w log) = Returned [js "ok"].
Proof.
  rewrite parseNote_cases.
  destruct (fst (HuggingFaceService.extractEntities (js "ok") w log)); reflexivity.
Qed.

(** C10.  For every text, the heuristic [parseNote] returns either at least
    two fragments, each a trimmed piece of the split that is longer than 10
    characters and has a letter, or the one-element sequence of the whole
    trimmed text; when exactly one fragment passes the filter the result is
    the whole trimmed text. *)
Theorem parseNote_shape (noteText : jsstring) (w : World) (log : list request) :
  let result := fst (HuggingFaceService.parseNote noteText w log) in
  ((exists sentences,
       result = Returned sentences
       /\ (2 <= length sentences)%nat
       /\ Forall (fun s => In s (map trim (splitRuns HuggingFaceService.isSentenceEnd noteText))
                           /\ (10 < length s)%nat
                           /\ testClass isAsciiLetter s = true) sentences)
   \/ result = Returned [trim noteText])
  /\ (length (HuggingFaceService.sentencesOf noteText) = 1%nat ->
      result = Returned [trim noteText]).
Proof.
  intros result. subst result. rewrite parseNote_cases.
  destruct (fst (HuggingFaceService.extractEntities noteText w log)) as [entities | e].
  - destruct (1 <? length (HuggingFaceService.sentencesOf noteText))%nat eqn:Hmany.
    + apply Nat.ltb_lt in Hmany. split.
      * left. exists (HuggingFaceService.sentencesOf noteText).
        repeat split; [lia | apply sentencesOf_kept].
      * intros Hone. lia.
    + split; [right |]; reflexivity.
  - split; [right |]; reflexivity.
Qed.

(** The theorem at work: one fragment passes the filter, and the whole
    text comes back, the short second sentence included. *)
Lemma parseNote_shape_witness :
  length (HuggingFaceService.sentencesOf (js "Remember the milk today. ok")) = 1%nat
  /\ fst (HuggingFaceService.parseNote (js "Remember the milk today. ok") Examples.hfOnline [])
     = Returned [js "Remember the milk today. ok"].
Proof.
  split; [reflexivity |].
  apply (proj2 (parseNote_shape (js "Remember the milk today. ok") Examples.hfOnline [])).
  reflexivity.
Defined.

(* ================================================================= *)
(** ** The unified service of [index.ts] *)

Section Unified.
Variables Env Ev : Type.
Variables hf openai google : Client.t Env Ev.

Lemma selected_other (p : jsstring) :
  p <> js "openai" -> p <> js "google" ->
  UnifiedAIService.selected hf openai google p = hf.
Proof.
  intros Ho Hg. unfold UnifiedAIService.selected.
  apply eqb_neq in Ho, Hg. now rewrite Ho, Hg.
Qed.

(** Every method runs the method of the selected client inside its
    [try]. *)
Lemma suggestTags_selected (p itemContent : jsstring) (availableTags : list jsstring) :
  UnifiedAIService.suggestTags hf openai google p itemContent availableTags =
  tryCatch (Client.suggestTags (UnifiedAIService.selected hf openai google p)
                               itemContent availableTags)
           (fun _ => ret []).
Proof.
  unfold UnifiedAIService.suggestTags, UnifiedAIService.selected.
  destruct (JS.eqb p (js "openai")), (JS.eqb p (js "google")); reflexivity.
Qed.

Lemma parseNote_selected (p noteText : jsstring) :
  UnifiedAIService.parseNote hf openai google p noteText =
  tryCatch (Client.parseNote (UnifiedAIService.selected hf openai google p) noteText)
           (fun _ => ret [trim noteText]).
Proof.
  unfold UnifiedAIService.parseNote, UnifiedAIService.selected.
  destruct (JS.eqb p (js "openai")), (JS.eqb p (js "google")); reflexivity.
Qed.

Lemma generateText_selected (p prompt : jsstring) (maxLength : Q) :
  UnifiedAIService.generateText hf openai google p prompt maxLength =
  tryCatch (Client.generateText (UnifiedAIService.selected hf openai google p)
                                prompt maxLength)
           (fun _ => ret []).
Proof.
  unfold UnifiedAIService.generateText, UnifiedAIService.selected.
  destruct (JS.eqb p (js "openai")), (JS.eqb p (js "google")); reflexivity.
Qed.
End Unified.

(** C9.  When the current provider is neither "openai" nor "google", every
    method of the unified service runs the HuggingFace client: the result is
    that of the HuggingFace method inside the method's [try], whatever the
    two other clients are, and a successful connection test is labelled
    "huggingface".  The name is not checked against the provider enum. *)
Theorem unrecognised_provider_runs_huggingface
        (Env Ev : Type) (hf openai google : Client.t Env Ev) (p : jsstring) :
  p <> js "openai" -> p <> js "google" ->
  UnifiedAIService.testConnection hf openai google p =
    tryCatch (result <- Client.testConnection hf ;;
              ret (UnifiedAIService.withProvider result (js "huggingface")))
             (fun error =>
                ret {| UnifiedAIService.connected := false;
                       UnifiedAIService.apiKeyConfigured := false;
                       UnifiedAIService.provider := p;
                       UnifiedAIService.error := Some (errorMessage error) |})
  /\ (forall itemContent availableTags,
        UnifiedAIService.suggestTags hf openai google p itemContent availableTags =
        tryCatch (Client.suggestTags hf itemContent availableTags) (fun _ => ret []))
  /\ (forall noteText,
        UnifiedAIService.parseNote hf openai google p noteText =
        tryCatch (Client.parseNote hf noteText) (fun _ => ret [trim noteText]))
  /\ (forall prompt maxLength,
        UnifiedAIService.generateText hf openai google p prompt maxLength =
        tryCatch (Client.generateText hf prompt maxLength) (fun _ => ret [])).
Proof.
  intros Ho Hg. repeat split; intros.
  - unfold UnifiedAIService.testConnection, UnifiedAIService.testConnectionWithProvider.
    apply eqb_neq in Ho, Hg. now rewrite Ho, Hg.
  - now rewrite suggestTags_selected, selected_other.
  - now rewrite parseNote_selected, selected_other.
  - now rewrite generateText_selected, selected_other.
Qed.

(** The theorem at work on stub clients and the provider name "mistral". *)
Lemma unrecognised_provider_runs_huggingface_witness :
  js "mistral" <> js "openai" /\ js "mistral" <> js "google" /\
  UnifiedAIService.suggestTags (Stub.client HuggingFace) (Stub.client OpenAI)
                               (Stub.client Google) (js "mistral")
                               (js "note") [js "work"] =
  tryCatch (Client.suggestTags (Stub.client HuggingFace) (js "note") [js "work"])
           (fun _ => ret []).
Proof.
  assert (Ho : js "mistral" <> js "openai") by discriminate.
  assert (Hg : js "mistral" <> js "google") by discriminate.
  split; [exact Ho | split; [exact Hg |]].
  apply (unrecognised_provider_runs_huggingface
           (Stub.client HuggingFace) (Stub.client OpenAI) (Stub.client Google) Ho Hg).
Defined.

(** On the clients of the repository: the provider name "mistral" gets
    the HuggingFace connection test, labelled "huggingface". *)
Example unrecognised_provider_on_real_clients :
  UnifiedAIService.testConnection (hfService Examples.latin1) (openAIService Examples.latin1)
                                  googleAIService (js "mistral") Examples.hfOnline []
  = (Returned {| UnifiedAIService.connected := true;
                 UnifiedAIService.apiKeyConfigured := true;
                 UnifiedAIService.provider := js "huggingface";
                 UnifiedAIService.error := None |},
     [HfTextClassification HuggingFaceService.sentimentModel
                           (js "Hello world, this is a test.")]).
Proof. reflexivity. Qed.

(** C2, as the code has it.  The unified [generateText] never throws: it
    returns what the selected client's [generateText] returns, and the
    empty string when that call throws. *)
Theorem generateText_swallows_failure
        (Env Ev : Type) (hf openai google : Client.t Env Ev)
        (p prompt : jsstring) (maxLength : Q) (w : Env) (log : list Ev) :
  UnifiedAIService.generateText hf openai google p prompt maxLength w log =
  match Client.generateText (UnifiedAIService.selected hf openai google p)
                            prompt maxLength w log with
  | (Returned text, log') => (Returned text, log')
  | (Thrown _, log') => (Returned [], log')
  end.
Proof.
  rewrite generateText_selected. unfold tryCatch, ret.
  destruct (Client.generateText _ prompt maxLength w log) as [[text | e] log']; reflexivity.
Qed.

(** C2, as the specification states it, fails: with HuggingFace configured and the
    generation endpoint failing, the client throws and the unified service
    returns the empty string. *)
Lemma generateText_counterexample :
  let w := Examples.offline [(js "HUGGINGFACE_API_KEY", js "hf_key")] in
  let sent := [HfTextGeneration (js "gpt2") (js "Write a haiku") 100 0.7 true] in
  HuggingFaceService.generateText (js "Write a haiku") 100 w [] =
    (Thrown (Error (js "Text generation failed: fetch failed")), sent)
  /\ UnifiedAIService.generateText (hfService Examples.latin1) (openAIService Examples.latin1)
                                   googleAIService (js "huggingface")
                                   (js "Write a haiku") 100 w [] =
    (Returned [], sent).
Proof. split; reflexivity. Qed.

(* ================================================================= *)
(** ** Fallback between providers *)

Lemma suggestCalls_app (l1 l2 : list Stub.call) :
  Stub.suggestCalls (l1 ++ l2) = Stub.suggestCalls l1 ++ Stub.suggestCalls l2.
Proof. unfold Stub.suggestCalls. apply flat_map_app. Qed.

Section Fallback.
Import FallbackAIService.
Variable b : Stub.Behaviour.
Variables (itemContent : jsstring) (availableTags : list jsstring).

Hypothesis all_connected :
  forall p, exists st, Stub.onTestConnection b p = Returned st
                       /\ Client.connected st = true.

(** One pass through the [try] block on a connected provider: the
    connection test, then the provider's own [suggestTags]. *)
Lemma attempt_connected (p : AIProvider) (log : list Stub.call) :
  attempt (Stub.client HuggingFace) (Stub.client Google) p itemContent availableTags b log =
  (Stub.onSuggestTags b (nameOf p) itemContent availableTags,
   log ++ [Stub.TestConnection (nameOf p)]
       ++ [Stub.SuggestTags (nameOf p) itemContent availableTags]).
Proof.
  destruct (all_connected (nameOf p)) as (st & Est & Hst).
  destruct p; unfold attempt, viaHuggingFace; simpl in *; io_unfold;
    rewrite Est, Hst, <- app_assoc; reflexivity.
Qed.

(** While both providers throw, the method keeps passing the call to the
    other provider: no number of nested calls is enough for it to return,
    and the providers are visited in alternation. *)
Lemma fallback_alternates (e : ProviderName -> exn) :
  (forall p, Stub.onSuggestTags b p itemContent availableTags = Thrown (e p)) ->
  forall fuel defaultProvider p log,
  exists log',
    suggestTags (Stub.client HuggingFace) (Stub.client Google) fuel defaultProvider
                itemContent availableTags (Some p) b log = (Returned None, log')
    /\ Stub.suggestCalls log' = Stub.suggestCalls log ++ Stub.alternation p fuel.
Proof.
  intros Hthrow fuel defaultProvider.
  induction fuel as [| fuel IH]; intros p log; simpl.
  - exists log. split; [reflexivity | now rewrite app_nil_r].
  - unfold tryCatch at 1. unfold bind at 1.
    rewrite attempt_connected, Hthrow.
    destruct (IH (fallbackOf p)
                 (log ++ [Stub.TestConnection (nameOf p)]
                      ++ [Stub.SuggestTags (nameOf p) itemContent availableTags]))
      as (log' & Erun & Hcalls).
    exists log'. unfold tryCatch. rewrite Erun. split; [reflexivity |].
    rewrite Hcalls, !suggestCalls_app, <- app_assoc. reflexivity.
Qed.
End Fallback.




(* ================================================================= *)
(** ** [compareProviders] *)

(** C4, as the code has it.  For a signed-in user and a tag table that
    answers, [compareProviders] returns one entry per provider, and the
    entry of a provider is decided by that provider's [suggestTags] alone:
    its tags when the call returns, no tag and the message of the error
    when it throws.  The status of every entry is 'fulfilled', a throwing
    provider included, because [suggestTagsWithProvider] catches. *)
Theorem compareProviders_entries
        (b : Stub.Behaviour) (text : jsstring) (context : Operations.Context)
        (someone : unit) (rows : list Operations.TagRow) (log : list Stub.call) :
  Operations.user context = Some someone ->
  Operations.Tag_findMany context = Returned rows ->
  let tagNames := map Operations.name rows in
  fst (Operations.compareProviders (Stub.client HuggingFace) (Stub.client OpenAI)
                                   (Stub.client Google) text context b log)
  = Returned (Operations.Comparison (Operations.now context) text (length tagNames)
                (Stub.entryFor b HuggingFace text tagNames)
                (Stub.entryFor b OpenAI text tagNames)
                (Stub.entryFor b Google text tagNames)).
Proof.
  intros Huser Hrows tagNames.
  unfold Operations.compareProviders. rewrite Huser.
  unfold Operations.suggestWith, Operations.settle,
    UnifiedAIService.suggestTagsWithProvider, Stub.entryFor.
  io_unfold. rewrite Hrows. fold tagNames. cbn.
  destruct (Stub.onSuggestTags b HuggingFace text tagNames);
    destruct (Stub.onSuggestTags b OpenAI text tagNames);
    destruct (Stub.onSuggestTags b Google text tagNames); reflexivity.
Qed.

(** The theorem at work: two tags in the table, OpenAI throwing. *)
Lemma compareProviders_entries_witness :
  let b := Examples.behaviour (fun p => match p with OpenAI => true | _ => false end)
                              (fun _ => [js "work"]) in
  let context := Examples.signedIn [js "work"; js "home"] in
  Operations.user context = Some tt
  /\ Operations.Tag_findMany context
     = Returned (map Operations.Build_TagRow [js "work"; js "home"])
  /\ fst (Operations.compareProviders (Stub.client HuggingFace) (Stub.client OpenAI)
                                      (Stub.client Google) (js "note") context b [])
     = Returned (Operations.Comparison (Operations.now context) (js "note") 2
                   (Stub.entryFor b HuggingFace (js "note") [js "work"; js "home"])
                   (Stub.entryFor b OpenAI (js "note") [js "work"; js "home"])
                   (Stub.entryFor b Google (js "note") [js "work"; js "home"])).
Proof.
  intros b context.
  split; [reflexivity | split; [reflexivity |]].
  exact (@compareProviders_entries b (js "note") context tt
           (map Operations.Build_TagRow [js "work"; js "home"]) [] eq_refl eq_refl).
Defined.

(** C4, as the specification states it, fails: the provider that throws is
    reported with the status 'fulfilled', not 'rejected'. *)
Lemma compareProviders_counterexample :
  let b := Examples.behaviour (fun p => match p with OpenAI => true | _ => false end)
                              (fun _ => [js "work"]) in
  let context := Examples.signedIn [js "work"; js "home"] in
  let answered := {| Operations.status := Operations.Fulfilled;
                     Operations.tags := [js "work"];
                     Operations.error := None |} in
  let failed := {| Operations.status := Operations.Fulfilled;
                   Operations.tags := [];
                   Operations.error := Some (js "boom") |} in
  Stub.onSuggestTags b OpenAI (js "note") [js "work"; js "home"] = Thrown (Error (js "boom"))
  /\ fst (Operations.compareProviders (Stub.client HuggingFace) (Stub.client OpenAI)
                                      (Stub.client Google) (js "note") context b [])
     = Returned (Operations.Comparison (js "2025-01-01T00:00:00.000Z") (js "note") 2
                                       answered failed answered)
  /\ Operations.status failed <> Operations.Rejected.
Proof. repeat split. discriminate. Qed.

(* ================================================================= *)
(** ** Suggested tags *)

Lemma filterM_sublist {A} (f : A -> outcome bool) (l kept : list A) :
  Pure.filterM f l = Returned kept ->
  (forall x, In x kept -> In x l) /\ (NoDup l -> NoDup kept).
Proof.
  revert kept; induction l as [| a l IH]; simpl; intros kept H.
  - injection H as <-. split; [tauto | intros; constructor].
  - destruct (f a) as [keep | e]; simpl in H; [| discriminate].
    destruct (Pure.filterM f l) as [rest | e]; simpl in H; [| discriminate].
    injection H as <-. destruct (IH rest eq_refl) as [Hin Hnd].
    split.
    + intros x Hx. destruct keep; [destruct Hx as [-> | Hx] |]; simpl; auto.
    + intros Hl. inversion Hl; subst. destruct keep; [| now apply Hnd].
      constructor; [| now apply Hnd]. intros Hx. apply Hin in Hx. contradiction.
Qed.

Section GoogleTags.
Import GoogleAIService.

Lemma tagsOfAnswer_bounds (text : jsstring) (availableTags : list jsstring) :
  atMostThreeFrom availableTags (tagsOfAnswer text availableTags).
Proof.
  unfold tagsOfAnswer. split.
  - apply firstn_le_length.
  - intros x H. apply In_firstn in H. apply filter_In in H as [_ H].
    now apply arrayIncludes_In.
Qed.

Lemma google_suggestTags_bounds (itemContent : jsstring) (availableTags : list jsstring)
      (w : World) (log : list request) :
  exists l log',
    suggestTags itemContent availableTags w log = (Returned l, log')
    /\ atMostThreeFrom availableTags l.
Proof.
  unfold suggestTags. io_unfold.
  destruct (unconfigured w).
  - exists [], log. split; [reflexivity |]. split; simpl; [lia | tauto].
  - destruct (generateContent w _) as [text | e].
    + eexists _, _. split; [reflexivity | apply tagsOfAnswer_bounds].
    + eexists [], _. split; [reflexivity |]. split; simpl; [lia | tauto].
Qed.
End GoogleTags.

Section OpenAITags.
Import OpenAIService.
Variable pf : Platform.

Lemma relevantResult_label (candidateLabels : list jsstring) (result : json)
      (r : ClassificationResult) :
  relevantResult candidateLabels result = Returned (Some r) ->
  In (label r) candidateLabels.
Proof.
  unfold relevantResult.
  destruct (readField result (js "label")) as [[[| | | s | |] |] | e]; simpl;
    try discriminate.
  destruct (arrayIncludes candidateLabels s) eqn:Hin; [| discriminate].
  apply arrayIncludes_In in Hin.
  destruct (readField result (js "score")) as [[[| | q | | |] |] | e]; simpl;
    try discriminate.
  destruct (Qgtb q 0); [| discriminate].
  intros H. injection H as <-. exact Hin.
Qed.

Lemma filterResults_labels (candidateLabels : list jsstring) (results : list json)
      (kept : list ClassificationResult) :
  filterResults candidateLabels results = Returned kept ->
  forall r, In r kept -> In (label r) candidateLabels.
Proof.
  revert kept; induction results as [| result results IH]; simpl; intros kept H.
  - injection H as <-. intros r [].
  - destruct (relevantResult candidateLabels result) as [keep | e] eqn:Hkeep;
      simpl in H; [| discriminate].
    destruct (filterResults candidateLabels results) as [rest | e]; simpl in H;
      [| discriminate].
    injection H as <-. intros r Hr.
    destruct keep as [r0 |]; [destruct Hr as [<- | Hr] |]; eauto.
    eapply relevantResult_label; eassumption.
Qed.

Lemma classifyText_labels (text : jsstring) (candidateLabels : list jsstring)
      (w : World) (log log' : list request) (classification : list ClassificationResult) :
  classifyText pf text candidateLabels w log = (Returned classification, log') ->
  forall r, In r classification -> In (label r) candidateLabels.
Proof.
  unfold classifyText. io_unfold.
  destruct (negb (truthy (OPENAI_API_KEY w))); [discriminate |].
  destruct (chatCompletionsCreate w _) as [content | e]; [| discriminate].
  destruct (negb (truthy content)); [discriminate |].
  destruct (JSON_parse pf (orElse content [])) as [parsed | e]; simpl.
  - destruct parsed; simpl; try (intros H; injection H as <- _; intros r []).
    destruct (filterResults candidateLabels items) as [kept | e] eqn:Hkept.
    + intros H. injection H as <- _. eapply filterResults_labels; eassumption.
    + intros H. injection H as <- _. intros r [].
  - intros H. injection H as <- _. intros r [].
Qed.

Lemma openai_suggestTags_bounds (itemContent : jsstring) (availableTags : list jsstring)
      (w : World) (log : list request) :
  exists l log',
    suggestTags pf itemContent availableTags w log = (Returned l, log')
    /\ atMostThreeFrom availableTags l.
Proof.
  unfold suggestTags. unfold tryCatch at 1. unfold bind at 1.
  destruct (classifyText pf itemContent availableTags w log)
    as [[classification | e] log'] eqn:Hc.
  - eexists _, _. split; [reflexivity |]. split.
    + apply topThree_length.
    + intros x Hx. apply topThree_In in Hx.
      apply in_map_iff in Hx as (r & <- & Hr).
      eapply classifyText_labels; eassumption.
  - eexists [], _. split; [reflexivity |]. split; simpl; [lia | tauto].
Qed.
End OpenAITags.

Section HuggingFaceTags.
Import HuggingFaceService.
Variable pf : Platform.

Lemma scoreTag_tag (itemContent t : jsstring) (w : World) (log log' : list request)
      (r : TagScore) :
  scoreTag pf itemContent t w log = (Returned r, log') -> tag r = t.
Proof.
  unfold scoreTag. io_unfold.
  destruct (textClassification w _);
    destruct (calculateTagRelevance pf itemContent t); simpl;
    intros H; try discriminate; injection H as <- _; reflexivity.
Qed.

Lemma forEach_scoreTag_tags (itemContent : jsstring) (availableTags : list jsstring) :
  forall (w : World) (log log' : list request) (tagScores : list TagScore),
  forEach (scoreTag pf itemContent) availableTags w log = (Returned tagScores, log') ->
  map tag tagScores = availableTags.
Proof.
  induction availableTags as [| t availableTags IH]; simpl; intros w log log' tagScores H.
  - unfold ret in H. injection H as <- _. reflexivity.
  - unfold bind at 1 in H.
    destruct (scoreTag pf itemContent t w log) as [[r | e] log1] eqn:Hr; [| discriminate].
    unfold bind at 1 in H.
    destruct (forEach (scoreTag pf itemContent) availableTags w log1)
      as [[rs | e] log2] eqn:Hrs; [| discriminate].
    unfold ret in H. injection H as <- _. simpl.
    f_equal; [eapply scoreTag_tag | eapply IH]; eassumption.
Qed.

Lemma fallbackKeywordMatching_bounds (itemContent : jsstring)
      (availableTags l : list jsstring) :
  fallbackKeywordMatching pf itemContent availableTags = Returned l ->
  atMostThreeFrom availableTags l /\ (NoDup availableTags -> NoDup l).
Proof.
  unfold fallbackKeywordMatching.
  destruct (Pure.filterM _ availableTags) as [matches | e] eqn:Hm;
    unfold Pure.bind; [| discriminate].
  intros H. assert (E : l = firstn 3 matches) by congruence. subst l. clear H.
  apply filterM_sublist in Hm as [Hin Hnd]. repeat split.
  - apply firstn_le_length.
  - intros x Hx. apply Hin. eapply In_firstn; eassumption.
  - intros Hv. apply NoDup_firstn. auto.
Qed.

Lemma distilbert_bounds (itemContent : jsstring) (availableTags l : list jsstring)
      (w : World) (log log' : list request) :
  suggestTagsWithDistilBERT pf itemContent availableTags w log = (Returned l, log') ->
  atMostThreeFrom availableTags l /\ (NoDup availableTags -> NoDup l).
Proof.
  unfold suggestTagsWithDistilBERT. unfold tryCatch, lift.
  destruct (bind _ _ w log) as [[l0 | e] log0] eqn:Hbody.
  - intros H. injection H as -> ->. revert Hbody. io_unfold.
    destruct (negb (truthy (HF_API_KEY w))); [discriminate |].
    destruct (forEach (scoreTag pf itemContent) availableTags w log)
      as [[tagScores | e] log1] eqn:Hscores; [| discriminate].
    apply forEach_scoreTag_tags in Hscores.
    destruct (0 <? length _)%nat.
    + intros H. injection H as <- _. repeat split.
      * apply topThree_length.
      * intros x Hx. apply topThree_In in Hx. now rewrite Hscores in Hx.
      * intros Hv. apply topThree_NoDup. now rewrite Hscores.
    + intros H. apply (fallbackKeywordMatching_bounds itemContent). congruence.
  - intros H. apply (fallbackKeywordMatching_bounds itemContent). congruence.
Qed.

Lemma hf_suggestTags_bounds (itemContent : jsstring) (availableTags : list jsstring)
      (w : World) (log : list request) :
  exists l log',
    suggestTags pf itemContent availableTags w log = (Returned l, log')
    /\ (length l <= 3)%nat
    /\ (HF_MODEL_CLASSIFICATION w = js "distilbert-base-uncased" ->
        (forall x, In x l -> In x availableTags)
        /\ (NoDup availableTags -> NoDup l)).
Proof.
  unfold suggestTags. unfold tryCatch at 1. unfold bind at 1, asks at 1.
  destruct (JS.eqb (HF_MODEL_CLASSIFICATION w) (js "distilbert-base-uncased")) eqn:Hmodel.
  - destruct (suggestTagsWithDistilBERT pf itemContent availableTags w log)
      as [[l | e] log'] eqn:Hd.
    + apply distilbert_bounds in Hd as [[Hlen Hin] Hnd].
      exists l, log'. repeat split; auto.
    + eexists [], _. split; [reflexivity |]. split; [simpl; lia |].
      intros _. split; [intros x [] | intros _; constructor].
  - apply eqb_neq in Hmodel. unfold bind at 1.
    destruct (classifyText itemContent availableTags w log)
      as [[classification | e] log'] eqn:Hc.
    + eexists _, _. split; [reflexivity |]. split; [apply topThree_length |].
      intros E. contradiction.
    + eexists [], _. split; [reflexivity |]. split; [simpl; lia |].
      intros E. contradiction.
Qed.
End HuggingFaceTags.

(** C1, as the code has it.  On each provider and in every world,
    [suggestTags] returns (it does not throw) at most three tags.  On the
    Google and OpenAI clients every tag returned is a member of the
    vocabulary; on the HuggingFace client with the default classification
    model (the heuristic path) every tag returned is a member of the
    vocabulary and, the vocabulary being duplicate-free, so is the result. *)
Theorem suggestTags_at_most_three
        (pf : Platform) (itemContent : jsstring) (availableTags : list jsstring)
        (w : World) (log : list request) :
  NoDup availableTags ->
  (exists l log',
      GoogleAIService.suggestTags itemContent availableTags w log = (Returned l, log')
      /\ atMostThreeFrom availableTags l)
  /\ (exists l log',
         OpenAIService.suggestTags pf itemContent availableTags w log = (Returned l, log')
         /\ atMostThreeFrom availableTags l)
  /\ (exists l log',
         HuggingFaceService.suggestTags pf itemContent availableTags w log = (Returned l, log')
         /\ (length l <= 3)%nat
         /\ (HuggingFaceService.HF_MODEL_CLASSIFICATION w = js "distilbert-base-uncased" ->
             (forall x, In x l -> In x availableTags) /\ NoDup l)).
Proof.
  intros Hv. split; [| split].
  - apply google_suggestTags_bounds.
  - apply openai_suggestTags_bounds.
  - destruct (hf_suggestTags_bounds pf itemContent availableTags w log)
      as (l & log' & E & Hlen & Hpath).
    exists l, log'. split; [exact E | split; [exact Hlen |]].
    intros Hm. destruct (Hpath Hm) as [Hin Hnd]. split; [exact Hin | exact (Hnd Hv)].
Qed.

(** The theorem at work on the heuristic path: HuggingFace configured
    with the default model, a duplicate-free vocabulary of two tags. *)
Lemma suggestTags_at_most_three_witness :
  let itemContent := js "project meeting at the office" in
  let availableTags := [js "work"; js "travel"] in
  NoDup availableTags
  /\ HuggingFaceService.HF_MODEL_CLASSIFICATION Examples.hfOnline
     = js "distilbert-base-uncased"
  /\ exists l log',
       HuggingFaceService.suggestTags Examples.latin1 itemContent availableTags
                                      Examples.hfOnline []
       = (Returned l, log')
       /\ (length l <= 3)%nat
       /\ (forall x, In x l -> In x availableTags)
       /\ NoDup l.
Proof.
  intros itemContent availableTags.
  assert (Hv : NoDup availableTags).
  { repeat constructor; simpl; intuition discriminate. }
  split; [exact Hv | split; [reflexivity |]].
  destruct (@suggestTags_at_most_three Examples.latin1 itemContent availableTags
              Examples.hfOnline [] Hv)
    as (_ & _ & l & log' & E & Hlen & Hpath).
  destruct (Hpath eq_refl) as [Hin Hnd].
  exists l, log'. repeat split; assumption.
Defined.

(** C1, as the specification states it, fails: the Google client keeps a tag the
    model names twice. *)
Lemma suggestTags_duplicates_counterexample :
  let availableTags := [js "work"; js "home"] in
  NoDup availableTags
  /\ fst (GoogleAIService.suggestTags (js "quarterly report") availableTags
            (Examples.googleAnswering (js "work, work")) [])
     = Returned [js "work"; js "work"]
  /\ ~ NoDup [js "work"; js "work"].
Proof.
  intros availableTags. split; [| split].
  - repeat constructor; simpl; intuition discriminate.
  - reflexivity.
  - intros H. inversion H; subst. simpl in *. tauto.
Qed.

(** The OpenAI client keeps duplicates in the same way. *)
Example openai_suggestTags_duplicates :
  fst (OpenAIService.suggestTags Examples.latin1 (js "quarterly report")
         [js "work"; js "home"] (Examples.openaiAnswering Examples.twiceWork) [])
  = Returned [js "work"; js "work"].
Proof. reflexivity. Qed.

(** On the zero-shot path of the HuggingFace client the labels of the
    remote answer are returned as they come: they are not checked against
    the vocabulary. *)
Example zeroShot_labels_unchecked :
  fst (HuggingFaceService.suggestTags Examples.latin1 (js "quarterly report")
         [js "work"; js "home"]
         (Examples.zeroShotAnswering [js "finance"] [0.9]) [])
  = Returned [js "finance"].
Proof. reflexivity. Qed.

(** The heuristic path on the design's own scenario: "travel" is left out. *)
Example heuristic_scenario :
  fst (HuggingFaceService.suggestTags Examples.latin1
         (js "I need to buy tomatoes and cheese for making Italian pasta tonight")
         [js "groceries"; js "cooking"; js "italian"; js "travel"]
         Examples.hfOnline [])
  = Returned [js "italian"; js "groceries"; js "cooking"].
Proof. reflexivity. Qed.

(* ================================================================= *)
(** ** The relevance score *)

Section Relevance.
Import HuggingFaceService RelevanceSpec.
Variable pf : Platform.

Ltac qnat_literals :=
  change (Qnat 0) with 0 in *; change (Qnat 1) with 1 in *.

Lemma Qnat_S (n : nat) : Qnat (S n) == Qnat n + 1.
Proof.
  unfold Qnat. rewrite Nat2Z.inj_succ. unfold Z.succ.
  rewrite inject_Z_plus. reflexivity.
Qed.

Lemma Qnat_add (n m : nat) : Qnat (n + m) == Qnat n + Qnat m.
Proof. unfold Qnat. rewrite Nat2Z.inj_add, inject_Z_plus. reflexivity. Qed.

(** For tokens of three characters or more, the two [startsWith] tests
    of the inner loop both say: same first three characters. *)
Lemma startsWith_prefix3 (x y : jsstring) :
  (2 < length x)%nat -> (2 < length y)%nat ->
  startsWith x (substring0 3 y) = JS.eqb (firstn 3 x) (firstn 3 y).
Proof.
  destruct x as [| a [| b [| c x]]]; simpl; try lia.
  destruct y as [| a' [| b' [| c' y]]]; simpl; try lia.
  intros _ _. destruct x; reflexivity.
Qed.

Lemma wordStep_kinds (x y : jsstring) (s : Q) :
  (2 < length x)%nat -> (2 < length y)%nat ->
  wordStep x s y == s + 0.6 * Qnat (length (filter exactMatch [(x, y)]))
                      + 0.3 * Qnat (length (filter prefixMatch [(x, y)])).
Proof.
  intros Hx Hy. unfold wordStep.
  rewrite (@startsWith_prefix3 x y Hx Hy), (@startsWith_prefix3 y x Hy Hx).
  rewrite (eqb_sym (firstn 3 y)), orb_diag.
  cbn [filter]. unfold exactMatch, prefixMatch. cbn [fst snd].
  destruct (JS.eqb x y); [| destruct (JS.eqb (firstn 3 x) (firstn 3 y))];
    cbn [negb andb length]; qnat_literals; lra.
Qed.

Lemma innerLoop_counts (x : jsstring) (tagWords : list jsstring) :
  (2 < length x)%nat ->
  Forall (fun y => (2 < length y)%nat) tagWords ->
  forall s,
    fold_left (wordStep x) tagWords s
    == s + 0.6 * Qnat (length (filter exactMatch (map (fun y => (x, y)) tagWords)))
         + 0.3 * Qnat (length (filter prefixMatch (map (fun y => (x, y)) tagWords))).
Proof.
  intros Hx Hall. induction Hall as [| y tagWords Hy Hall IH]; intros s.
  - simpl. qnat_literals. lra.
  - cbn [fold_left map]. rewrite IH, (@wordStep_kinds x y s Hx Hy).
    change ((x, y) :: map (fun y => (x, y)) tagWords)
      with ([(x, y)] ++ map (fun y => (x, y)) tagWords).
    rewrite !filter_app, !length_app, !Qnat_add. unfold jsstring, char in *. lra.
Qed.

Lemma wordLoop_counts (contentWords tagWords : list jsstring) :
  Forall (fun x => (2 < length x)%nat) contentWords ->
  Forall (fun y => (2 < length y)%nat) tagWords ->
  forall s,
    wordLoop contentWords tagWords s
    == s + 0.6 * Qnat (countMatches exactMatch contentWords tagWords)
         + 0.3 * Qnat (countMatches prefixMatch contentWords tagWords).
Proof.
  intros Hc Ht. unfold wordLoop, countMatches.
  induction Hc as [| x contentWords Hx Hc IH]; intros s.
  - simpl. qnat_literals. lra.
  - cbn [fold_left list_prod]. rewrite IH, (@innerLoop_counts x tagWords Hx Ht).
    rewrite !filter_app, !length_app, !Qnat_add. unfold jsstring, char in *. lra.
Qed.

Lemma longWords_long (s : jsstring) :
  Forall (fun x => (2 < length x)%nat) (longWords s).
Proof.
  apply Forall_forall. intros x H. apply filter_In in H as [_ H].
  now apply Nat.ltb_lt.
Qed.

(** The table lookup of [getContextMatches] away from the names
    [Object.prototype] defines. *)
Lemma getContextMatches_hits (content name : jsstring) :
  toLowerCase pf name = name ->
  arrayIncludes objectPrototypeKeys name = false ->
  getContextMatches pf content name = Returned (contextHits content name).
Proof.
  intros Hlower Hproto. unfold getContextMatches, getProperty, contextHits, keywordsOf.
  rewrite Hlower, Hproto.
  destruct (ownProperty contextMappings name); reflexivity.
Qed.

Lemma ownProperty_absent {A} (obj : list (jsstring * A)) (key : jsstring) :
  ~ In key (map fst obj) -> ownProperty obj key = None.
Proof.
  induction obj as [| [k v] obj IH]; simpl; intros H; [reflexivity |].
  destruct (JS.eqb k key) eqn:E.
  - apply eqb_eq in E. tauto.
  - apply IH. tauto.
Qed.
End Relevance.

(** In exact arithmetic: for a tag whose lowercased name is not a property
    of [Object.prototype], the method with exact sums returns min(1.0, s),
    s being the sum of the weights of the matches. *)
Lemma calculateTagRelevance_exact (pf : Platform) (content tag : jsstring) :
  (forall s, toLowerCase pf (toLowerCase pf s) = toLowerCase pf s) ->
  arrayIncludes objectPrototypeKeys (toLowerCase pf tag) = false ->
  (exists q,
      HuggingFaceService.calculateTagRelevance pf content tag = Returned q
      /\ q == RelevanceSpec.relevanceAmended pf content tag)
  /\ (~ In (toLowerCase pf tag) (map fst HuggingFaceService.contextMappings) ->
      HuggingFaceService.getContextMatches pf (toLowerCase pf content) (toLowerCase pf tag)
      = Returned 0%nat).
Proof.
  intros Hidem Hproto. split.
  - unfold HuggingFaceService.calculateTagRelevance.
    rewrite (@getContextMatches_hits pf (toLowerCase pf content) (toLowerCase pf tag) (Hidem tag) Hproto). simpl Pure.bind.
    eexists. split; [reflexivity |].
    unfold RelevanceSpec.relevanceAmended.
    rewrite Q.min_comm. apply Q.min_compat; [reflexivity |].
    rewrite (@wordLoop_counts _ _ (longWords_long _) (longWords_long _)).
    unfold RelevanceSpec.sharedTerms, RelevanceSpec.partialMatch, RelevanceSpec.firstWord,
      RelevanceSpec.bonus, RelevanceSpec.tokens, HuggingFaceService.longWords,
      RelevanceSpec.Qnat.
    destruct (includes (toLowerCase pf content) (toLowerCase pf tag));
      destruct (includes (toLowerCase pf tag) _ || existsb _ _); lra.
  - intros Hkey.
    rewrite (@getContextMatches_hits pf (toLowerCase pf content) (toLowerCase pf tag) (Hidem tag) Hproto).
    unfold RelevanceSpec.contextHits, RelevanceSpec.keywordsOf.
    now rewrite (@ownProperty_absent _ _ _ Hkey).
Qed.

Lemma lowerLatin1_idempotent (c : char) : lowerLatin1 (lowerLatin1 c) = lowerLatin1 c.
Proof.
  unfold lowerLatin1, inRange.
  destruct (N.leb_spec 65 c), (N.leb_spec c 90), (N.leb_spec 192 c), (N.leb_spec c 222);
    cbn [andb orb]; try (destruct (N.eqb_spec c 215); cbn [negb andb orb]);
    repeat match goal with
           | |- context [N.leb ?a ?b] => destruct (N.leb_spec a b)
           | |- context [N.eqb ?a ?b] => destruct (N.eqb_spec a b)
           end; cbn [negb andb orb]; try reflexivity; lia.
Qed.

Lemma toLowerCaseLatin1_idempotent (s : jsstring) :
  toLowerCaseLatin1 (toLowerCaseLatin1 s) = toLowerCaseLatin1 s.
Proof.
  unfold toLowerCaseLatin1. rewrite map_map. apply map_ext.
  intros c. apply lowerLatin1_idempotent.
Qed.


(* ================================================================= *)
(** ** The relevance score as the runtime computes it *)

Section Rounding.
Import Binary64.

Lemma binary64_compat (q q' : Q) : q == q' -> binary64 q = binary64 q'.
Proof.
  intros H. unfold binary64. now rewrite (Qred_complete q q' H).
Qed.

Lemma pow2_pos (e : Z) : 0 < pow2 e.
Proof. apply Qpower_0_lt. reflexivity. Qed.

Lemma pow2_add (e1 e2 : Z) : pow2 (e1 + e2) == pow2 e1 * pow2 e2.
Proof. apply Qpower_plus. discriminate. Qed.

Lemma pow2_Z (e : Z) : (0 <= e)%Z -> pow2 e == inject_Z (2 ^ e).
Proof. intros H. unfold pow2. now rewrite (Zpower_Qpower 2 e H). Qed.

Lemma exponentOf_below (a : Q) :
  1 <= a -> (0 <= exponentOf a)%Z /\ pow2 (exponentOf a) <= a.
Proof.
  intros Ha. destruct a as [n d].
  assert (Hn : (Zpos d <= n)%Z).
  { unfold Qle in Ha. simpl in Ha. lia. }
  assert (Hlog : (Z.log2 (Zpos d) <= Z.log2 n)%Z) by now apply Z.log2_le_mono.
  unfold exponentOf. cbn [Qnum Qden].
  set (ln := Z.log2 n) in *. set (ld := Z.log2 (Zpos d)) in *.
  destruct (Qle_bool (pow2 (ln - ld)) (n # d)) eqn:Htest.
  - apply Qle_bool_iff in Htest. split; [lia | exact Htest].
  - assert (Hne : (ln - ld <> 0)%Z).
    { intros E. rewrite E in Htest.
      assert (Qle_bool (pow2 0) (n # d) = true) by (apply Qle_bool_iff; exact Ha).
      congruence. }
    split; [lia |].
    destruct (Z.log2_spec n ltac:(lia)) as [Hn1 _]. fold ln in Hn1.
    destruct (Z.log2_spec (Zpos d) ltac:(lia)) as [_ Hd2]. fold ld in Hd2.
    assert (Hld : (0 <= ld)%Z) by apply Z.log2_nonneg.
    assert (Hk : (0 <= ln - ld - 1)%Z) by lia.
    rewrite (@pow2_Z (ln - ld - 1)%Z Hk). unfold Qle. cbn [Qnum Qden inject_Z].
    rewrite Z.mul_1_r.
    assert (E : (2 ^ ln = 2 ^ (ln - ld - 1) * 2 ^ Z.succ ld)%Z).
    { rewrite <- Z.pow_add_r by lia. f_equal. lia. }
    assert (Hp : (0 < 2 ^ (ln - ld - 1))%Z) by (apply Z.pow_pos_nonneg; lia).
    nia.
Qed.

Lemma nearestEven_floor (m : Q) : (Qfloor m <= nearestEven m)%Z.
Proof.
  unfold nearestEven. destruct (Qcompare _ _); [destruct (Z.even _) | |]; lia.
Qed.

Lemma nearest_ge_one (a : Q) : 1 <= a -> 1 <= nearest a.
Proof.
  intros Ha. destruct (@exponentOf_below a Ha) as [He Hpow].
  unfold nearest. set (e := exponentOf a) in *.
  assert (Hm : inject_Z (2 ^ 52) <= a * pow2 (52 - e)).
  { rewrite <- (@pow2_Z 52%Z ltac:(lia)).
    replace 52%Z with (e + (52 - e))%Z at 1 by lia. rewrite pow2_add.
    apply Qmult_le_compat_r; [exact Hpow | apply Qlt_le_weak, pow2_pos]. }
  apply Qfloor_resp_le in Hm. rewrite Qfloor_Z in Hm.
  pose proof (nearestEven_floor (a * pow2 (52 - e))) as Hn.
  apply Qle_trans with (pow2 e); [apply Qpower_1_le; [discriminate | exact He] |].
  replace e with (52 + (e - 52))%Z at 1 by lia. rewrite pow2_add.
  apply Qmult_le_compat_r; [| apply Qlt_le_weak, pow2_pos].
  rewrite (@pow2_Z 52%Z ltac:(lia)). rewrite <- Zle_Qle. lia.
Qed.

Lemma binary64_ge_one (q : Q) : 1 <= q -> 1 <= binary64 q.
Proof.
  intros Hq. unfold binary64.
  assert (Hr : 1 <= Qred q) by now rewrite Qred_correct.
  destruct (Qred q) as [n d] eqn:E. cbn [Qnum].
  assert (Hn : (0 < n)%Z).
  { unfold Qle in Hr. simpl in Hr. lia. }
  destruct n as [| n | n]; try lia.
  rewrite Qred_correct. now apply nearest_ge_one.
Qed.
End Rounding.

Section Simulation.
Import Binary64 Rounded.

Lemma binary64_nonneg_sum (f c : Q) : 1 <= f -> 0 <= c -> 1 <= add f c.
Proof.
  intros Hf Hc. apply binary64_ge_one. lra.
Qed.

(** Find the entry of [sums] a concrete sum and score stand at. *)
Ltac at_entry entry :=
  right; exists entry;
  split; [simpl; tauto
         | split; [cbn [fst]; vm_compute; reflexivity
                  | cbn [snd]; vm_compute; reflexivity]].

Ltac beside_sum :=
  first
    [ left; split; vm_compute; discriminate
    | at_entry (0, 0)
    | at_entry (0.3, binary64 0.3)
    | at_entry (0.4, binary64 0.4)
    | at_entry (0.6, binary64 0.6)
    | at_entry (0.7, binary64 0.7)
    | at_entry (0.8, binary64 0.8)
    | at_entry (0.9, binary64 0.8999999999999999) ].

Lemma computes_compat (q q' f : Q) : q == q' -> computes q f -> computes q' f.
Proof.
  intros E [[Hq Hf] | (entry & Hentry & Hq & Hf)].
  - left. split; [now rewrite <- E | exact Hf].
  - right. exists entry. split; [exact Hentry | split; [now rewrite <- E | exact Hf]].
Qed.

(** One addition of a weight keeps the score beside the sum. *)
Lemma computes_add (c q f : Q) :
  In c [0.8; 0.6; 0.4; 0.3] ->
  computes q f -> computes (q + c) (add f (binary64 c)).
Proof.
  intros Hc [[Hq Hf] | (entry & Hentry & Hq & Hf)].
  - left. split.
    + simpl in Hc. destruct Hc as [<- | [<- | [<- | [<- | []]]]]; lra.
    + apply binary64_nonneg_sum; [exact Hf |].
      simpl in Hc. destruct Hc as [<- | [<- | [<- | [<- | []]]]]; vm_compute; discriminate.
  - subst f. apply computes_compat with (fst entry + c); [now rewrite Hq |].
    clear Hq q.
    simpl in Hc. destruct Hc as [<- | [<- | [<- | [<- | []]]]];
      simpl in Hentry;
      destruct Hentry as [<- | [<- | [<- | [<- | [<- | [<- | [<- | []]]]]]]];
      cbn [fst snd]; beside_sum.
Qed.

(** The context bonus: [contextMatches * 0.4], then one addition. *)
Lemma computes_context (k : nat) (q f : Q) :
  computes q f ->
  computes (q + inject_Z (Z.of_nat k) * 0.4)
           (add f (mul (inject_Z (Z.of_nat k)) (binary64 0.4))).
Proof.
  intros H.
  destruct k as [| [| [| k]]].
  - destruct H as [[Hq Hf] | (entry & Hentry & Hq & Hf)].
    + left. split; [change (inject_Z (Z.of_nat 0)) with 0; lra |].
      apply binary64_nonneg_sum; [exact Hf | vm_compute; discriminate].
    + subst f. apply computes_compat with (fst entry + 0);
        [rewrite Hq; change (inject_Z (Z.of_nat 0)) with 0; lra |].
      simpl in Hentry.
      destruct Hentry as [<- | [<- | [<- | [<- | [<- | [<- | [<- | []]]]]]]];
        cbn [fst snd]; beside_sum.
  - apply computes_compat with (q + 0.4);
      [change (inject_Z (Z.of_nat 1)) with 1; lra |].
    replace (mul (inject_Z (Z.of_nat 1)) (binary64 0.4)) with (binary64 0.4)
      by (vm_compute; reflexivity).
    apply computes_add; [simpl; tauto | exact H].
  - apply computes_compat with (q + 0.8);
      [change (inject_Z (Z.of_nat 2)) with 2; lra |].
    replace (mul (inject_Z (Z.of_nat 2)) (binary64 0.4)) with (binary64 0.8)
      by (vm_compute; reflexivity).
    apply computes_add; [simpl; tauto | exact H].
  - assert (Hk : 3 <= inject_Z (Z.of_nat (S (S (S k))))).
    { change 3 with (inject_Z 3). rewrite <- Zle_Qle. lia. }
    set (n := inject_Z (Z.of_nat (S (S (S k))))) in *.
    assert (Hq0 : 0 <= q /\ 0 <= f).
    { destruct H as [[Hq Hf] | (entry & Hentry & Hq & Hf)]; [split; lra |].
      subst f. rewrite Hq. simpl in Hentry.
      destruct Hentry as [<- | [<- | [<- | [<- | [<- | [<- | [<- | []]]]]]]];
        cbn [fst snd]; split; vm_compute; discriminate. }
    assert (Hbonus : 1 <= mul n (binary64 0.4)).
    { apply binary64_ge_one.
      assert (H4 : 2 # 5 <= binary64 0.4) by (vm_compute; discriminate).
      nra. }
    left. split; [nra |].
    apply binary64_ge_one. lra.
Qed.

Lemma computes_wordStep (contentWord tagWord : jsstring) (q f : Q) :
  computes q f ->
  computes (HuggingFaceService.wordStep contentWord q tagWord)
           (HuggingFaceService64.wordStep contentWord f tagWord).
Proof.
  intros H. unfold HuggingFaceService.wordStep, HuggingFaceService64.wordStep.
  destruct (JS.eqb contentWord tagWord).
  - apply computes_add; [simpl; tauto | exact H].
  - destruct (_ || _); [| exact H].
    apply computes_add; [simpl; tauto | exact H].
Qed.

Lemma computes_innerLoop (contentWord : jsstring) (tagWords : list jsstring) :
  forall q f,
    computes q f ->
    computes (fold_left (HuggingFaceService.wordStep contentWord) tagWords q)
             (fold_left (HuggingFaceService64.wordStep contentWord) tagWords f).
Proof.
  induction tagWords as [| tagWord tagWords IH]; intros q f H; simpl; [exact H |].
  apply IH. now apply computes_wordStep.
Qed.

Lemma computes_wordLoop (contentWords tagWords : list jsstring) :
  forall q f,
    computes q f ->
    computes (HuggingFaceService.wordLoop contentWords tagWords q)
             (HuggingFaceService64.wordLoop contentWords tagWords f).
Proof.
  unfold HuggingFaceService.wordLoop, HuggingFaceService64.wordLoop.
  induction contentWords as [| contentWord contentWords IH]; intros q f H; simpl;
    [exact H |].
  apply IH. now apply computes_innerLoop.
Qed.

(** The two methods walk the same path; where the exact one returns the
    capped sum, the other returns the capped score beside it. *)
Lemma calculateTagRelevance_beside (pf : Platform) (content tag : jsstring) :
  match HuggingFaceService.calculateTagRelevance pf content tag,
        HuggingFaceService64.calculateTagRelevance pf content tag with
  | Returned exact, Returned actual =>
      exists q f, computes q f /\ exact = Qmin q 1.0 /\ actual = Qmin f 1
  | Thrown e, Thrown e' => e = e'
  | _, _ => False
  end.
Proof.
  unfold HuggingFaceService.calculateTagRelevance,
    HuggingFaceService64.calculateTagRelevance.
  destruct (HuggingFaceService.getContextMatches pf _ _) as [k | e];
    unfold Pure.bind; [| reflexivity].
  refine (ex_intro _ _ (ex_intro _ _ (conj _ (conj eq_refl eq_refl)))).
  apply computes_context. apply computes_wordLoop.
  assert (H0 : computes 0 0) by beside_sum.
  assert (H1 : computes (if includes (toLowerCase pf content) (toLowerCase pf tag)
                           then 0 + 0.8 else 0)
                          (if includes (toLowerCase pf content) (toLowerCase pf tag)
                           then add 0 (binary64 0.8) else 0)).
  { destruct (includes _ _); [| exact H0].
    apply computes_add; [simpl; tauto | exact H0]. }
  destruct (_ || _); [| exact H1].
  apply computes_add; [simpl; tauto | exact H1].
Qed.

Lemma asComputed_compat (e e' : Q) : e == e' -> asComputed e = asComputed e'.
Proof.
  intros H. unfold asComputed.
  assert (Hb : Qeq_bool e 0.9 = Qeq_bool e' 0.9).
  { destruct (Qeq_bool e 0.9) eqn:E1, (Qeq_bool e' 0.9) eqn:E2; try reflexivity.
    - apply Qeq_bool_iff in E1. rewrite H in E1. apply Qeq_bool_iff in E1. congruence.
    - apply Qeq_bool_iff in E2. rewrite <- H in E2. apply Qeq_bool_iff in E2. congruence. }
  rewrite Hb. destruct (Qeq_bool e' 0.9); [reflexivity | now apply binary64_compat].
Qed.

(** Capping the score gives the number the capped sum computes to. *)
Lemma capped_asComputed (q f : Q) :
  computes q f -> Qmin f 1 == asComputed (Qmin q 1.0).
Proof.
  intros [[Hq Hf] | (entry & Hentry & Hq & Hf)].
  - rewrite (@asComputed_compat (Qmin q 1.0) 1).
    + rewrite Q.min_r by exact Hf. vm_compute. reflexivity.
    + rewrite Q.min_r by lra. lra.
  - subst f. rewrite (@asComputed_compat (Qmin q 1.0) (fst entry)).
    + simpl in Hentry.
      destruct Hentry as [<- | [<- | [<- | [<- | [<- | [<- | [<- | []]]]]]]];
        cbn [fst snd]; vm_compute; reflexivity.
    + rewrite Hq. apply Q.min_l. simpl in Hentry.
      destruct Hentry as [<- | [<- | [<- | [<- | [<- | [<- | [<- | []]]]]]]];
        cbn [fst]; vm_compute; discriminate.
Qed.

(** The comparisons of the tag suggestion come out the same on the score
    and on the sum: rounding moves no score across 0.1, 0.2 or 0.3. *)
Lemma capped_thresholds (q f t : Q) :
  computes q f ->
  In t [0.1; 0.2; 0.3] ->
  (t < Qmin q 1.0 <-> binary64 t < Qmin f 1).
Proof.
  intros [[Hq Hf] | (entry & Hentry & Hq & Hf)] Ht.
  - rewrite (Q.min_r q 1.0) by lra. rewrite (Q.min_r f 1) by exact Hf.
    simpl in Ht. destruct Ht as [<- | [<- | [<- | []]]];
      split; intros _; vm_compute; reflexivity.
  - subst f. rewrite Hq.
    simpl in Ht. destruct Ht as [<- | [<- | [<- | []]]];
      simpl in Hentry;
      destruct Hentry as [<- | [<- | [<- | [<- | [<- | [<- | [<- | []]]]]]]];
      cbn [fst snd];
      first [ split; intros _; vm_compute; reflexivity
            | split; intros H; vm_compute in H; discriminate ].
Qed.
End Simulation.

(** C7, as the code has it.  For a tag whose lowercased name is not a
    property of [Object.prototype], the local relevance score is the
    binary64 number nearest to min(1.0, s), save that for s = 0.9 it is
    0.8999999999999999; s is the exact sum of: 0.8 if the lowercased tag
    occurs in the lowercased note; 0.4 if the tag contains the first
    space-separated word of the note or some space-separated word of the
    note contains the tag; 0.6 per exact match and 0.3 per match on the
    first three characters between the tokens (longer than 2 characters) of
    note and tag; 0.4 per keyword of the table entry of the lowercased tag
    that occurs in the note.  A tag that is none of the seven keys of the
    table gets no context bonus. *)
Theorem calculateTagRelevance_formula (pf : Platform) (content tag : jsstring) :
  (forall s, toLowerCase pf (toLowerCase pf s) = toLowerCase pf s) ->
  arrayIncludes objectPrototypeKeys (toLowerCase pf tag) = false ->
  (exists score,
      HuggingFaceService64.calculateTagRelevance pf content tag = Returned score
      /\ score == Rounded.asComputed (RelevanceSpec.relevanceAmended pf content tag))
  /\ (~ In (toLowerCase pf tag) (map fst HuggingFaceService.contextMappings) ->
      HuggingFaceService.getContextMatches pf (toLowerCase pf content) (toLowerCase pf tag)
      = Returned 0%nat).
Proof.
  intros Hidem Hproto.
  destruct (@calculateTagRelevance_exact pf content tag Hidem Hproto)
    as [(exact & Eexact & Hexact) Hcontext].
  split; [| exact Hcontext].
  pose proof (calculateTagRelevance_beside pf content tag) as Hbeside.
  rewrite Eexact in Hbeside.
  destruct (HuggingFaceService64.calculateTagRelevance pf content tag)
    as [score | e]; [| contradiction].
  destruct Hbeside as (q & f & Hqf & -> & ->).
  exists (Qmin f 1). split; [reflexivity |].
  rewrite (@capped_asComputed q f Hqf).
  rewrite (@asComputed_compat _ _ Hexact). reflexivity.
Qed.

(** The theorem at work: "work" matches exactly and "lifetime" starts like
    "life", so the sum is 0.9 and the score 0.8999999999999999. *)
Lemma calculateTagRelevance_formula_witness :
  let pf := Examples.latin1 in
  let content := js "my work lifetime" in
  let tag := js "work-life" in
  (forall s, toLowerCase pf (toLowerCase pf s) = toLowerCase pf s)
  /\ arrayIncludes objectPrototypeKeys (toLowerCase pf tag) = false
  /\ RelevanceSpec.relevanceAmended pf content tag == 0.9
  /\ HuggingFaceService64.calculateTagRelevance pf content tag
     = Returned (Binary64.binary64 0.8999999999999999)
  /\ (exists score,
         HuggingFaceService64.calculateTagRelevance pf content tag = Returned score
         /\ score == Rounded.asComputed (RelevanceSpec.relevanceAmended pf content tag))
  /\ HuggingFaceService.getContextMatches pf (toLowerCase pf content) (toLowerCase pf tag)
     = Returned 0%nat.
Proof.
  intros pf content tag.
  split; [exact toLowerCaseLatin1_idempotent | split; [reflexivity |]].
  split; [vm_compute; reflexivity | split; [vm_compute; reflexivity |]].
  destruct (@calculateTagRelevance_formula pf content tag
              toLowerCaseLatin1_idempotent eq_refl) as [Hscore Hcontext].
  split; [exact Hscore |].
  apply Hcontext. simpl. intuition discriminate.
Defined.

(** C7, as the specification states it, fails.  For the note "go ab" and
    the tag "ab" the first word of the note is "go", which shares nothing
    with the tag, so the specified sum is the 0.8 of the substring match;
    the code adds 0.4 because the word "ab" of the note contains the tag,
    and returns 1.  And for the note "my work lifetime" and the tag
    "work-life" the specified sum is 0.9, which the additions of the
    runtime miss: the score is neither 0.9 nor the number nearest to it. *)
Lemma calculateTagRelevance_counterexample :
  (HuggingFaceService64.calculateTagRelevance Examples.latin1 (js "go ab") (js "ab")
   = Returned 1
   /\ RelevanceSpec.relevance Examples.latin1 (js "go ab") (js "ab") == 0.8
   /\ ~ 1 == 0.8)
  /\ (exists score,
        HuggingFaceService64.calculateTagRelevance Examples.latin1
          (js "my work lifetime") (js "work-life") = Returned score
        /\ RelevanceSpec.relevance Examples.latin1 (js "my work lifetime") (js "work-life")
           == 0.9
        /\ ~ score == 0.9
        /\ ~ score == Binary64.binary64 0.9).
Proof.
  split.
  - split; [vm_compute; reflexivity | split; [reflexivity | discriminate]].
  - eexists. split; [vm_compute; reflexivity |].
    split; [vm_compute; reflexivity | split; vm_compute; discriminate].
Qed.

(** A tag named after a property of [Object.prototype] makes the scorer
    throw: the table lookup finds the inherited property. *)
Example calculateTagRelevance_inherited_key :
  HuggingFaceService.calculateTagRelevance Examples.latin1 (js "build it") (js "Constructor")
  = Thrown (Error (js "keywords.filter is not a function")).
Proof. reflexivity. Qed.

(** The context bonus at work: "buy" and "need" are keywords of
    "shopping". *)
Example calculateTagRelevance_context :
  HuggingFaceService.calculateTagRelevance Examples.latin1
    (js "we need to buy milk") (js "Shopping") = Returned 0.8.
Proof. reflexivity. Qed.

(* ================================================================= *)
(** * The methods of the three clients never let a failure of the
      transport escape where the source catches it *)

(** Unfold the monad and contract the redexes this leaves. *)
Ltac io_run := io_unfold; cbv beta in *.

(** The method [parseNote] of the OpenAI client returns, whatever the
    endpoint answers. *)
Lemma openai_parseNote_returns
      (pf : Platform) (noteText : jsstring) (w : World) (log : list request) :
  exists items,
    OpenAIService.parseNote pf noteText w log
    = (Returned items,
       log ++ [OpenAIChatCompletion (OpenAIService.OPENAI_MODEL_CHAT w)
                 (OpenAIService.parsePrompt noteText) 200 (Some 0.3)]).
Proof.
  unfold OpenAIService.parseNote. io_run.
  destruct (chatCompletionsCreate w _) as [[[| c content] |] | e];
    cbv beta iota; try (eexists; reflexivity).
  cbn [truthy negb orElse].
  destruct (JSON_parse pf (c :: content)) as [[| | | | [| item items] |] | e];
    cbv beta iota; eexists; reflexivity.
Qed.

Lemma client_testConnection_returns (pf : Platform) (p : ProviderName)
      (w : World) (log : list request) :
  exists st log', Client.testConnection (clientOf pf p) w log = (Returned st, log').
Proof.
  destruct p; simpl.
  - unfold HuggingFaceService.testConnection. io_run.
    destruct (truthy (HuggingFaceService.HF_API_KEY w)); cbn [negb]; cbv beta;
      [destruct (textClassification w _) |]; do 2 eexists; reflexivity.
  - unfold OpenAIService.testConnection. io_run.
    destruct (truthy (OpenAIService.OPENAI_API_KEY w)); cbn [negb]; cbv beta;
      [destruct (chatCompletionsCreate w _) |]; do 2 eexists; reflexivity.
  - unfold GoogleAIService.testConnection. io_run.
    destruct (GoogleAIService.unconfigured w); cbv beta;
      [| destruct (generateContent w _)]; do 2 eexists; reflexivity.
Qed.

Lemma client_suggestTags_returns (pf : Platform) (p : ProviderName)
      (itemContent : jsstring) (availableTags : list jsstring)
      (w : World) (log : list request) :
  exists tags log',
    Client.suggestTags (clientOf pf p) itemContent availableTags w log
    = (Returned tags, log')
    /\ (length tags <= 3)%nat.
Proof.
  destruct p; simpl.
  - destruct (hf_suggestTags_bounds pf itemContent availableTags w log)
      as (l & log' & E & Hlen & _). eauto.
  - destruct (openai_suggestTags_bounds pf itemContent availableTags w log)
      as (l & log' & E & Hlen & _). eauto.
  - destruct (google_suggestTags_bounds itemContent availableTags w log)
      as (l & log' & E & Hlen & _). eauto.
Qed.

Lemma client_parseNote_returns (pf : Platform) (p : ProviderName) (noteText : jsstring)
      (w : World) (log : list request) :
  exists items log',
    Client.parseNote (clientOf pf p) noteText w log = (Returned items, log')
    /\ (p = OpenAI \/ items <> [])
    /\ (log' = log \/ exists sent, log' = log ++ [sent]).
Proof.
  destruct p; simpl.
  - unfold HuggingFaceService.parseNote, HuggingFaceService.extractEntities. io_run.
    destruct (truthy (HuggingFaceService.HF_API_KEY w)); cbn [negb]; cbv beta.
    + destruct (tokenClassification w _); cbv beta.
      * destruct (1 <? length (HuggingFaceService.sentencesOf noteText))%nat eqn:Hlen;
          do 2 eexists; (split; [reflexivity | split; [right | eauto]]);
          [| discriminate].
        apply Nat.ltb_lt in Hlen. intros E. rewrite E in Hlen. simpl in Hlen. lia.
      * do 2 eexists. split; [reflexivity | split; [right; discriminate | eauto]].
    + do 2 eexists. split; [reflexivity | split; [right; discriminate | eauto]].
  - destruct (@openai_parseNote_returns pf noteText w log) as (items & E).
    rewrite E. do 2 eexists. split; [reflexivity | split; [now left | eauto]].
  - unfold GoogleAIService.parseNote. io_run.
    destruct (GoogleAIService.unconfigured w); cbv beta.
    + do 2 eexists. split; [reflexivity | split; [right; discriminate | eauto]].
    + destruct (generateContent w _); cbv beta.
      * match goal with
        | |- context [(length ?l =? 0)%nat] => destruct l as [| item items] eqn:Hitems
        end; cbn [length Nat.eqb]; cbv beta;
          do 2 eexists; (split; [reflexivity | split; [right; discriminate | eauto]]).
      * do 2 eexists. split; [reflexivity | split; [right; discriminate | eauto]].
Qed.


(** What a connection test reports, on each client. *)
Lemma client_testConnection_status (pf : Platform) (p : ProviderName)
      (w : World) (log : list request) :
  exists st log',
    Client.testConnection (clientOf pf p) w log = (Returned st, log')
    /\ Client.apiKeyConfigured st = truthy (credentialOf p w)
    /\ (Client.connected st = true ->
        Client.error st = None
        /\ truthy (credentialOf p w) = true
        /\ exists sent, log' = log ++ [sent])
    /\ (Client.connected st = false -> exists message, Client.error st = Some message)
    /\ (truthy (credentialOf p w) = false -> Client.connected st = false /\ log' = log).
Proof.
  destruct p; simpl.
  - unfold HuggingFaceService.testConnection. io_run.
    destruct (truthy (HuggingFaceService.HF_API_KEY w)) eqn:Hk; cbn [negb]; cbv beta;
      [destruct (textClassification w _) |]; do 2 eexists;
      (split; [reflexivity |]); cbn; rewrite ?Hk;
      repeat split; eauto; discriminate.
  - unfold OpenAIService.testConnection. io_run.
    destruct (truthy (OpenAIService.OPENAI_API_KEY w)) eqn:Hk; cbn [negb]; cbv beta;
      [destruct (chatCompletionsCreate w _) |]; do 2 eexists;
      (split; [reflexivity |]); cbn; rewrite ?Hk;
      repeat split; eauto; discriminate.
  - unfold GoogleAIService.testConnection, GoogleAIService.unconfigured,
      GoogleAIService.client. io_run.
    destruct (truthy (GoogleAIService.GOOGLE_API_KEY w)) eqn:Hk; cbn [negb orb];
      cbv beta; [destruct (generateContent w _) |]; do 2 eexists;
      (split; [reflexivity |]); cbn; rewrite ?Hk;
      repeat split; eauto; discriminate.
Qed.

(* ================================================================= *)
(** * Further properties of the provider clients *)

(** ** Text generation *)

(** X1.  [generateText] of each client returns exactly when its module
    loads, the credential is set and the endpoint answers its one request,
    and then what it returns is made of that answer; it never returns a
    text in place of a failed call.  In every other case it throws: the
    error of the import, or an [Error] whose message is the client's prefix
    followed by "<VARIABLE> not configured" (nothing sent) or by the cause
    (after the one request). *)
Theorem generateText_outcomes
        (pf : Platform) (p : ProviderName) (prompt : jsstring) (maxLength : Q)
        (w : World) (log : list request) :
  let sent := log ++ [generationRequest p prompt maxLength w] in
  Client.generateText (Loading.importedClientOf pf p) prompt maxLength w log =
  if negb (Loading.imports p w) then (Thrown (Error Loading.missingKey), log)
  else if negb (truthy (credentialOf p w)) then
         (Thrown (Error (generationPrefix p ++ notConfiguredOf p)), log)
       else
         (match generationAnswer p w sent with
          | Returned text => Returned text
          | Thrown cause => Thrown (Error (generationPrefix p ++ errorMessage cause))
          end, sent).
Proof.
  intros sent. subst sent. destruct p; simpl.
  - unfold HuggingFaceService.generateText. io_unfold.
    destruct (truthy (HuggingFaceService.HF_API_KEY w)); simpl; [| reflexivity].
    destruct (textGeneration w _); reflexivity.
  - unfold Loading.viaImport, Loading.openai, Loading.imports.
    destruct (OpenAIService.OPENAI_API_KEY w) as [key |] eqn:Hkey; [| reflexivity].
    unfold OpenAIService.generateText. io_unfold. rewrite Hkey.
    destruct (truthy (Some key)); simpl; [| reflexivity].
    destruct (chatCompletionsCreate w _); reflexivity.
  - unfold GoogleAIService.generateText, GoogleAIService.unconfigured,
      GoogleAIService.client. io_unfold.
    destruct (truthy (GoogleAIService.GOOGLE_API_KEY w)); simpl; [| reflexivity].
    destruct (generateContent w _); reflexivity.
Qed.

(** X2.  Without its credential, [generateText] of each client throws and
    sends nothing: "<prefix><VARIABLE> not configured" where the module
    loads, and the error of the import for the OpenAI client whose key is
    not defined at all. *)
Theorem generateText_without_credential
        (pf : Platform) (p : ProviderName) (prompt : jsstring) (maxLength : Q)
        (w : World) (log : list request) :
  truthy (credentialOf p w) = false ->
  Client.generateText (Loading.importedClientOf pf p) prompt maxLength w log =
  (Thrown (Error (if Loading.imports p w
                  then generationPrefix p ++ notConfiguredOf p
                  else Loading.missingKey)), log).
Proof.
  intros H. destruct p; simpl in *.
  - unfold HuggingFaceService.generateText. io_unfold. now rewrite H.
  - unfold Loading.viaImport, Loading.openai, Loading.imports.
    destruct (OpenAIService.OPENAI_API_KEY w) as [key |] eqn:Hkey; [| reflexivity].
    unfold OpenAIService.generateText. io_unfold. rewrite Hkey, H. reflexivity.
  - unfold GoogleAIService.generateText, GoogleAIService.unconfigured. io_unfold.
    now rewrite H.
Qed.

(** The theorem at work on the OpenAI client, the key set to the empty
    string. *)
Lemma generateText_without_credential_witness :
  let w := Examples.offline [(js "OPENAI_API_KEY", [])] in
  truthy (credentialOf OpenAI w) = false
  /\ Client.generateText (Loading.importedClientOf Examples.latin1 OpenAI)
                         (js "Write a haiku") 100 w [] =
     (Thrown (Error (js "OpenAI text generation failed: OPENAI_API_KEY not configured")), []).
Proof.
  intros w. split; [reflexivity |].
  exact (@generateText_without_credential Examples.latin1 OpenAI (js "Write a haiku") 100
           w [] eq_refl).
Defined.

(** ** Suggestions and parsing without a credential *)

(** X3.  Without its credential, [suggestTags] sends nothing on any
    client.  Google returns no tag, and so does OpenAI when its key is the
    empty string; with the key not defined the import of the OpenAI client
    throws.  HuggingFace returns no tag on the zero-shot path, and on the
    heuristic path (the default model) it still answers with the local
    keyword matching. *)
Theorem suggestTags_without_credential
        (pf : Platform) (p : ProviderName) (itemContent : jsstring)
        (availableTags : list jsstring) (w : World) (log : list request) :
  truthy (credentialOf p w) = false ->
  Client.suggestTags (Loading.importedClientOf pf p) itemContent availableTags w log =
  (match p with
   | HuggingFace =>
       if JS.eqb (HuggingFaceService.HF_MODEL_CLASSIFICATION w) (js "distilbert-base-uncased")
       then match HuggingFaceService.fallbackKeywordMatching pf itemContent availableTags with
            | Returned matches => Returned matches
            | Thrown _ => Returned []
            end
       else Returned []
   | OpenAI =>
       if Loading.imports OpenAI w then Returned [] else Thrown (Error Loading.missingKey)
   | Google => Returned []
   end, log).
Proof.
  intros H. destruct p; simpl in *.
  - unfold HuggingFaceService.suggestTags, HuggingFaceService.suggestTagsWithDistilBERT,
      HuggingFaceService.classifyText.
    io_run.
    destruct (JS.eqb _ _); cbv beta; rewrite H; simpl; [| reflexivity].
    destruct (HuggingFaceService.fallbackKeywordMatching pf itemContent availableTags);
      reflexivity.
  - unfold Loading.viaImport, Loading.openai, Loading.imports.
    destruct (OpenAIService.OPENAI_API_KEY w) as [key |] eqn:Hkey; [| reflexivity].
    unfold OpenAIService.suggestTags, OpenAIService.classifyText. io_unfold.
    rewrite Hkey, H. reflexivity.
  - unfold GoogleAIService.suggestTags, GoogleAIService.unconfigured. io_unfold.
    now rewrite H.
Qed.

(** The theorem at work: no key at all, and HuggingFace still finds the tag
    written in the note and the tag whose keyword occurs in it. *)
Lemma suggestTags_without_credential_witness :
  truthy (credentialOf HuggingFace Examples.unconfigured) = false
  /\ Client.suggestTags (Loading.importedClientOf Examples.latin1 HuggingFace)
                        (js "book the flight to Rome") [js "travel"; js "flight"]
                        Examples.unconfigured [] =
     (Returned [js "travel"; js "flight"], []).
Proof.
  split; [reflexivity |].
  exact (@suggestTags_without_credential Examples.latin1 HuggingFace
           (js "book the flight to Rome") [js "travel"; js "flight"]
           Examples.unconfigured [] eq_refl).
Defined.

(** X4.  Without a credential, [parseNote] of the HuggingFace and Google
    clients returns the trimmed note as its single item and sends
    nothing. *)
Theorem parseNote_without_credential
        (pf : Platform) (p : ProviderName) (noteText : jsstring)
        (w : World) (log : list request) :
  p <> OpenAI ->
  truthy (credentialOf p w) = false ->
  Client.parseNote (clientOf pf p) noteText w log = (Returned [trim noteText], log).
Proof.
  intros Hp H. destruct p; simpl in *; [| contradiction |].
  - unfold HuggingFaceService.parseNote, HuggingFaceService.extractEntities. io_unfold.
    now rewrite H.
  - unfold GoogleAIService.parseNote, GoogleAIService.unconfigured. io_unfold.
    now rewrite H.
Qed.

(** The theorem at work on the Google client. *)
Lemma parseNote_without_credential_witness :
  Google <> OpenAI
  /\ truthy (credentialOf Google Examples.unconfigured) = false
  /\ Client.parseNote (clientOf Examples.latin1 Google) (js "  Buy milk. Call mum.  ")
                      Examples.unconfigured [] =
     (Returned [js "Buy milk. Call mum."], []).
Proof.
  assert (Hp : Google <> OpenAI) by discriminate.
  split; [exact Hp | split; [reflexivity |]].
  exact (@parseNote_without_credential Examples.latin1 Google (js "  Buy milk. Call mum.  ")
           Examples.unconfigured [] Hp eq_refl).
Defined.

(** X5.  [parseNote] of the OpenAI client does not look at the
    credential: once its module is loaded, be it with an empty key, it
    sends exactly one chat completion and it never throws.  Its result is
    the trimmed note as a single item, or the non-blank strings of the
    array the model answered, which may be none.  With the key not defined
    the import throws and nothing is sent. *)
Theorem openai_parseNote_asks_once
        (pf : Platform) (noteText : jsstring) (w : World) (log : list request) :
  let sent := log ++ [openaiParseRequest noteText w] in
  match OpenAIService.OPENAI_API_KEY w with
  | None =>
      Loading.viaImport (OpenAIService.parseNote pf noteText) w log
      = (Thrown (Error Loading.missingKey), log)
  | Some _ =>
      exists items,
        Loading.viaImport (OpenAIService.parseNote pf noteText) w log
        = (Returned items, sent)
        /\ (items = [trim noteText]
            \/ exists content answered,
                 chatCompletionsCreate w sent = Returned (Some content)
                 /\ JSON_parse pf content = Returned (JArray answered)
                 /\ items = OpenAIService.nonBlankStrings answered)
  end.
Proof.
  unfold Loading.viaImport, Loading.openai.
  destruct (OpenAIService.OPENAI_API_KEY w) as [key |]; cbv zeta; [| reflexivity].
  unfold OpenAIService.parseNote, openaiParseRequest. io_run.
  destruct (chatCompletionsCreate w _) as [[[| c content] |] | e] eqn:Hanswer;
    cbv beta iota;
    try (eexists; split; [reflexivity | left; reflexivity]).
  cbn [truthy negb orElse].
  destruct (JSON_parse pf (c :: content)) as [[| | | | [| item items] |] | e] eqn:Hparse;
    cbv beta iota;
    try (eexists; split; [reflexivity | left; reflexivity]).
  eexists. split; [reflexivity |]. right. exists (c :: content), (item :: items).
  repeat split; auto.
Qed.

(* ================================================================= *)
(** ** The heuristic path of [HuggingFaceService.suggestTags] *)

Section HeuristicPath.
Import HuggingFaceService.
Variable pf : Platform.
Variable itemContent : jsstring.

(** The record a tag gets: its relevance, whatever the remote call gave. *)
Lemma scoreTag_result (t : jsstring) (w : World) (log : list request) :
  scoreTag pf itemContent t w log =
  (match calculateTagRelevance pf itemContent t with
   | Returned q => Returned {| tag := t; tagScore := q |}
   | Thrown e => Thrown e
   end,
   log ++ [HfTextClassification sentimentModel (relatedPrompt t itemContent)]).
Proof.
  unfold scoreTag. io_run.
  destruct (textClassification w _);
    destruct (calculateTagRelevance pf itemContent t); reflexivity.
Qed.

Lemma forEach_scoreTag_fst (availableTags : list jsstring) :
  forall (w1 w2 : World) (log1 log2 : list request),
    fst (forEach (scoreTag pf itemContent) availableTags w1 log1) =
    fst (forEach (scoreTag pf itemContent) availableTags w2 log2).
Proof.
  induction availableTags as [| t availableTags IH]; intros w1 w2 log1 log2;
    [reflexivity |].
  cbn [forEach]. unfold bind. rewrite !scoreTag_result.
  destruct (calculateTagRelevance pf itemContent t) as [q | e]; [| reflexivity].
  specialize (IH w1 w2
                 (log1 ++ [HfTextClassification sentimentModel (relatedPrompt t itemContent)])
                 (log2 ++ [HfTextClassification sentimentModel (relatedPrompt t itemContent)])).
  destruct (forEach (scoreTag pf itemContent) availableTags w1 _) as [[r1 | e1] l1];
    destruct (forEach (scoreTag pf itemContent) availableTags w2 _) as [[r2 | e2] l2];
    simpl in IH; try discriminate; unfold ret; simpl; congruence.
Qed.

(** When every tag can be scored, the loop returns one record per tag, in
    order, and has sent one request per tag. *)
Lemma forEach_scoreTag_all (availableTags : list jsstring) :
  Forall (fun t => exists q, calculateTagRelevance pf itemContent t = Returned q)
         availableTags ->
  forall (w : World) (log : list request),
  exists tagScores,
    forEach (scoreTag pf itemContent) availableTags w log =
      (Returned tagScores, log ++ sentimentRequests itemContent availableTags)
    /\ Forall2 (fun t r => tag r = t
                           /\ calculateTagRelevance pf itemContent t = Returned (tagScore r))
               availableTags tagScores.
Proof.
  induction 1 as [| t availableTags [q Hq] Hall IH]; intros w log.
  - exists []. split; [| constructor]. simpl. unfold ret. now rewrite app_nil_r.
  - cbn [forEach]. unfold bind. rewrite scoreTag_result, Hq.
    destruct (IH w (log ++ [HfTextClassification sentimentModel
                                                 (relatedPrompt t itemContent)]))
      as (rest & Erest & Hrest).
    rewrite Erest. unfold ret.
    exists ({| tag := t; tagScore := q |} :: rest). split.
    + unfold sentimentRequests. simpl. now rewrite <- app_assoc.
    + constructor; [split; [reflexivity | exact Hq] | exact Hrest].
Qed.
End HeuristicPath.

(** X6.  On the heuristic path with a credential, the tags [suggestTags]
    returns do not depend on what the remote sentiment calls answer, nor on
    whether they answer at all: two worlds that both hold a key and the
    default model give the same tags. *)
Theorem heuristic_ignores_remote_answers
        (pf : Platform) (itemContent : jsstring) (availableTags : list jsstring)
        (w1 w2 : World) (log1 log2 : list request) :
  HuggingFaceService.HF_MODEL_CLASSIFICATION w1 = js "distilbert-base-uncased" ->
  HuggingFaceService.HF_MODEL_CLASSIFICATION w2 = js "distilbert-base-uncased" ->
  truthy (HuggingFaceService.HF_API_KEY w1) = true ->
  truthy (HuggingFaceService.HF_API_KEY w2) = true ->
  fst (HuggingFaceService.suggestTags pf itemContent availableTags w1 log1) =
  fst (HuggingFaceService.suggestTags pf itemContent availableTags w2 log2).
Proof.
  intros Hm1 Hm2 Hk1 Hk2.
  unfold HuggingFaceService.suggestTags, HuggingFaceService.suggestTagsWithDistilBERT.
  io_run. rewrite Hm1, Hm2, eqb_refl. cbv beta. rewrite Hk1, Hk2. cbn [negb]. cbv beta.
  pose proof (forEach_scoreTag_fst pf itemContent availableTags w1 w2 log1 log2) as Hsame.
  destruct (forEach _ availableTags w1 log1) as [[r1 | e1] l1];
    destruct (forEach _ availableTags w2 log2) as [[r2 | e2] l2];
    simpl in Hsame; try discriminate.
  - injection Hsame as <-.
    destruct (0 <? length _)%nat; cbv beta; [reflexivity |].
    destruct (HuggingFaceService.fallbackKeywordMatching pf itemContent availableTags);
      reflexivity.
  - destruct (HuggingFaceService.fallbackKeywordMatching pf itemContent availableTags);
      reflexivity.
Qed.

(** The theorem at work: the remote endpoint answering, and failing. *)
Lemma heuristic_ignores_remote_answers_witness :
  let itemContent := js "project meeting at the office" in
  let availableTags := [js "work"; js "travel"] in
  let down := Examples.offline [(js "HUGGINGFACE_API_KEY", js "hf_key")] in
  HuggingFaceService.HF_MODEL_CLASSIFICATION Examples.hfOnline = js "distilbert-base-uncased"
  /\ HuggingFaceService.HF_MODEL_CLASSIFICATION down = js "distilbert-base-uncased"
  /\ truthy (HuggingFaceService.HF_API_KEY Examples.hfOnline) = true
  /\ truthy (HuggingFaceService.HF_API_KEY down) = true
  /\ fst (HuggingFaceService.suggestTags Examples.latin1 itemContent availableTags
            Examples.hfOnline []) =
     fst (HuggingFaceService.suggestTags Examples.latin1 itemContent availableTags down []).
Proof.
  intros itemContent availableTags down.
  repeat (split; [reflexivity |]).
  exact (@heuristic_ignores_remote_answers Examples.latin1 itemContent availableTags
           Examples.hfOnline down [] [] eq_refl eq_refl eq_refl eq_refl).
Defined.

(** X7.  On the heuristic path with a credential, when every tag can be
    scored, [suggestTags] sends exactly one sentiment-classification
    request per tag of the vocabulary, in the order of the vocabulary. *)
Theorem heuristic_one_request_per_tag
        (pf : Platform) (itemContent : jsstring) (availableTags : list jsstring)
        (w : World) (log : list request) :
  HuggingFaceService.HF_MODEL_CLASSIFICATION w = js "distilbert-base-uncased" ->
  truthy (HuggingFaceService.HF_API_KEY w) = true ->
  Forall (fun t => exists q,
              HuggingFaceService.calculateTagRelevance pf itemContent t = Returned q)
         availableTags ->
  snd (HuggingFaceService.suggestTags pf itemContent availableTags w log) =
  log ++ sentimentRequests itemContent availableTags.
Proof.
  intros Hm Hk Hall.
  unfold HuggingFaceService.suggestTags, HuggingFaceService.suggestTagsWithDistilBERT.
  io_run. rewrite Hm, eqb_refl. cbv beta. rewrite Hk. cbn [negb]. cbv beta.
  destruct (forEach_scoreTag_all pf itemContent Hall w log) as (tagScores & E & _).
  rewrite E.
  destruct (0 <? length _)%nat; cbv beta; [reflexivity |].
  destruct (HuggingFaceService.fallbackKeywordMatching pf itemContent availableTags);
    reflexivity.
Qed.

(** The theorem at work: two tags, two requests. *)
Lemma heuristic_one_request_per_tag_witness :
  let itemContent := js "project meeting at the office" in
  let availableTags := [js "work"; js "travel"] in
  HuggingFaceService.HF_MODEL_CLASSIFICATION Examples.hfOnline = js "distilbert-base-uncased"
  /\ truthy (HuggingFaceService.HF_API_KEY Examples.hfOnline) = true
  /\ Forall (fun t => exists q,
                 HuggingFaceService.calculateTagRelevance Examples.latin1 itemContent t
                 = Returned q)
            availableTags
  /\ length (snd (HuggingFaceService.suggestTags Examples.latin1 itemContent availableTags
                    Examples.hfOnline [])) = 2%nat.
Proof.
  intros itemContent availableTags.
  assert (Hall : Forall (fun t => exists q,
                             HuggingFaceService.calculateTagRelevance
                               Examples.latin1 itemContent t = Returned q)
                        availableTags).
  { repeat constructor; eexists; reflexivity. }
  split; [reflexivity | split; [reflexivity | split; [exact Hall |]]].
  rewrite (@heuristic_one_request_per_tag Examples.latin1 itemContent availableTags
             Examples.hfOnline [] eq_refl eq_refl Hall).
  reflexivity.
Defined.

(* ================================================================= *)
(** ** The range of the relevance score *)

Section RelevanceRange.
Import HuggingFaceService.

Lemma wordStep_grows (contentWord tagWord : jsstring) (s : Q) :
  s <= wordStep contentWord s tagWord.
Proof.
  unfold wordStep.
  destruct (JS.eqb contentWord tagWord); [lra |].
  destruct (_ || _); lra.
Qed.

Lemma innerLoop_grows (contentWord : jsstring) (tagWords : list jsstring) :
  forall s, s <= fold_left (wordStep contentWord) tagWords s.
Proof.
  induction tagWords as [| y tagWords IH]; intros s; simpl; [lra |].
  apply Qle_trans with (wordStep contentWord s y);
    [apply wordStep_grows | apply IH].
Qed.

Lemma wordLoop_grows (contentWords tagWords : list jsstring) :
  forall s, s <= wordLoop contentWords tagWords s.
Proof.
  unfold wordLoop.
  induction contentWords as [| x contentWords IH]; intros s; simpl; [lra |].
  apply Qle_trans with (fold_left (wordStep x) tagWords s);
    [apply innerLoop_grows | apply IH].
Qed.

Lemma Qnat_nonneg (n : nat) : 0 <= inject_Z (Z.of_nat n).
Proof.
  change 0 with (inject_Z 0). rewrite <- Zle_Qle. apply Nat2Z.is_nonneg.
Qed.
End RelevanceRange.

(** X8.  A relevance score is between 0 and 1, and a tag whose lowercased
    name occurs in the lowercased note scores at least 0.8, above both
    thresholds of the tag suggestion. *)
Theorem calculateTagRelevance_range (pf : Platform) (content tag : jsstring) (q : Q) :
  HuggingFaceService.calculateTagRelevance pf content tag = Returned q ->
  0 <= q /\ q <= 1
  /\ (includes (toLowerCase pf content) (toLowerCase pf tag) = true -> 0.8 <= q).
Proof.
  unfold HuggingFaceService.calculateTagRelevance.
  destruct (HuggingFaceService.getContextMatches pf _ _) as [n | e]; simpl;
    [| discriminate].
  intros H. injection H as <-.
  set (s0 := if includes (toLowerCase pf content) (toLowerCase pf tag)
             then 0 + 0.8 else 0).
  set (s1 := if _ || _ then s0 + 0.4 else s0).
  pose proof (wordLoop_grows
                (HuggingFaceService.longWords (toLowerCase pf content))
                (HuggingFaceService.longWords (toLowerCase pf tag)) s1) as Hloop.
  pose proof (Qnat_nonneg n) as Hn.
  assert (H0 : 0 <= s0).
  { unfold s0. destruct (includes (toLowerCase pf content) (toLowerCase pf tag)); lra. }
  assert (H1 : s0 <= s1).
  { unfold s1. match goal with |- _ <= (if ?c then _ else _) => destruct c end; lra. }
  repeat split.
  - apply Q.min_glb; [| lra].
    set (looped := HuggingFaceService.wordLoop _ _ s1) in *. nra.
  - apply Qle_trans with 1.0; [apply Q.le_min_r | lra].
  - intros Hin. apply Q.min_glb; [| lra].
    assert (0.8 <= s0) by (unfold s0; rewrite Hin; lra).
    set (looped := HuggingFaceService.wordLoop _ _ s1) in *. nra.
Qed.

(** The theorem at work on a tag written in the note. *)
Lemma calculateTagRelevance_range_witness :
  HuggingFaceService.calculateTagRelevance Examples.latin1
    (js "cheap hotels in Paris") (js "Hotel") = Returned 1.0
  /\ 0 <= 1.0 /\ 1.0 <= 1
  /\ (includes (toLowerCase Examples.latin1 (js "cheap hotels in Paris"))
               (toLowerCase Examples.latin1 (js "Hotel")) = true -> 0.8 <= 1.0).
Proof.
  split; [reflexivity |].
  exact (@calculateTagRelevance_range Examples.latin1 (js "cheap hotels in Paris")
           (js "Hotel") 1.0 eq_refl).
Defined.

(* ================================================================= *)
(** ** Ranking: what [filter(...).sort(...).slice(0, 3)] keeps *)

Lemma Qgtb_lt (a b : Q) : Qgtb a b = true <-> b < a.
Proof.
  unfold Qgtb. rewrite negb_true_iff. split.
  - intros H. apply Qnot_le_lt. intros Hle. apply Qle_bool_iff in Hle. congruence.
  - intros H. destruct (Qle_bool a b) eqn:E; [| reflexivity].
    apply Qle_bool_iff in E. apply Qlt_not_le in H. contradiction.
Qed.

Lemma Qgtb_le (a b : Q) : Qgtb a b = false <-> a <= b.
Proof.
  unfold Qgtb. rewrite negb_false_iff. apply Qle_bool_iff.
Qed.

Section Ranking.
Variables (A : Type) (key : A -> Q) (keep : A -> bool).

(** Sorting by [(a, b) => key(b) - key(a)] puts the greater key first. *)
Lemma insertBy_descending (x : A) (l : list A) :
  ForallOrdPairs (fun a b => key b <= key a) l ->
  ForallOrdPairs (fun a b => key b <= key a) (insertBy (fun a b => key b - key a) x l).
Proof.
  induction 1 as [| y l Hy Hl IH]; simpl.
  - repeat constructor.
  - destruct (Qgtb (key y - key x) 0) eqn:Hcmp.
    + apply Qgtb_lt in Hcmp. constructor; [| exact IH].
      apply Forall_forall. intros z Hz.
      apply (Permutation_in _ (insertBy_perm _ x l)) in Hz.
      destruct Hz as [<- | Hz]; [lra |].
      rewrite Forall_forall in Hy. now apply Hy.
    + apply Qgtb_le in Hcmp. constructor; [| now constructor].
      constructor; [lra |].
      apply Forall_forall. intros z Hz. rewrite Forall_forall in Hy.
      specialize (Hy z Hz). lra.
Qed.

Lemma sortBy_descending (l : list A) :
  ForallOrdPairs (fun a b => key b <= key a) (sortBy (fun a b => key b - key a) l).
Proof.
  induction l as [| x l IH]; simpl; [constructor |].
  now apply insertBy_descending.
Qed.

Lemma ordPairs_firstn {R : A -> A -> Prop} (n : nat) (l : list A) :
  ForallOrdPairs R l -> ForallOrdPairs R (firstn n l).
Proof.
  intros H. revert n. induction H as [| a l Ha Hl IH]; intros [| n]; simpl;
    try constructor; [| apply IH].
  apply Forall_forall. intros z Hz. apply In_firstn in Hz.
  rewrite Forall_forall in Ha. now apply Ha.
Qed.

Lemma ordPairs_across {R : A -> A -> Prop} (n : nat) (l : list A) :
  ForallOrdPairs R l ->
  forall a b, In a (firstn n l) -> In b (skipn n l) -> R a b.
Proof.
  intros H. revert n. induction H as [| x l Hx Hl IH]; intros [| n] a b Ha Hb;
    simpl in *; try contradiction.
  destruct Ha as [<- | Ha].
  - rewrite Forall_forall in Hx. apply Hx.
    rewrite <- (firstn_skipn n l). apply in_or_app. now right.
  - eapply IH; eassumption.
Qed.

(** The three kept are in descending order, each passed the filter, and
    whatever passed the filter and was left out is no better than any of
    the three. *)
Lemma topThree_best (l : list A) :
  let top := firstn 3 (sortBy (fun a b => key b - key a) (filter keep l)) in
  ForallOrdPairs (fun a b => key b <= key a) top
  /\ (forall r, In r top -> In r l /\ keep r = true)
  /\ (forall r, In r l -> keep r = true -> ~ In r top ->
                length top = 3%nat /\ Forall (fun k => key r <= key k) top).
Proof.
  intros top. subst top.
  set (sorted := sortBy (fun a b => key b - key a) (filter keep l)).
  assert (Hsorted : ForallOrdPairs (fun a b => key b <= key a) sorted)
    by apply sortBy_descending.
  assert (Hperm : Permutation sorted (filter keep l)) by apply sortBy_perm.
  split; [now apply ordPairs_firstn | split].
  - intros r Hr. apply In_firstn in Hr.
    apply (Permutation_in _ Hperm) in Hr. now apply filter_In in Hr.
  - intros r Hr Hkeep Hout.
    assert (Hin : In r sorted).
    { apply (Permutation_in _ (Permutation_sym Hperm)). now apply filter_In. }
    rewrite <- (firstn_skipn 3 sorted) in Hin.
    apply in_app_or in Hin as [Hin | Hin]; [contradiction |].
    split.
    + apply firstn_length_le.
      destruct (Nat.le_gt_cases 3 (length sorted)) as [Hle | Hgt]; [exact Hle |].
      rewrite skipn_all2 in Hin by lia. contradiction.
    + apply Forall_forall. intros k Hk.
      exact (@ordPairs_across _ 3 sorted Hsorted k r Hk Hin).
Qed.
End Ranking.



(* ================================================================= *)
(** ** The heuristic path keeps the best-scored tags *)

Lemma paired_right {A B} (P : A -> B -> Prop) (xs : list A) (ys : list B) :
  Forall2 P xs ys -> forall y, In y ys -> exists x, In x xs /\ P x y.
Proof.
  induction 1 as [| x y xs ys Hxy _ IH]; intros y0 Hy; [contradiction |].
  destruct Hy as [<- | Hy].
  - exists x. split; [now left | exact Hxy].
  - destruct (IH y0 Hy) as (x0 & Hx0 & HP). exists x0. split; [now right | exact HP].
Qed.

Lemma paired_left {A B} (P : A -> B -> Prop) (xs : list A) (ys : list B) :
  Forall2 P xs ys -> forall x, In x xs -> exists y, In y ys /\ P x y.
Proof.
  induction 1 as [| x y xs ys Hxy _ IH]; intros x0 Hx; [contradiction |].
  destruct Hx as [<- | Hx].
  - exists y. split; [now left | exact Hxy].
  - destruct (IH x0 Hx) as (y0 & Hy0 & HP). exists y0. split; [now right | exact HP].
Qed.

Lemma filterM_returns {A} (f : A -> outcome bool) (l : list A) :
  Forall (fun x => exists b, f x = Returned b) l ->
  exists kept, Pure.filterM f l = Returned kept.
Proof.
  induction 1 as [| x l [b Hb] _ [kept IH]]; simpl.
  - now exists [].
  - rewrite Hb, IH. simpl. destruct b; eexists; reflexivity.
Qed.

Lemma fallbackKeywordMatching_returns (pf : Platform) (itemContent : jsstring)
      (availableTags : list jsstring) :
  Forall (fun t => exists q,
              HuggingFaceService.calculateTagRelevance pf itemContent t = Returned q)
         availableTags ->
  exists l, HuggingFaceService.fallbackKeywordMatching pf itemContent availableTags
            = Returned l.
Proof.
  intros Hall. unfold HuggingFaceService.fallbackKeywordMatching.
  match goal with
  | |- context [Pure.filterM ?f availableTags] =>
      destruct (@filterM_returns _ f availableTags) as [kept Hkept]
  end.
  - eapply Forall_impl; [| exact Hall]. cbv beta. intros t [q Hq].
    destruct (_ || _); [now exists true |].
    rewrite Hq. simpl. eexists; reflexivity.
  - rewrite Hkept. simpl. eexists; reflexivity.
Qed.

(** X10.  On the heuristic path with a credential, when every tag can be
    scored, [suggestTags] returns at most three tags of the vocabulary in
    descending order of local relevance, each scoring above 0.2; a tag
    above 0.2 that is left out means three were returned, none of them
    scoring lower.  When no tag scores above 0.2 the result is the one of
    the keyword fallback. *)
Theorem heuristic_keeps_best
        (pf : Platform) (itemContent : jsstring) (availableTags : list jsstring)
        (w : World) (log : list request) :
  HuggingFaceService.HF_MODEL_CLASSIFICATION w = js "distilbert-base-uncased" ->
  truthy (HuggingFaceService.HF_API_KEY w) = true ->
  Forall (fun t => exists q,
              HuggingFaceService.calculateTagRelevance pf itemContent t = Returned q)
         availableTags ->
  exists ranked : list HuggingFaceService.TagScore,
    fst (HuggingFaceService.suggestTags pf itemContent availableTags w log)
    = match ranked with
      | [] => HuggingFaceService.fallbackKeywordMatching pf itemContent availableTags
      | _ :: _ => Returned (map HuggingFaceService.tag ranked)
      end
    /\ (length ranked <= 3)%nat
    /\ ForallOrdPairs
         (fun a b => HuggingFaceService.tagScore b <= HuggingFaceService.tagScore a)
         ranked
    /\ (forall r, In r ranked ->
          In (HuggingFaceService.tag r) availableTags
          /\ HuggingFaceService.calculateTagRelevance pf itemContent
               (HuggingFaceService.tag r)
             = Returned (HuggingFaceService.tagScore r)
          /\ 0.2 < HuggingFaceService.tagScore r)
    /\ (forall t q,
          In t availableTags ->
          HuggingFaceService.calculateTagRelevance pf itemContent t = Returned q ->
          0.2 < q ->
          ~ In t (map HuggingFaceService.tag ranked) ->
          length ranked = 3%nat
          /\ Forall (fun k => q <= HuggingFaceService.tagScore k) ranked).
Proof.
  intros Hm Hk Hall.
  destruct (forEach_scoreTag_all pf itemContent Hall w log) as (tagScores & E & Hpaired).
  destruct (topThree_best HuggingFaceService.tagScore
              (fun result => Qgtb (HuggingFaceService.tagScore result) 0.2) tagScores)
    as (Hsorted & Hkept & Hbest).
  destruct (fallbackKeywordMatching_returns pf itemContent Hall) as [viaKeywords Hfb].
  eexists. split; [| split; [| split; [exact Hsorted | split]]].
  - unfold HuggingFaceService.suggestTags, HuggingFaceService.suggestTagsWithDistilBERT.
    io_run. rewrite Hm, eqb_refl. cbv beta. rewrite Hk. cbn [negb]. cbv beta.
    rewrite E. unfold HuggingFaceService.byTagScoreDescending.
    destruct (firstn 3 _) as [| r0 rest]; cbn [map length Nat.ltb Nat.leb]; cbv beta.
    + rewrite Hfb. reflexivity.
    + reflexivity.
  - apply firstn_le_length.
  - intros r Hr. destruct (Hkept r Hr) as [Hin Hgt]. apply Qgtb_lt in Hgt.
    destruct (paired_right Hpaired r Hin) as (t & Ht & Htag & Hscore).
    subst t. auto.
  - intros t q Ht Hq Hgt Hout.
    destruct (paired_left Hpaired t Ht) as (r & Hr & Htag & Hscore).
    assert (Eq : HuggingFaceService.tagScore r = q) by congruence.
    rewrite <- Eq in *. apply Hbest; [exact Hr | now apply Qgtb_lt |].
    intros Hin. apply Hout. rewrite <- Htag. now apply in_map.
Qed.

(** The theorem at work: "work" scores 0.8 on a note about the office,
    "travel" scores nothing. *)
Lemma heuristic_keeps_best_witness :
  let itemContent := js "project meeting at the office" in
  let availableTags := [js "work"; js "travel"] in
  HuggingFaceService.HF_MODEL_CLASSIFICATION Examples.hfOnline = js "distilbert-base-uncased"
  /\ truthy (HuggingFaceService.HF_API_KEY Examples.hfOnline) = true
  /\ Forall (fun t => exists q,
                 HuggingFaceService.calculateTagRelevance Examples.latin1 itemContent t
                 = Returned q)
            availableTags
  /\ fst (HuggingFaceService.suggestTags Examples.latin1 itemContent availableTags
            Examples.hfOnline []) = Returned [js "work"]
  /\ exists ranked : list HuggingFaceService.TagScore,
       fst (HuggingFaceService.suggestTags Examples.latin1 itemContent availableTags
              Examples.hfOnline [])
       = match ranked with
         | [] => HuggingFaceService.fallbackKeywordMatching Examples.latin1 itemContent
                   availableTags
         | _ :: _ => Returned (map HuggingFaceService.tag ranked)
         end
       /\ (length ranked <= 3)%nat
       /\ ForallOrdPairs
            (fun a b => HuggingFaceService.tagScore b <= HuggingFaceService.tagScore a)
            ranked
       /\ (forall r, In r ranked ->
             In (HuggingFaceService.tag r) availableTags
             /\ HuggingFaceService.calculateTagRelevance Examples.latin1 itemContent
                  (HuggingFaceService.tag r)
                = Returned (HuggingFaceService.tagScore r)
             /\ 0.2 < HuggingFaceService.tagScore r)
       /\ (forall t q,
             In t availableTags ->
             HuggingFaceService.calculateTagRelevance Examples.latin1 itemContent t
             = Returned q ->
             0.2 < q ->
             ~ In t (map HuggingFaceService.tag ranked) ->
             length ranked = 3%nat
             /\ Forall (fun k => q <= HuggingFaceService.tagScore k) ranked).
Proof.
  intros itemContent availableTags.
  assert (Hall : Forall (fun t => exists q,
                             HuggingFaceService.calculateTagRelevance
                               Examples.latin1 itemContent t = Returned q)
                        availableTags).
  { repeat constructor; eexists; reflexivity. }
  split; [reflexivity | split; [reflexivity | split; [exact Hall | split]]].
  - reflexivity.
  - exact (@heuristic_keeps_best Examples.latin1 itemContent availableTags
             Examples.hfOnline [] eq_refl eq_refl Hall).
Defined.

(* ================================================================= *)
(** ** Classification *)





(** X12.  Without its credential, the classification and the entity
    extraction of the HuggingFace client throw the wrapped "not configured"
    error and send nothing.  So does the classification of the OpenAI
    client when its key is the empty string; with the key not defined it is
    the import of the client that throws. *)
Theorem classification_without_credential
        (pf : Platform) (text : jsstring) (candidateLabels : list jsstring)
        (w : World) (log : list request) :
  (truthy (HuggingFaceService.HF_API_KEY w) = false ->
   HuggingFaceService.classifyText text candidateLabels w log
   = (Thrown (Error (js "Text classification failed: HUGGINGFACE_API_KEY not configured")),
      log)
   /\ HuggingFaceService.extractEntities text w log
      = (Thrown (Error (js "NER extraction failed: HUGGINGFACE_API_KEY not configured")),
         log))
  /\ (truthy (OpenAIService.OPENAI_API_KEY w) = false ->
      Loading.viaImport (OpenAIService.classifyText pf text candidateLabels) w log
      = (Thrown
           (Error
              (if Loading.imports OpenAI w
               then js "OpenAI text classification failed: OPENAI_API_KEY not configured"
               else Loading.missingKey)),
         log)).
Proof.
  split; intros H.
  - unfold HuggingFaceService.classifyText, HuggingFaceService.extractEntities.
    io_run. rewrite H. split; reflexivity.
  - unfold Loading.viaImport, Loading.openai, Loading.imports.
    destruct (OpenAIService.OPENAI_API_KEY w) as [key |] eqn:Hkey; [| reflexivity].
    unfold OpenAIService.classifyText. io_run. rewrite Hkey, H. reflexivity.
Qed.

Section OpenAIClassification.
Import OpenAIService.
Variable pf : Platform.

Lemma relevantResult_positive (candidateLabels : list jsstring) (result : json)
      (r : ClassificationResult) :
  relevantResult candidateLabels result = Returned (Some r) -> 0 < score r.
Proof.
  unfold relevantResult.
  destruct (readField result (js "label")) as [[[| | | s | |] |] | e]; simpl;
    try discriminate.
  destruct (arrayIncludes candidateLabels s); [| discriminate].
  destruct (readField result (js "score")) as [[[| | q | | |] |] | e]; simpl;
    try discriminate.
  destruct (Qgtb q 0) eqn:Hq; [| discriminate].
  intros H. injection H as <-. simpl. now apply Qgtb_lt.
Qed.

Lemma filterResults_positive (candidateLabels : list jsstring) (results : list json)
      (kept : list ClassificationResult) :
  filterResults candidateLabels results = Returned kept ->
  forall r, In r kept -> 0 < score r.
Proof.
  revert kept; induction results as [| result results IH]; simpl; intros kept H.
  - injection H as <-. intros r [].
  - destruct (relevantResult candidateLabels result) as [keep | e] eqn:Hkeep;
      simpl in H; [| discriminate].
    destruct (filterResults candidateLabels results) as [rest | e]; simpl in H;
      [| discriminate].
    injection H as <-. intros r Hr.
    destruct keep as [r0 |]; [destruct Hr as [<- | Hr] |]; eauto.
    eapply relevantResult_positive; eassumption.
Qed.
End OpenAIClassification.

(** X13.  [classifyText] of the OpenAI client returns only with the
    credential set and after exactly one chat completion, and then only
    results whose label is one of the candidate labels and whose score is
    positive.  An answer that is not JSON makes it return the empty list.
    When it throws, the error is the one of the import (the key not
    defined, nothing sent) or an [Error] whose message starts with "OpenAI
    text classification failed: ", after at most that one request. *)
Theorem openai_classifyText_outcomes
        (pf : Platform) (text : jsstring) (candidateLabels : list jsstring)
        (w : World) (log : list request) :
  let sent := log ++ [OpenAIChatCompletion (OpenAIService.OPENAI_MODEL_CHAT w)
                        (OpenAIService.classifyPrompt text candidateLabels)
                        200 (Some 0.3)] in
  let run := Loading.viaImport (OpenAIService.classifyText pf text candidateLabels) w log in
  match run with
  | (Returned results, log') =>
      log' = sent
      /\ truthy (OpenAIService.OPENAI_API_KEY w) = true
      /\ (exists content, chatCompletionsCreate w sent = Returned (Some content))
      /\ (forall r, In r results -> In (label r) candidateLabels /\ 0 < score r)
  | (Thrown e, log') =>
      (e = Error Loading.missingKey
       /\ OpenAIService.OPENAI_API_KEY w = None /\ log' = log)
      \/ ((exists cause, e = Error (js "OpenAI text classification failed: " ++ cause))
          /\ (log' = log \/ log' = sent))
  end
  /\ (forall content cause,
        truthy (OpenAIService.OPENAI_API_KEY w) = true ->
        chatCompletionsCreate w sent = Returned (Some content) ->
        content <> [] ->
        JSON_parse pf content = Thrown cause ->
        run = (Returned [], sent)).
Proof.
  intros sent run. subst run.
  unfold Loading.viaImport, Loading.openai.
  destruct (OpenAIService.OPENAI_API_KEY w) as [key |] eqn:Hkey;
    [| split; [left; auto | discriminate]].
  split.
  - destruct (OpenAIService.classifyText pf text candidateLabels w log)
      as [[results | e] log'] eqn:Hrun.
    + pose proof (@classifyText_labels pf text candidateLabels w log log' results Hrun)
        as Hlabels.
      revert Hrun. unfold OpenAIService.classifyText. io_run. rewrite Hkey.
      destruct (truthy (Some key)); cbn [negb]; cbv beta; [| discriminate].
      fold sent.
      destruct (chatCompletionsCreate w sent) as [content | e] eqn:Hanswer;
        [| discriminate].
      destruct (truthy content) eqn:Hcontent; cbn [negb]; cbv beta; [| discriminate].
      assert (Hsome : exists text0, content = Some text0).
      { destruct content as [text0 |]; [eauto | discriminate]. }
      destruct Hsome as [text0 ->].
      destruct (JSON_parse pf (orElse (Some text0) [])) as [parsed | e] eqn:Hparse;
        unfold Pure.bind; cbv beta iota.
      * destruct (OpenAIService.filterParsed candidateLabels parsed) as [kept | e]
          eqn:Hkept; intros H; injection H as <- <-.
        -- split; [reflexivity | split; [reflexivity | split; [eauto |]]].
           intros r Hr. split; [now apply Hlabels |].
           destruct parsed; simpl in Hkept; try discriminate.
           eapply filterResults_positive; eassumption.
        -- split; [reflexivity | split; [reflexivity | split; [eauto | intros r []]]].
      * intros H. injection H as <- <-.
        split; [reflexivity | split; [reflexivity | split; [eauto | intros r []]]].
    + right. revert Hrun. unfold OpenAIService.classifyText. io_run. rewrite Hkey.
      destruct (truthy (Some key)); cbn [negb]; cbv beta.
      * fold sent.
        destruct (chatCompletionsCreate w sent) as [content | e0]; cbv beta.
        -- destruct (truthy content); cbn [negb]; cbv beta.
           ++ destruct (JSON_parse pf (orElse content [])) as [parsed | e1];
                unfold Pure.bind; cbv beta iota; [| discriminate].
              destruct (OpenAIService.filterParsed candidateLabels parsed); discriminate.
           ++ intros H. injection H as <- <-. split; [eexists; reflexivity | auto].
        -- intros H. injection H as <- <-. split; [eexists; reflexivity | auto].
      * intros H. injection H as <- <-. split; [eexists; reflexivity | auto].
  - intros content cause Hk Hanswer Hne Hparse.
    unfold OpenAIService.classifyText. io_run. rewrite Hkey in *. rewrite Hk.
    cbn [negb]. cbv beta. fold sent. rewrite Hanswer.
    destruct content as [| c content]; [contradiction |].
    cbn [truthy negb orElse]. cbv beta. rewrite Hparse. reflexivity.
Qed.

(* ================================================================= *)
(** ** Note parsing *)

(** X14.  [parseNote] never throws on the HuggingFace and Google clients,
    nor on the OpenAI client once its module is loaded; it sends at most
    one request, and on the HuggingFace and Google clients it returns at
    least one item.  The one error a caller can get is the one of the
    import of the OpenAI client, its key not being defined. *)
Theorem parseNote_throws_only_on_import
        (pf : Platform) (p : ProviderName) (noteText : jsstring)
        (w : World) (log : list request) :
  if Loading.imports p w then
    exists items log',
      Client.parseNote (Loading.importedClientOf pf p) noteText w log
      = (Returned items, log')
      /\ (p = OpenAI \/ items <> [])
      /\ (log' = log \/ exists sent, log' = log ++ [sent])
  else
    Client.parseNote (Loading.importedClientOf pf p) noteText w log
    = (Thrown (Error Loading.missingKey), log).
Proof.
  destruct p; cbn [Loading.imports Loading.importedClientOf].
  - exact (client_parseNote_returns pf HuggingFace noteText w log).
  - cbn [Client.parseNote]. unfold Loading.viaImport, Loading.openai.
    destruct (OpenAIService.OPENAI_API_KEY w) as [key |]; [| reflexivity].
    exact (client_parseNote_returns pf OpenAI noteText w log).
  - exact (client_parseNote_returns pf Google noteText w log).
Qed.

(** X12 at work: no credential at all. *)
Lemma classification_without_credential_witness :
  let w := Examples.unconfigured in
  truthy (HuggingFaceService.HF_API_KEY w) = false
  /\ truthy (OpenAIService.OPENAI_API_KEY w) = false
  /\ HuggingFaceService.extractEntities (js "Call Ada in Paris") w []
     = (Thrown (Error (js "NER extraction failed: HUGGINGFACE_API_KEY not configured")), [])
  /\ Loading.viaImport
       (OpenAIService.classifyText Examples.latin1 (js "Call Ada in Paris") [js "work"])
       w []
     = (Thrown (Error Loading.missingKey), []).
Proof.
  intros w.
  destruct (@classification_without_credential Examples.latin1 (js "Call Ada in Paris")
              [js "work"] w []) as [Hhf Hopenai].
  split; [reflexivity | split; [reflexivity | split]].
  - exact (proj2 (Hhf eq_refl)).
  - exact (Hopenai eq_refl).
Defined.

(* ================================================================= *)
(** ** The keyword fallback is a threshold on the relevance *)

Lemma filterM_filter {A} (f : A -> outcome bool) (g : A -> bool) (l : list A) :
  Forall (fun x => f x = Returned (g x)) l ->
  Pure.filterM f l = Returned (filter g l).
Proof.
  induction 1 as [| x l Hx _ IH]; simpl; [reflexivity |].
  rewrite Hx, IH. simpl. now destruct (g x).
Qed.

(** The two literal matches are worth 0.8 and 0.4. *)
Lemma calculateTagRelevance_floor (pf : Platform) (content tag : jsstring) (q : Q) :
  HuggingFaceService.calculateTagRelevance pf content tag = Returned q ->
  (includes (toLowerCase pf content) (toLowerCase pf tag) = true -> 0.8 <= q)
  /\ (includes (toLowerCase pf tag) (first (splitChar space (toLowerCase pf content)))
      = true -> 0.4 <= q).
Proof.
  unfold HuggingFaceService.calculateTagRelevance.
  destruct (HuggingFaceService.getContextMatches pf _ _) as [n | e]; simpl;
    [| discriminate].
  intros H. injection H as <-.
  set (s0 := if includes (toLowerCase pf content) (toLowerCase pf tag)
             then 0 + 0.8 else 0).
  set (s1 := if _ || _ then s0 + 0.4 else s0).
  pose proof (wordLoop_grows
                (HuggingFaceService.longWords (toLowerCase pf content))
                (HuggingFaceService.longWords (toLowerCase pf tag)) s1) as Hloop.
  pose proof (Qnat_nonneg n) as Hn.
  assert (H0 : 0 <= s0).
  { unfold s0. destruct (includes (toLowerCase pf content) (toLowerCase pf tag)); lra. }
  assert (H1 : s0 <= s1).
  { unfold s1. match goal with |- _ <= (if ?c then _ else _) => destruct c end; lra. }
  split; intros Hin; (apply Q.min_glb; [| lra]).
  - assert (0.8 <= s0) by (unfold s0; rewrite Hin; lra).
    set (looped := HuggingFaceService.wordLoop _ _ s1) in *. nra.
  - assert (0.4 <= s1) by (unfold s1; rewrite Hin; cbn [orb]; lra).
    set (looped := HuggingFaceService.wordLoop _ _ s1) in *. nra.
Qed.

(** X15.  When every tag can be scored (and lowercasing twice is
    lowercasing once), the keyword fallback returns the first three tags,
    in the order of the vocabulary, whose relevance is above 0.3: the two
    literal tests of its filter never admit a tag the relevance test would
    refuse.  Unlike the main path it does not rank. *)
Theorem fallbackKeywordMatching_threshold
        (pf : Platform) (itemContent : jsstring) (availableTags : list jsstring) :
  (forall s, toLowerCase pf (toLowerCase pf s) = toLowerCase pf s) ->
  Forall (fun t => exists q,
              HuggingFaceService.calculateTagRelevance pf itemContent t = Returned q)
         availableTags ->
  HuggingFaceService.fallbackKeywordMatching pf itemContent availableTags
  = Returned
      (firstn 3
         (filter (fun t =>
                    match HuggingFaceService.calculateTagRelevance pf itemContent t with
                    | Returned q => Qgtb q 0.3
                    | Thrown _ => false
                    end)
                 availableTags)).
Proof.
  intros Hlower Hall. unfold HuggingFaceService.fallbackKeywordMatching.
  erewrite filterM_filter; [reflexivity |].
  eapply Forall_impl; [| exact Hall]. cbv beta. intros t [q Hq]. rewrite Hq.
  destruct (calculateTagRelevance_floor pf itemContent t Hq) as [Hfull Hfirst].
  rewrite Hlower.
  destruct (includes (toLowerCase pf itemContent) (toLowerCase pf t)) eqn:E1;
    cbn [orb].
  - specialize (Hfull eq_refl). f_equal. symmetry. apply Qgtb_lt. lra.
  - destruct (includes (toLowerCase pf t) _) eqn:E2.
    + specialize (Hfirst eq_refl). f_equal. symmetry. apply Qgtb_lt. lra.
    + reflexivity.
Qed.

(** The theorem at work: four tags above 0.3, the first three returned,
    although the fourth scores highest. *)
Lemma fallbackKeywordMatching_threshold_witness :
  let itemContent := js "buy food for the office meeting and the trip to the hotel" in
  let availableTags := [js "shopping"; js "work"; js "travel"; js "food"] in
  (forall s, toLowerCase Examples.latin1 (toLowerCase Examples.latin1 s)
             = toLowerCase Examples.latin1 s)
  /\ Forall (fun t => exists q,
                 HuggingFaceService.calculateTagRelevance Examples.latin1 itemContent t
                 = Returned q)
            availableTags
  /\ HuggingFaceService.fallbackKeywordMatching Examples.latin1 itemContent availableTags
     = Returned [js "shopping"; js "work"; js "travel"].
Proof.
  intros itemContent availableTags.
  assert (Hall : Forall (fun t => exists q,
                             HuggingFaceService.calculateTagRelevance
                               Examples.latin1 itemContent t = Returned q)
                        availableTags).
  { repeat constructor; eexists; reflexivity. }
  split; [exact toLowerCaseLatin1_idempotent | split; [exact Hall |]].
  rewrite (@fallbackKeywordMatching_threshold Examples.latin1 itemContent availableTags
             toLowerCaseLatin1_idempotent Hall).
  reflexivity.
Defined.

(* ================================================================= *)
(** ** [aiService.ts] on the clients of the repository *)

Section OnRepositoryClients.
Import FallbackAIService.
Variable pf : Platform.

Lemma attempt_returns (p : AIProvider) (itemContent : jsstring)
      (availableTags : list jsstring) (w : World) (log : list request) :
  exists tags log',
    attempt (hfService pf) googleAIService p itemContent availableTags w log
    = (Returned tags, log')
    /\ (length tags <= 3)%nat.
Proof.
  assert (Hhf : forall log0, exists tags log',
               viaHuggingFace (hfService pf) itemContent availableTags w log0
               = (Returned tags, log') /\ (length tags <= 3)%nat).
  { intros log0. unfold viaHuggingFace. unfold bind.
    destruct (client_testConnection_returns pf HuggingFace w log0) as (st & log1 & E).
    change (clientOf pf HuggingFace) with (hfService pf) in E. rewrite E.
    destruct (Client.connected st).
    - exact (client_suggestTags_returns pf HuggingFace itemContent availableTags w log1).
    - exists [], log1. split; [reflexivity | simpl; lia]. }
  destruct p; unfold attempt; [apply Hhf |].
  unfold bind.
  destruct (client_testConnection_returns pf Google w log) as (st & log1 & E).
  change (clientOf pf Google) with googleAIService in E. rewrite E.
  destruct (Client.connected st); [| apply Hhf].
  exact (client_suggestTags_returns pf Google itemContent availableTags w log1).
Qed.

Lemma parseVia_returns (p : AIProvider) (noteText : jsstring)
      (w : World) (log : list request) :
  exists items log',
    FallbackAIServiceRest.parseVia (hfService pf) googleAIService p noteText w log
    = (Returned items, log')
    /\ items <> [].
Proof.
  assert (Hreal : forall q log0, q <> OpenAI -> exists items log',
               Client.parseNote (clientOf pf q) noteText w log0 = (Returned items, log')
               /\ items <> []).
  { intros q log0 Hq.
    destruct (client_parseNote_returns pf q noteText w log0)
      as (items & log' & E & [Hp | Hne] & _); [contradiction | eauto]. }
  assert (Hhf : forall log0, exists items log',
               (hfStatus <- Client.testConnection (hfService pf) ;;
                if Client.connected hfStatus
                then Client.parseNote (hfService pf) noteText
                else ret [trim noteText]) w log0
               = (Returned items, log') /\ items <> []).
  { intros log0. unfold bind.
    destruct (client_testConnection_returns pf HuggingFace w log0) as (st & log1 & E).
    change (clientOf pf HuggingFace) with (hfService pf) in E. rewrite E.
    destruct (Client.connected st).
    - apply (Hreal HuggingFace log1). discriminate.
    - exists [trim noteText], log1. split; [reflexivity | discriminate]. }
  destruct p; unfold FallbackAIServiceRest.parseVia; [apply Hhf |].
  unfold bind at 1.
  destruct (client_testConnection_returns pf Google w log) as (st & log1 & E).
  change (clientOf pf Google) with googleAIService in E. rewrite E.
  destruct (Client.connected st); [| apply Hhf].
  apply (Hreal Google log1). discriminate.
Qed.
Lemma suggestTags_first_call (defaultProvider : AIProvider) (provider : option AIProvider)
      (itemContent : jsstring) (availableTags : list jsstring)
      (w : World) (log : list request) :
  exists tags log',
    (length tags <= 3)%nat
    /\ forall fuel,
         suggestTags (hfService pf) googleAIService (S fuel) defaultProvider
                     itemContent availableTags provider w log
         = (Returned (Some tags), log').
Proof.
  destruct (attempt_returns
              (match provider with Some p => p | None => defaultProvider end)
              itemContent availableTags w log) as (tags & log' & E & Hlen).
  exists tags, log'. split; [exact Hlen |]. intros fuel.
  cbn [suggestTags]. unfold tryCatch at 1. unfold bind at 1.
  rewrite E. reflexivity.
Qed.

Lemma parseNote_first_call (defaultProvider : AIProvider) (provider : option AIProvider)
      (noteText : jsstring) (w : World) (log : list request) :
  exists items log',
    items <> []
    /\ forall fuel,
         FallbackAIServiceRest.parseNote (hfService pf) googleAIService (S fuel)
           defaultProvider noteText provider w log
         = (Returned (Some items), log').
Proof.
  destruct (parseVia_returns
              (match provider with Some p => p | None => defaultProvider end)
              noteText w log) as (items & log' & E & Hne).
  exists items, log'. split; [exact Hne |]. intros fuel.
  cbn [FallbackAIServiceRest.parseNote]. unfold tryCatch at 1. unfold bind at 1.
  rewrite E. reflexivity.
Qed.
End OnRepositoryClients.

(** X16.  On the two clients the service is built with, [suggestTags] and
    [parseNote] of [aiService.ts] return from their [try] block: the first
    call is enough, whatever the environment and the remote answers, so
    the [catch] block and its hand-over to the other provider are never
    entered.  The tags are at most three, the items at least one. *)
Theorem fallback_service_returns_at_once
        (pf : Platform) (defaultProvider : FallbackAIService.AIProvider)
        (provider : option FallbackAIService.AIProvider)
        (itemContent noteText : jsstring) (availableTags : list jsstring)
        (w : World) (log : list request) :
  (exists tags log',
     (length tags <= 3)%nat
     /\ forall fuel,
          FallbackAIService.suggestTags (hfService pf) googleAIService (S fuel)
            defaultProvider itemContent availableTags provider w log
          = (Returned (Some tags), log'))
  /\ (exists items log',
        items <> []
        /\ forall fuel,
             FallbackAIServiceRest.parseNote (hfService pf) googleAIService (S fuel)
               defaultProvider noteText provider w log
             = (Returned (Some items), log')).
Proof.
  split.
  - exact (suggestTags_first_call pf defaultProvider provider itemContent availableTags
             w log).
  - exact (parseNote_first_call pf defaultProvider provider noteText w log).
Qed.

(* ================================================================= *)
(** ** [aiService.ts] on arbitrary providers *)

Section Disconnected.
Import FallbackAIService.
Variable b : Stub.Behaviour.
Variables (itemContent : jsstring) (availableTags : list jsstring).

Lemma attempt_asks_connected (p : AIProvider) (log : list Stub.call) :
  forall q,
    In q (Stub.suggestCalls
            (snd (attempt (Stub.client HuggingFace) (Stub.client Google) p
                          itemContent availableTags b log))) ->
    In q (Stub.suggestCalls log) \/ (exists st, Stub.onTestConnection b q = Returned st /\ Client.connected st = true).
Proof.
  assert (Hhf : forall log0 q,
             In q (Stub.suggestCalls
                     (snd (viaHuggingFace (Stub.client HuggingFace)
                                          itemContent availableTags b log0))) ->
             In q (Stub.suggestCalls log0) \/ (exists st, Stub.onTestConnection b q = Returned st /\ Client.connected st = true)).
  { intros log0 q. unfold viaHuggingFace. simpl. io_run.
    destruct (Stub.onTestConnection b HuggingFace) as [st | e] eqn:Est; cbn [snd].
    - destruct (Client.connected st) eqn:Hst; cbn [snd];
        rewrite !suggestCalls_app; simpl; rewrite ?app_nil_r; intros H.
      + apply in_app_or in H as [H | [<- | []]]; [now left |].
        right. exists st. auto.
      + now left.
    - rewrite suggestCalls_app. simpl. rewrite app_nil_r. now left. }
  intros q. destruct p; unfold attempt; [apply Hhf |].
  simpl. unfold bind at 1. unfold perform at 1.
  destruct (Stub.onTestConnection b Google) as [st | e] eqn:Est; cbn [snd].
  - destruct (Client.connected st) eqn:Hst.
    + unfold perform. cbn [snd]. rewrite !suggestCalls_app. simpl.
      rewrite ?app_nil_r. intros H.
      apply in_app_or in H as [H | [<- | []]]; [now left |].
      right. exists st. auto.
    + intros H. apply Hhf in H. rewrite suggestCalls_app in H. simpl in H.
      rewrite app_nil_r in H. exact H.
  - rewrite suggestCalls_app. simpl. rewrite app_nil_r. now left.
Qed.

Lemma suggestTags_asks_connected (fuel : nat) (defaultProvider : AIProvider) :
  forall (provider : option AIProvider) (log : list Stub.call) (q : ProviderName),
    In q (Stub.suggestCalls
            (snd (suggestTags (Stub.client HuggingFace) (Stub.client Google) fuel
                              defaultProvider itemContent availableTags provider b log))) ->
    In q (Stub.suggestCalls log) \/ (exists st, Stub.onTestConnection b q = Returned st /\ Client.connected st = true).
Proof.
  induction fuel as [| fuel IH]; intros provider log q; [now left |].
  cbn [suggestTags]. unfold tryCatch at 1. unfold bind at 1.
  pose proof (attempt_asks_connected
                (match provider with Some p => p | None => defaultProvider end) log q)
    as Hfirst.
  destruct (attempt _ _ _ itemContent availableTags b log) as [[tags | e] log1];
    cbn [snd] in *; [exact Hfirst |].
  unfold tryCatch.
  pose proof (IH (Some (fallbackOf (match provider with
                                    | Some p => p
                                    | None => defaultProvider
                                    end))) log1 q) as Hrest.
  destruct (suggestTags _ _ fuel defaultProvider itemContent availableTags _ b log1)
    as [[r | e'] log2]; cbn [snd] in *; unfold ret; cbn [snd];
    intros H; apply Hrest in H as [H | H]; auto.
Qed.
End Disconnected.

(** X17.  Whatever the two providers do, and however long the service
    keeps handing the call over, [suggestTags] of [aiService.ts] calls a
    provider's [suggestTags] only if that provider's connection test
    returned [connected: true]: a provider that reports itself
    disconnected, or whose test throws, is never asked for tags. *)
Theorem suggestTags_asks_only_connected
        (b : Stub.Behaviour) (fuel : nat)
        (defaultProvider : FallbackAIService.AIProvider)
        (provider : option FallbackAIService.AIProvider)
        (itemContent : jsstring) (availableTags : list jsstring) (q : ProviderName) :
  In q (Stub.suggestCalls
          (snd (FallbackAIService.suggestTags (Stub.client HuggingFace)
                  (Stub.client Google) fuel defaultProvider itemContent availableTags
                  provider b []))) ->
  exists st, Stub.onTestConnection b q = Returned st /\ Client.connected st = true.
Proof.
  intros H.
  apply (suggestTags_asks_connected b itemContent availableTags fuel defaultProvider
           provider [] q) in H.
  destruct H as [[] | H]. exact H.
Qed.

(** The theorem at work: Google connected and answering. *)
Lemma suggestTags_asks_only_connected_witness :
  let b := Examples.behaviour (fun _ => false) (fun _ => [js "work"]) in
  In Google
     (Stub.suggestCalls
        (snd (FallbackAIService.suggestTags (Stub.client HuggingFace)
                (Stub.client Google) 2 FallbackAIService.google (js "quarterly report")
                [js "work"] None b [])))
  /\ exists st, Stub.onTestConnection b Google = Returned st
                /\ Client.connected st = true.
Proof.
  intros b.
  assert (H : In Google
                 (Stub.suggestCalls
                    (snd (FallbackAIService.suggestTags (Stub.client HuggingFace)
                            (Stub.client Google) 2 FallbackAIService.google
                            (js "quarterly report") [js "work"] None b []))))
    by (left; reflexivity).
  split; [exact H |].
  exact (@suggestTags_asks_only_connected b 2 FallbackAIService.google None
           (js "quarterly report") [js "work"] Google H).
Defined.

(* ================================================================= *)
(** ** The AI operations of [operations.ts] *)

Section UnifiedReturns.
Variables Env Ev : Type.
Variables hf openai google : Client.t Env Ev.

Lemma testConnectionWithProvider_returns (provider : jsstring) (w : Env) (log : list Ev) :
  exists st log',
    UnifiedAIService.testConnectionWithProvider hf openai google provider w log
    = (Returned st, log').
Proof.
  unfold UnifiedAIService.testConnectionWithProvider. io_run.
  destruct (JS.eqb provider (js "openai")); [| destruct (JS.eqb provider (js "google"))];
    cbv beta;
    match goal with
    | |- context [Client.testConnection ?c w log] =>
        destruct (Client.testConnection c w log) as [[st | e] log']
    end; do 2 eexists; reflexivity.
Qed.

Lemma unified_suggestTags_returns (this_provider itemContent : jsstring)
      (availableTags : list jsstring) (w : Env) (log : list Ev) :
  exists tags log',
    UnifiedAIService.suggestTags hf openai google this_provider itemContent availableTags
                                 w log
    = (Returned tags, log').
Proof.
  rewrite suggestTags_selected. unfold tryCatch, ret.
  destruct (Client.suggestTags _ itemContent availableTags w log) as [[tags | e] log'];
    do 2 eexists; reflexivity.
Qed.

Lemma suggestTagsWithProvider_returns (itemContent : jsstring)
      (availableTags : list jsstring) (provider : jsstring) (w : Env) (log : list Ev) :
  exists result log',
    UnifiedAIService.suggestTagsWithProvider hf openai google itemContent availableTags
                                             provider w log
    = (Returned result, log').
Proof.
  unfold UnifiedAIService.suggestTagsWithProvider. io_run.
  destruct (JS.eqb provider (js "openai")); [| destruct (JS.eqb provider (js "google"))];
    cbv beta;
    match goal with
    | |- context [Client.suggestTags ?c itemContent availableTags w log] =>
        destruct (Client.suggestTags c itemContent availableTags w log)
          as [[tags | e] log']
    end; do 2 eexists; reflexivity.
Qed.
End UnifiedReturns.

(** X18.  The only error an AI operation lets out is the 401 of a request
    without a signed-in user, thrown before any provider is called.  For a
    signed-in user each of the six operations returns a report, whatever
    the providers and the tag query do. *)
Theorem ai_operations_throw_only_401
        (Env Ev : Type) (hf openai google : Client.t Env Ev)
        (this_provider provider text : jsstring) (context : Operations.Context)
        (w : Env) (log : list Ev) :
  match Operations.user context with
  | None =>
      AIOperations.testAIConnection hf openai google this_provider context w log
      = (Thrown AIOperations.notAuthorized, log)
      /\ AIOperations.testTagSuggestion hf openai google this_provider text context w log
         = (Thrown AIOperations.notAuthorized, log)
      /\ AIOperations.testAIProvider hf openai google provider text context w log
         = (Thrown AIOperations.notAuthorized, log)
      /\ Operations.compareProviders hf openai google text context w log
         = (Thrown AIOperations.notAuthorized, log)
      /\ AIOperations.setAIProvider hf openai google this_provider provider context w log
         = (Thrown AIOperations.notAuthorized, log)
      /\ AIOperations.testGoogleAI hf openai google text context w log
         = (Thrown AIOperations.notAuthorized, log)
  | Some _ =>
      (exists report log',
         AIOperations.testAIConnection hf openai google this_provider context w log
         = (Returned report, log'))
      /\ (exists report log',
            AIOperations.testTagSuggestion hf openai google this_provider text context w log
            = (Returned report, log'))
      /\ (exists report log',
            AIOperations.testAIProvider hf openai google provider text context w log
            = (Returned report, log'))
      /\ (exists report log',
            Operations.compareProviders hf openai google text context w log
            = (Returned report, log'))
      /\ (exists report log',
            AIOperations.setAIProvider hf openai google this_provider provider context w log
            = (Returned report, log'))
      /\ (exists report log',
            AIOperations.testGoogleAI hf openai google text context w log
            = (Returned report, log'))
  end.
Proof.
  assert (Hwith : forall name notConnected,
             Operations.user context <> None ->
             exists report log',
               AIOperations.testWithProvider hf openai google name notConnected
                                             text context w log
               = (Returned report, log')).
  { intros name notConnected Hu. unfold AIOperations.testWithProvider.
    destruct (Operations.user context); [| contradiction].
    unfold tryCatch at 1. unfold bind at 1.
    destruct (testConnectionWithProvider_returns hf openai google name w log)
      as (st & log1 & E). rewrite E.
    destruct (UnifiedAIService.connected st); cbn [negb].
    - unfold bind at 1, lift.
      destruct (Operations.Tag_findMany context) as [rows | e];
        [| do 2 eexists; reflexivity].
      unfold bind at 1.
      destruct (suggestTagsWithProvider_returns hf openai google text
                  (map Operations.name rows) name w log1) as (r & log2 & E2).
      rewrite E2. do 2 eexists. reflexivity.
    - do 2 eexists. reflexivity. }
  unfold AIOperations.testAIProvider, AIOperations.testGoogleAI.
  pose proof (Hwith provider (js "Provider not connected")) as Hprovider.
  pose proof (Hwith (js "google") (js "Google AI not connected")) as Hgoogle.
  clear Hwith. revert Hprovider Hgoogle.
  unfold AIOperations.testAIConnection, AIOperations.testTagSuggestion,
    AIOperations.testWithProvider, Operations.compareProviders,
    AIOperations.setAIProvider, AIOperations.notAuthorized.
  destruct (Operations.user context) as [u |]; intros Hprovider Hgoogle.
  - split; [| split; [| split; [| split; [| split]]]].
    + unfold UnifiedAIService.testConnection, tryCatch at 1. unfold bind at 1.
      destruct (testConnectionWithProvider_returns hf openai google this_provider w log)
        as (st & log1 & E). rewrite E. do 2 eexists. reflexivity.
    + unfold tryCatch at 1. unfold bind at 1, lift.
      destruct (Operations.Tag_findMany context) as [rows | e];
        [| do 2 eexists; reflexivity].
      unfold bind at 1.
      destruct (unified_suggestTags_returns hf openai google this_provider text
                  (map Operations.name rows) w log) as (tags & log1 & E).
      rewrite E. do 2 eexists. reflexivity.
    + apply Hprovider. discriminate.
    + unfold tryCatch at 1. unfold bind at 1, lift.
      destruct (Operations.Tag_findMany context) as [rows | e];
        [| do 2 eexists; reflexivity].
      unfold Operations.settle, Operations.suggestWith, bind.
      destruct (suggestTagsWithProvider_returns hf openai google text
                  (map Operations.name rows) (js "huggingface") w log)
        as (r1 & log1 & E1). rewrite E1.
      destruct (suggestTagsWithProvider_returns hf openai google text
                  (map Operations.name rows) (js "openai") w log1)
        as (r2 & log2 & E2). rewrite E2.
      destruct (suggestTagsWithProvider_returns hf openai google text
                  (map Operations.name rows) (js "google") w log2)
        as (r3 & log3 & E3). rewrite E3.
      do 2 eexists. reflexivity.
    + unfold tryCatch at 1. unfold bind at 1.
      destruct (testConnectionWithProvider_returns hf openai google provider w log)
        as (st & log1 & E). rewrite E.
      destruct (UnifiedAIService.connected st); do 2 eexists; reflexivity.
    + apply Hgoogle. discriminate.
  - repeat split.
Qed.

(** X19.  For a signed-in user, [setAIProvider] changes the provider of
    the service exactly when the connection test of the requested provider
    reports connected; [success] says which.  On success the field
    [previousProvider] holds the provider just set, not the one in force
    before the call; on refusal the report carries a non-empty error. *)
Theorem setAIProvider_switch
        (Env Ev : Type) (hf openai google : Client.t Env Ev)
        (this_provider provider : jsstring) (context : Operations.Context)
        (w : Env) (log log' : list Ev) (u : unit) (st : UnifiedAIService.AIServiceStatus) :
  Operations.user context = Some u ->
  UnifiedAIService.testConnectionWithProvider hf openai google provider w log
  = (Returned st, log') ->
  exists report,
    AIOperations.setAIProvider hf openai google this_provider provider context w log
    = (Returned (report,
                 if UnifiedAIService.connected st then provider else this_provider),
       log')
    /\ AIOperations.sw_success report = UnifiedAIService.connected st
    /\ AIOperations.sw_previousProvider report
       = (if UnifiedAIService.connected st then Some provider else None)
    /\ (UnifiedAIService.connected st = false ->
        exists message, AIOperations.sw_error report = Some message /\ message <> []).
Proof.
  intros Hu Htest. unfold AIOperations.setAIProvider. rewrite Hu.
  unfold tryCatch at 1. unfold bind at 1. rewrite Htest.
  destruct (UnifiedAIService.connected st) eqn:Hst; cbn [negb]; unfold ret.
  - eexists. split; [reflexivity |]. cbn.
    split; [reflexivity | split; [reflexivity | discriminate]].
  - eexists. split; [reflexivity |]. cbn.
    split; [reflexivity | split; [reflexivity |]].
    intros _. unfold AIOperations.orText. eexists. split; [reflexivity |].
    destruct (UnifiedAIService.error st) as [[| c message] |]; discriminate.
Qed.

(** The theorem at work: from 'huggingface' to a connected 'google'. *)
Lemma setAIProvider_switch_witness :
  let b := Examples.behaviour (fun _ => false) (fun _ => [js "work"]) in
  let context := Examples.signedIn [js "work"] in
  let st := {| UnifiedAIService.connected := true;
               UnifiedAIService.apiKeyConfigured := true;
               UnifiedAIService.provider := js "google";
               UnifiedAIService.error := None |} in
  Operations.user context = Some tt
  /\ UnifiedAIService.testConnectionWithProvider
       (Stub.client HuggingFace) (Stub.client OpenAI) (Stub.client Google)
       (js "google") b []
     = (Returned st, [Stub.TestConnection Google])
  /\ exists report,
       AIOperations.setAIProvider
         (Stub.client HuggingFace) (Stub.client OpenAI) (Stub.client Google)
         (js "huggingface") (js "google") context b []
       = (Returned (report, js "google"), [Stub.TestConnection Google])
       /\ AIOperations.sw_success report = true
       /\ AIOperations.sw_previousProvider report = Some (js "google")
       /\ (true = false ->
           exists message, AIOperations.sw_error report = Some message /\ message <> []).
Proof.
  intros b context st.
  split; [reflexivity | split; [reflexivity |]].
  exact (@setAIProvider_switch _ _
           (Stub.client HuggingFace) (Stub.client OpenAI) (Stub.client Google)
           (js "huggingface") (js "google") context b [] [Stub.TestConnection Google]
           tt st eq_refl eq_refl).
Defined.

(** X20.  For a signed-in user, [testAIProvider] and [testGoogleAI] stop
    at a connection test that does not report connected: nothing further
    is asked of any provider, and the report has no tag, no tag count, the
    status of the test and a non-empty error. *)
Theorem testAIProvider_stops_when_disconnected
        (Env Ev : Type) (hf openai google : Client.t Env Ev)
        (provider text : jsstring) (context : Operations.Context)
        (w : Env) (log log' : list Ev) (u : unit) (st : UnifiedAIService.AIServiceStatus) :
  Operations.user context = Some u ->
  UnifiedAIService.connected st = false ->
  let stopped (report : AIOperations.ProviderReport) :=
    AIOperations.pr_suggestedTags report = []
    /\ AIOperations.pr_availableTagCount report = None
    /\ AIOperations.pr_connectionStatus report = Some st
    /\ exists message, AIOperations.pr_error report = Some message /\ message <> [] in
  (UnifiedAIService.testConnectionWithProvider hf openai google provider w log
   = (Returned st, log') ->
   exists report,
     AIOperations.testAIProvider hf openai google provider text context w log
     = (Returned report, log')
     /\ stopped report)
  /\ (UnifiedAIService.testConnectionWithProvider hf openai google (js "google") w log
      = (Returned st, log') ->
      exists report,
        AIOperations.testGoogleAI hf openai google text context w log
        = (Returned report, log')
        /\ stopped report).
Proof.
  intros Hu Hst stopped.
  assert (Hwith : forall name notConnected,
             notConnected <> [] ->
             UnifiedAIService.testConnectionWithProvider hf openai google name w log
             = (Returned st, log') ->
             exists report,
               AIOperations.testWithProvider hf openai google name notConnected
                                             text context w log
               = (Returned report, log')
               /\ stopped report).
  { intros name notConnected Hmsg Htest. unfold AIOperations.testWithProvider.
    rewrite Hu. unfold tryCatch at 1. unfold bind at 1. rewrite Htest, Hst.
    cbn [negb]. unfold ret. eexists. split; [reflexivity |].
    unfold stopped. cbn.
    split; [reflexivity | split; [reflexivity | split; [reflexivity |]]].
    unfold AIOperations.orText. eexists. split; [reflexivity |].
    destruct (UnifiedAIService.error st) as [[| c message] |]; cbn;
      try discriminate; exact Hmsg. }
  split; intros Htest.
  - apply Hwith; [discriminate | exact Htest].
  - apply Hwith; [discriminate | exact Htest].
Qed.

(** The theorem at work: a provider whose connection test throws. *)
Lemma testAIProvider_stops_when_disconnected_witness :
  let b := {| Stub.onTestConnection := fun _ => Thrown (Error (js "fetch failed"));
              Stub.onSuggestTags := fun _ _ _ => Returned [js "work"];
              Stub.onParseNote := fun _ noteText => Returned [noteText];
              Stub.onGenerateText := fun _ _ _ => Returned (js "text") |} in
  let context := Examples.signedIn [js "work"] in
  let st := {| UnifiedAIService.connected := false;
               UnifiedAIService.apiKeyConfigured := false;
               UnifiedAIService.provider := js "openai";
               UnifiedAIService.error := Some (js "fetch failed") |} in
  Operations.user context = Some tt
  /\ UnifiedAIService.testConnectionWithProvider
       (Stub.client HuggingFace) (Stub.client OpenAI) (Stub.client Google)
       (js "openai") b []
     = (Returned st, [Stub.TestConnection OpenAI])
  /\ exists report,
       AIOperations.testAIProvider
         (Stub.client HuggingFace) (Stub.client OpenAI) (Stub.client Google)
         (js "openai") (js "quarterly report") context b []
       = (Returned report, [Stub.TestConnection OpenAI])
       /\ AIOperations.pr_suggestedTags report = []
       /\ AIOperations.pr_error report = Some (js "fetch failed").
Proof.
  intros b context st.
  split; [reflexivity | split; [reflexivity |]].
  destruct (proj1 (@testAIProvider_stops_when_disconnected _ _
                     (Stub.client HuggingFace) (Stub.client OpenAI) (Stub.client Google)
                     (js "openai") (js "quarterly report") context b []
                     [Stub.TestConnection OpenAI] tt st eq_refl eq_refl) eq_refl)
    as (report & Erun & Htags & _).
  exists report. split; [exact Erun | split; [exact Htags |]].
  cbv in Erun. injection Erun as <-. reflexivity.
Defined.

(* ================================================================= *)
(** ** The item and tag operations of [operations.ts] *)

Section ItemQueries.
Import ItemOperations.

Lemma attached_app (l1 l2 : list DbRequest) :
  attached (l1 ++ l2) = attached l1 ++ attached l2.
Proof. unfold attached. apply flat_map_app. Qed.

Lemma attached_creates (itemId : Z) (tagIds : list Z) :
  attached (map (ItemTag_create itemId) tagIds) = tagIds.
Proof.
  induction tagIds as [| tagId tagIds IH]; [reflexivity |].
  simpl. now rewrite IH.
Qed.

(** Every [ItemTag.create] of the join is issued, whether or not an
    earlier one fails. *)
Lemma attachTags_queries (itemId : Z) (tagIds : list Z) (db : Db) (log : list DbRequest) :
  snd (attachTags itemId tagIds db log)
  = log ++ map (ItemTag_create itemId) (firstn 3 tagIds).
Proof.
  unfold attachTags. generalize (firstn 3 tagIds) as limitedTagIds.
  intros limitedTagIds. revert log.
  induction limitedTagIds as [| tagId limitedTagIds IH]; intros log.
  - simpl. now rewrite app_nil_r.
  - cbn [map promiseAll]. unfold perform at 1.
    specialize (IH (log ++ [ItemTag_create itemId tagId])).
    destruct (itemTag_create db (log ++ [ItemTag_create itemId tagId])) as [[] | e].
    + destruct (promiseAll _ db (log ++ [ItemTag_create itemId tagId]))
        as [[rest | e] log2]; cbn [snd] in *; rewrite IH, <- app_assoc; reflexivity.
    + cbn [snd]. rewrite IH, <- app_assoc. reflexivity.
Qed.
End ItemQueries.

(** X21.  Without a signed-in user the six operations on items and tags
    that check for one throw 401 and send no query; [getActivities] and
    [getTags] do not check and send their query all the same. *)
Theorem item_operations_require_user
        (context : ItemOperations.Context) (db : ItemOperations.Db)
        (log : list ItemOperations.DbRequest)
        (itemId : Z) (content name category : jsstring)
        (sourceNote newContent color : option jsstring) (isCompleted : option bool)
        (activityId : option Z) (tagIds : option (list Z))
        (newRelevance : ItemOperations.number) :
  ItemOperations.user context = None ->
  ItemOperations.getItems activityId context db log
  = (Thrown ItemOperations.notAuthorized, log)
  /\ ItemOperations.createItem content sourceNote activityId tagIds context db log
     = (Thrown ItemOperations.notAuthorized, log)
  /\ ItemOperations.updateItem itemId newContent isCompleted activityId tagIds context db log
     = (Thrown ItemOperations.notAuthorized, log)
  /\ ItemOperations.deleteItem itemId context db log
     = (Thrown ItemOperations.notAuthorized, log)
  /\ ItemOperations.updateItemRelevance itemId newRelevance context db log
     = (Thrown ItemOperations.notAuthorized, log)
  /\ ItemOperations.createTag name category color context db log
     = (Thrown ItemOperations.notAuthorized, log)
  /\ snd (ItemOperations.getActivities context db log)
     = log ++ [ItemOperations.Activity_findMany]
  /\ snd (ItemOperations.getTags context db log) = log ++ [ItemOperations.Tag_findMany].
Proof.
  intros Hu.
  unfold ItemOperations.getItems, ItemOperations.createItem, ItemOperations.updateItem,
    ItemOperations.deleteItem, ItemOperations.updateItemRelevance,
    ItemOperations.createTag.
  rewrite Hu. repeat split.
Qed.

(** The theorem at work on the mocked database. *)
Lemma item_operations_require_user_witness :
  ItemOperations.user ItemExamples.anonymous = None
  /\ ItemOperations.deleteItem 7 ItemExamples.anonymous (ItemExamples.db true) []
     = (Thrown (HttpError 401 (js "Not authorized")), [])
  /\ snd (ItemOperations.getTags ItemExamples.anonymous (ItemExamples.db true) [])
     = [ItemOperations.Tag_findMany].
Proof.
  destruct (@item_operations_require_user ItemExamples.anonymous (ItemExamples.db true) []
              7%Z (js "Buy milk") (js "groceries") (js "shopping") None None None None
              None None ItemOperations.NaN eq_refl)
    as (_ & _ & _ & Hdelete & _ & _ & _ & Htags).
  split; [reflexivity | split; [exact Hdelete | exact Htags]].
Defined.

(** X22.  An item the ownership lookup does not find for the signed-in
    user is left alone: [updateItem] and [deleteItem] throw 404 after that
    single lookup, and so does [updateItemRelevance] for a relevance within
    range; no update, delete or tag query is sent. *)
Theorem unowned_item_untouched
        (context : ItemOperations.Context) (db : ItemOperations.Db)
        (log : list ItemOperations.DbRequest) (userId itemId : Z)
        (newContent : option jsstring) (isCompleted : option bool)
        (activityId : option Z) (tagIds : option (list Z)) (newRelevance : Q) :
  ItemOperations.user context = Some userId ->
  ItemOperations.item_findFirst db (log ++ [ItemOperations.Item_findFirst itemId userId])
  = Returned None ->
  let looked := log ++ [ItemOperations.Item_findFirst itemId userId] in
  ItemOperations.updateItem itemId newContent isCompleted activityId tagIds context db log
  = (Thrown ItemOperations.itemNotFound, looked)
  /\ ItemOperations.deleteItem itemId context db log
     = (Thrown ItemOperations.itemNotFound, looked)
  /\ (0 <= newRelevance -> newRelevance <= 1 ->
      ItemOperations.updateItemRelevance itemId (ItemOperations.Finite newRelevance)
                                         context db log
      = (Thrown ItemOperations.itemNotFound, looked)).
Proof.
  intros Hu Hnone looked.
  unfold ItemOperations.updateItem, ItemOperations.deleteItem,
    ItemOperations.updateItemRelevance.
  subst looked. rewrite Hu. io_run. rewrite Hnone.
  split; [reflexivity | split; [reflexivity |]].
  intros Hlow Hhigh.
  apply Qgtb_le in Hlow, Hhigh.
  cbn [ItemOperations.belowZero ItemOperations.aboveOne].
  rewrite Hlow, Hhigh. cbn [orb]. cbv beta.
  rewrite Hnone. reflexivity.
Qed.

(** The theorem at work: item 7 is not the user's. *)
Lemma unowned_item_untouched_witness :
  let looked := [ItemOperations.Item_findFirst 7 1] in
  ItemOperations.user ItemExamples.signedIn = Some 1%Z
  /\ ItemOperations.item_findFirst (ItemExamples.db false) looked = Returned None
  /\ ItemOperations.updateItem 7 (Some (js "Buy bread")) None None (Some [3%Z])
       ItemExamples.signedIn (ItemExamples.db false) []
     = (Thrown (HttpError 404 (js "Item not found")), looked)
  /\ ItemOperations.deleteItem 7 ItemExamples.signedIn (ItemExamples.db false) []
     = (Thrown (HttpError 404 (js "Item not found")), looked).
Proof.
  intros looked.
  destruct (@unowned_item_untouched ItemExamples.signedIn (ItemExamples.db false) []
              1%Z 7%Z (Some (js "Buy bread")) None None (Some [3%Z]) 0.5
              eq_refl eq_refl)
    as (Hupdate & Hdelete & _).
  split; [reflexivity | split; [reflexivity | split; [exact Hupdate | exact Hdelete]]].
Defined.

(** X23.  [updateItemRelevance] refuses a relevance below 0 or above 1
    (the two infinities among them) with 400 before it looks the item up,
    so without any query.  [NaN] is neither below 0 nor above 1 and passes
    the check like a relevance within [0, 1]: when the operation returns,
    the user is signed in, the relevance is within [0, 1] or [NaN], the
    lookup found the item for that user, and exactly the lookup and one
    update carrying that relevance were sent. *)
Theorem updateItemRelevance_outcomes
        (context : ItemOperations.Context) (db : ItemOperations.Db)
        (log : list ItemOperations.DbRequest) (itemId : Z)
        (newRelevance : ItemOperations.number) :
  let outside :=
    match newRelevance with
    | ItemOperations.Finite q => q < 0 \/ 1 < q
    | ItemOperations.NaN => False
    | ItemOperations.PlusInfinity | ItemOperations.MinusInfinity => True
    end in
  let passes :=
    match newRelevance with
    | ItemOperations.Finite q => 0 <= q /\ q <= 1
    | ItemOperations.NaN => True
    | ItemOperations.PlusInfinity | ItemOperations.MinusInfinity => False
    end in
  (forall userId,
     ItemOperations.user context = Some userId ->
     outside ->
     ItemOperations.updateItemRelevance itemId newRelevance context db log
     = (Thrown (HttpError 400 (js "Relevance must be between 0.0 and 1.0")), log))
  /\ (forall item log',
        ItemOperations.updateItemRelevance itemId newRelevance context db log
        = (Returned item, log') ->
        exists userId existingItem,
          ItemOperations.user context = Some userId
          /\ passes
          /\ ItemOperations.item_findFirst db
               (log ++ [ItemOperations.Item_findFirst itemId userId])
             = Returned (Some existingItem)
          /\ log' = log ++ [ItemOperations.Item_findFirst itemId userId;
                            ItemOperations.Item_updateRelevance itemId newRelevance
                              (ItemOperations.now context)])
  /\ (forall userId existingItem,
        ItemOperations.user context = Some userId ->
        passes ->
        ItemOperations.item_findFirst db
          (log ++ [ItemOperations.Item_findFirst itemId userId])
        = Returned (Some existingItem) ->
        ItemOperations.updateItemRelevance itemId newRelevance context db log
        = (ItemOperations.item_update db
             (log ++ [ItemOperations.Item_findFirst itemId userId;
                      ItemOperations.Item_updateRelevance itemId newRelevance
                        (ItemOperations.now context)]),
           log ++ [ItemOperations.Item_findFirst itemId userId;
                   ItemOperations.Item_updateRelevance itemId newRelevance
                     (ItemOperations.now context)])).
Proof.
  intros outside passes.
  assert (Hguard : ItemOperations.belowZero newRelevance
                   || ItemOperations.aboveOne newRelevance = true <-> outside).
  { subst outside. rewrite orb_true_iff.
    destruct newRelevance as [q | | |]; cbn; rewrite ?Qgtb_lt; intuition discriminate. }
  assert (Hpass : ItemOperations.belowZero newRelevance
                  || ItemOperations.aboveOne newRelevance = false <-> passes).
  { subst passes. rewrite orb_false_iff.
    destruct newRelevance as [q | | |]; cbn; rewrite ?Qgtb_le; intuition discriminate. }
  unfold ItemOperations.updateItemRelevance. split; [| split].
  - intros userId Hu Hout. rewrite Hu. apply Hguard in Hout. rewrite Hout. reflexivity.
  - intros item log'. destruct (ItemOperations.user context) as [userId |];
      [| discriminate].
    destruct (ItemOperations.belowZero newRelevance
              || ItemOperations.aboveOne newRelevance) eqn:Hcheck; [discriminate |].
    io_run.
    destruct (ItemOperations.item_findFirst db _) as [[existingItem |] | e] eqn:Hfound;
      try discriminate.
    destruct (ItemOperations.item_update db _) as [updated | e]; [| discriminate].
    intros H. injection H as _ <-.
    exists userId, existingItem. rewrite <- app_assoc.
    split; [reflexivity | split; [now apply Hpass | split; [exact Hfound | reflexivity]]].
  - intros userId existingItem Hu Hp Hfound. rewrite Hu.
    apply Hpass in Hp. rewrite Hp. io_run. rewrite Hfound.
    rewrite <- app_assoc. reflexivity.
Qed.

(** X23 at work: a relevance of 1.5 is refused before the item is looked
    up, and [NaN] is written to the item. *)
Lemma updateItemRelevance_outcomes_witness :
  ItemOperations.updateItemRelevance 7 (ItemOperations.Finite 1.5)
    ItemExamples.signedIn (ItemExamples.db true) []
  = (Thrown (HttpError 400 (js "Relevance must be between 0.0 and 1.0")), [])
  /\ ItemOperations.updateItemRelevance 7 ItemOperations.NaN
       ItemExamples.signedIn (ItemExamples.db true) []
     = (Returned ItemExamples.anItem,
        [ItemOperations.Item_findFirst 7 1;
         ItemOperations.Item_updateRelevance 7 ItemOperations.NaN
           (js "2025-06-01T00:00:00.000Z")]).
Proof.
  split.
  - apply (proj1 (@updateItemRelevance_outcomes ItemExamples.signedIn
                    (ItemExamples.db true) [] 7%Z (ItemOperations.Finite 1.5))
                 1%Z eq_refl).
    right. reflexivity.
  - exact (proj2 (proj2 (@updateItemRelevance_outcomes ItemExamples.signedIn
                           (ItemExamples.db true) [] 7%Z ItemOperations.NaN))
                 1%Z ItemExamples.anItem eq_refl I eq_refl).
Defined.

(** X24.  Whatever the database answers, [createItem] and [updateItem]
    send at most three [ItemTag.create] queries: none at all, or one for
    each of the first three tag ids given, in the order given. *)
Theorem attaches_first_three_tags
        (context : ItemOperations.Context) (db : ItemOperations.Db)
        (log : list ItemOperations.DbRequest) (itemId : Z) (content : jsstring)
        (sourceNote newContent : option jsstring) (isCompleted : option bool)
        (activityId : option Z) (tagIds : option (list Z)) :
  let given := match tagIds with Some ids => ids | None => [] end in
  (exists added,
     snd (ItemOperations.createItem content sourceNote activityId tagIds context db log)
     = log ++ added
     /\ (ItemOperations.attached added = []
         \/ ItemOperations.attached added = firstn 3 given))
  /\ (exists added,
        snd (ItemOperations.updateItem itemId newContent isCompleted activityId tagIds
                                       context db log)
        = log ++ added
        /\ (ItemOperations.attached added = []
            \/ ItemOperations.attached added = firstn 3 given)).
Proof.
  intros given. split.
  - unfold ItemOperations.createItem.
    destruct (ItemOperations.user context) as [userId |];
      [| exists []; split; [now rewrite app_nil_r | now left]].
    io_run.
    destruct (ItemOperations.item_create db _) as [item | e];
      [| eexists; split; [reflexivity | now left]].
    destruct tagIds as [[| tagId tagIds] |];
      try (eexists; split; [reflexivity | now left]).
    pose proof (attachTags_queries (ItemOperations.id item) (tagId :: tagIds) db
                  (log ++ [ItemOperations.Item_create content sourceNote activityId userId]))
      as Hqueries.
    destruct (ItemOperations.attachTags _ _ db _) as [[done | e] log2];
      cbn [snd] in *; subst log2; rewrite <- ?app_assoc;
      (eexists; split; [reflexivity | right]);
      rewrite ?attached_app, attached_creates; cbn [ItemOperations.attached flat_map app];
      rewrite ?app_nil_r; reflexivity.
  - unfold ItemOperations.updateItem.
    destruct (ItemOperations.user context) as [userId |];
      [| exists []; split; [now rewrite app_nil_r | now left]].
    io_run.
    destruct (ItemOperations.item_findFirst db _) as [[existingItem |] | e];
      try (eexists; split; [reflexivity | now left]).
    destruct (ItemOperations.item_update db _) as [updated | e];
      [| rewrite <- app_assoc; eexists; split; [reflexivity | now left]].
    destruct tagIds as [[| tagId tagIds] |].
    + destruct (ItemOperations.itemTag_deleteMany db _) as [[] | e];
        rewrite <- ?app_assoc; eexists; (split; [reflexivity | now left]).
    + destruct (ItemOperations.itemTag_deleteMany db _) as [[] | e];
        [| rewrite <- ?app_assoc; eexists; (split; [reflexivity | now left])].
      match goal with
      | |- context [ItemOperations.attachTags itemId (tagId :: tagIds) db ?l] =>
          pose proof (attachTags_queries itemId (tagId :: tagIds) db l) as Hqueries;
          destruct (ItemOperations.attachTags itemId (tagId :: tagIds) db l)
            as [[done | e] log2]
      end; cbn [snd] in *; subst log2; rewrite <- ?app_assoc;
        (eexists; split; [reflexivity | right]);
        cbn [app]; cbn [ItemOperations.attached flat_map app];
        fold (ItemOperations.attached
                (map (ItemOperations.ItemTag_create itemId) (firstn 3 (tagId :: tagIds))
                     ++ [ItemOperations.Item_findUnique itemId]));
        rewrite ?attached_app, ?attached_creates;
        cbn [ItemOperations.attached flat_map app]; rewrite ?app_nil_r; reflexivity.
    + rewrite <- ?app_assoc. eexists. split; [reflexivity | now left].
Qed.

(** X25.  [createTag] sends [Tag.create] only after its lookup found no
    tag of that name: a name the lookup finds is refused with 400 and
    nothing is written; when the operation returns, the lookup answered
    none and the two queries sent are the lookup and the creation for the
    signed-in user. *)
Theorem createTag_outcomes
        (context : ItemOperations.Context) (db : ItemOperations.Db)
        (log : list ItemOperations.DbRequest) (name category : jsstring)
        (color : option jsstring) :
  (forall userId existingTag,
     ItemOperations.user context = Some userId ->
     ItemOperations.tag_findFirst db (log ++ [ItemOperations.Tag_findFirst name userId])
     = Returned (Some existingTag) ->
     ItemOperations.createTag name category color context db log
     = (Thrown (HttpError 400 (js "Tag with this name already exists")),
        log ++ [ItemOperations.Tag_findFirst name userId]))
  /\ (forall tag log',
        ItemOperations.createTag name category color context db log
        = (Returned tag, log') ->
        exists userId,
          ItemOperations.user context = Some userId
          /\ ItemOperations.tag_findFirst db
               (log ++ [ItemOperations.Tag_findFirst name userId])
             = Returned None
          /\ log' = log ++ [ItemOperations.Tag_findFirst name userId;
                            ItemOperations.Tag_create name category color userId]).
Proof.
  unfold ItemOperations.createTag. split.
  - intros userId existingTag Hu Hfound. rewrite Hu. io_run. rewrite Hfound.
    reflexivity.
  - intros tag log'. destruct (ItemOperations.user context) as [userId |];
      [| discriminate].
    io_run.
    destruct (ItemOperations.tag_findFirst db _) as [[existingTag |] | e] eqn:Hfound;
      try discriminate.
    destruct (ItemOperations.tag_create db _) as [created | e]; [| discriminate].
    intros H. injection H as _ <-. exists userId. rewrite <- app_assoc. auto.
Qed.

(** X25 at work: the name is taken. *)
Lemma createTag_outcomes_witness :
  ItemOperations.createTag (js "groceries") (js "shopping") None
    ItemExamples.signedIn (ItemExamples.db true) []
  = (Thrown (HttpError 400 (js "Tag with this name already exists")),
     [ItemOperations.Tag_findFirst (js "groceries") 1]).
Proof.
  exact (proj1 (@createTag_outcomes ItemExamples.signedIn (ItemExamples.db true) []
                  (js "groceries") (js "shopping") None)
               1%Z ItemExamples.aTag eq_refl eq_refl).
Defined.

(* ================================================================= *)
(** ** Connection tests *)

(** X26.  [testConnection] never throws on the HuggingFace and Google
    clients, nor on the OpenAI client once its module is loaded.  Its
    [apiKeyConfigured] is exactly whether the credential is set; it reports
    connected only with the credential set and after one request, and then
    without an error; a report that is not connected always carries an
    error message, and without the credential nothing is sent.  The one
    error a caller can get is the one of the import of the OpenAI client,
    its key not being defined. *)
Theorem testConnection_outcomes
        (pf : Platform) (p : ProviderName) (w : World) (log : list request) :
  if Loading.imports p w then
    exists st log',
      Client.testConnection (Loading.importedClientOf pf p) w log = (Returned st, log')
      /\ Client.apiKeyConfigured st = truthy (credentialOf p w)
      /\ (Client.connected st = true ->
          Client.error st = None
          /\ truthy (credentialOf p w) = true
          /\ exists sent, log' = log ++ [sent])
      /\ (Client.connected st = false -> exists message, Client.error st = Some message)
      /\ (truthy (credentialOf p w) = false ->
          st = {| Client.connected := false;
                  Client.apiKeyConfigured := false;
                  Client.error := Some (notConfiguredOf p) |}
          /\ log' = log)
  else
    Client.testConnection (Loading.importedClientOf pf p) w log
    = (Thrown (Error Loading.missingKey), log).
Proof.
  assert (Hmethod : exists st log',
             Client.testConnection (clientOf pf p) w log = (Returned st, log')
             /\ Client.apiKeyConfigured st = truthy (credentialOf p w)
             /\ (Client.connected st = true ->
                 Client.error st = None
                 /\ truthy (credentialOf p w) = true
                 /\ exists sent, log' = log ++ [sent])
             /\ (Client.connected st = false ->
                 exists message, Client.error st = Some message)
             /\ (truthy (credentialOf p w) = false ->
                 st = {| Client.connected := false;
                         Client.apiKeyConfigured := false;
                         Client.error := Some (notConfiguredOf p) |}
                 /\ log' = log)).
  { destruct (client_testConnection_status pf p w log)
      as (st & log' & E & Hkey & Hup & Hdown & Hoff).
    exists st, log'. repeat (split; [assumption |]).
    intros Hno. destruct (Hoff Hno) as [_ ->]. split; [| reflexivity].
    revert E. clear - Hno. destruct p; simpl in *.
    - unfold HuggingFaceService.testConnection. io_run. rewrite Hno.
      intros E. now injection E as <-.
    - unfold OpenAIService.testConnection. io_run. rewrite Hno.
      intros E. now injection E as <-.
    - unfold GoogleAIService.testConnection, GoogleAIService.unconfigured. io_run.
      rewrite Hno. intros E. now injection E as <-. }
  destruct p; cbn [Loading.imports Loading.importedClientOf]; try exact Hmethod.
  cbn [Client.testConnection]. unfold Loading.viaImport, Loading.openai.
  destruct (OpenAIService.OPENAI_API_KEY w) as [key |] eqn:Hkey; [| reflexivity].
  exact Hmethod.
Qed.

(** X27.  On the two clients the service is built with,
    [getBestProvider] of [aiService.ts] never throws and never recommends
    a provider whose credential is missing; with neither credential set it
    recommends none and sends nothing. *)
Theorem getBestProvider_recommends_configured
        (pf : Platform) (w : World) (log : list request) :
  exists best log',
    FallbackAIServiceRest.getBestProvider (hfService pf) googleAIService w log
    = (Returned best, log')
    /\ (forall p, best = Some p ->
                  truthy (credentialOf (FallbackAIService.nameOf p) w) = true)
    /\ (truthy (credentialOf HuggingFace w) = false ->
        truthy (credentialOf Google w) = false ->
        best = None /\ log' = log).
Proof.
  unfold FallbackAIServiceRest.getBestProvider, FallbackAIServiceRest.testAllProviders,
    promiseAll2.
  unfold bind.
  destruct (client_testConnection_status pf HuggingFace w log)
    as (hfStatus & log1 & E1 & _ & Hup1 & _ & Hoff1).
  change (clientOf pf HuggingFace) with (hfService pf) in E1. rewrite E1.
  destruct (client_testConnection_status pf Google w log1)
    as (googleStatus & log2 & E2 & _ & Hup2 & _ & Hoff2).
  change (clientOf pf Google) with googleAIService in E2. rewrite E2.
  unfold ret. do 2 eexists. split; [reflexivity |]. cbn. split.
  - intros p Hp.
    destruct (Client.connected googleStatus) eqn:Hg.
    + injection Hp as <-. now apply Hup2.
    + destruct (Client.connected hfStatus) eqn:Hh; [| discriminate].
      injection Hp as <-. now apply Hup1.
  - intros Hnohf Hnogoogle.
    destruct (Hoff1 Hnohf) as [Hh ->]. destruct (Hoff2 Hnogoogle) as [Hg ->].
    rewrite Hg, Hh. auto.
Qed.

(* ================================================================= *)
(** ** Tag suggestion with reasoning *)

Section Reasoning.
Import GoogleReasoning.

Lemma slicedTags_entries (v : option json) (sliced : json) :
  slicedTags v = Returned sliced ->
  exists n, entries sliced = Some n /\ (n <= 3)%nat.
Proof.
  destruct v as [[| b | q | s | items | fields] |]; unfold slicedTags;
    try discriminate.
  - intros H. injection H as <-. exists 0%nat. auto.
  - generalize (firstn_le_length 3 s). generalize (firstn 3 s) as cut.
    intros [| c rest] Hlen H; injection H as <-; cbn [entries];
      eexists; (split; [reflexivity | simpl in *; lia]).
  - intros H. injection H as <-.
    exists (length (firstn 3 items)). split; [reflexivity | apply firstn_le_length].
  - intros H. injection H as <-. exists 0%nat. auto.
Qed.

Lemma structured_entries (parsed : json) (r : TagSuggestionResult) :
  structured parsed = Returned r ->
  exists n, entries (suggestedTags r) = Some n /\ (n <= 3)%nat.
Proof.
  unfold structured.
  destruct (OpenAIService.readField parsed (js "suggestedTags")) as [tagsField | e];
    unfold Pure.bind; [| discriminate].
  destruct (slicedTags tagsField) as [sliced | e] eqn:Hsliced; [| discriminate].
  destruct (OpenAIService.readField parsed (js "reasoning")) as [reasoningField | e];
    [| discriminate].
  intros H. injection H as <-. cbn [suggestedTags].
  eapply slicedTags_entries; eassumption.
Qed.

Lemma tagMatches_bounds (pf : Platform) (text : jsstring) (availableTags : list jsstring) :
  atMostThreeFrom availableTags (tagMatches pf text availableTags)
  /\ forall tag, In tag (tagMatches pf text availableTags) ->
                 includes (toLowerCase pf text) (toLowerCase pf tag) = true.
Proof.
  unfold tagMatches. repeat split.
  - apply firstn_le_length.
  - intros x H. apply In_firstn in H. now apply filter_In in H.
  - intros x H. apply In_firstn in H. now apply filter_In in H.
Qed.

Lemma google_reasoning_returns (pf : Platform) (itemContent : jsstring)
      (availableTags : list jsstring) (w : World) (log : list request) :
  let sent := log ++ [GoogleGenerateContent (GoogleAIService.GOOGLE_MODEL w) None
                        (reasoningPrompt itemContent availableTags)] in
  exists r log',
    suggestTagsWithReasoning pf itemContent availableTags w log = (Returned r, log')
    /\ (log' = log \/ log' = sent)
    /\ (exists n, entries (suggestedTags r) = Some n /\ (n <= 3)%nat)
    /\ (GoogleAIService.unconfigured w = true ->
        log' = log
        /\ r = {| suggestedTags := JArray [];
                  reasoning := JString (js "Error: GOOGLE_API_KEY not configured") |})
    /\ (forall text cause,
          GoogleAIService.unconfigured w = false ->
          generateContent w sent = Returned text ->
          JSON_parse pf text = Thrown cause ->
          suggestedTags r = JArray (map JString (tagMatches pf text availableTags))).
Proof.
  intros sent. unfold suggestTagsWithReasoning. io_run.
  destruct (GoogleAIService.unconfigured w); cbv beta.
  - do 2 eexists. split; [reflexivity |].
    split; [now left | split; [exists 0%nat; auto | split; [auto | discriminate]]].
  - fold sent.
    destruct (generateContent w sent) as [text | e]; cbv beta.
    + destruct (JSON_parse pf text) as [parsed | e] eqn:Hparse; unfold Pure.bind.
      * destruct (structured parsed) as [r | e] eqn:Hr.
        -- do 2 eexists. split; [reflexivity |].
           split; [now right | split; [| split; [discriminate |]]].
           ++ eapply structured_entries; eassumption.
           ++ intros text0 cause _ Htext Hcause. injection Htext as <-. congruence.
        -- do 2 eexists. split; [reflexivity |].
           split; [now right | split; [| split; [discriminate |]]].
           ++ cbn [suggestedTags entries]. rewrite length_map.
              eexists. split; [reflexivity |].
              apply (proj1 (tagMatches_bounds pf text availableTags)).
           ++ intros text0 cause _ Htext Hcause. injection Htext as <-. congruence.
      * do 2 eexists. split; [reflexivity |].
        split; [now right | split; [| split; [discriminate |]]].
        -- cbn [suggestedTags entries]. rewrite length_map.
           eexists. split; [reflexivity |].
           apply (proj1 (tagMatches_bounds pf text availableTags)).
        -- intros text0 cause _ Htext _. injection Htext as <-. reflexivity.
    + do 2 eexists. split; [reflexivity |].
      split; [now right | split; [exists 0%nat; auto | split; [discriminate |]]].
      intros text0 cause _ Htext. discriminate.
Qed.
End Reasoning.

(** X28.  [suggestTagsWithReasoning] of the Google client never throws and
    sends at most one request.  Its [suggestedTags] is always an array of
    at most three entries or a string of at most three code units; without
    a credential it is empty, nothing is sent and the reasoning is the
    error.  When the answer of the model is a JSON object whose
    [suggestedTags] is an array, the tags are the first three entries of
    that array, in or out of the vocabulary.  When the answer is not JSON,
    the tags are the first three tags of the vocabulary, in its order,
    whose lowercased name occurs in the lowercased answer. *)
Theorem google_reasoning_outcomes
        (pf : Platform) (itemContent : jsstring) (availableTags : list jsstring)
        (w : World) (log : list request) :
  let sent := log ++ [GoogleGenerateContent (GoogleAIService.GOOGLE_MODEL w) None
                        (GoogleReasoning.reasoningPrompt itemContent availableTags)] in
  exists r log',
    GoogleReasoning.suggestTagsWithReasoning pf itemContent availableTags w log
    = (Returned r, log')
    /\ (log' = log \/ log' = sent)
    /\ (exists n, GoogleReasoning.entries (GoogleReasoning.suggestedTags r) = Some n
                  /\ (n <= 3)%nat)
    /\ (GoogleAIService.unconfigured w = true ->
        log' = log
        /\ r = {| GoogleReasoning.suggestedTags := JArray [];
                  GoogleReasoning.reasoning :=
                    JString (js "Error: GOOGLE_API_KEY not configured") |})
    /\ (forall text fields answered,
          GoogleAIService.unconfigured w = false ->
          generateContent w sent = Returned text ->
          JSON_parse pf text = Returned (JObject fields) ->
          ownProperty fields (js "suggestedTags") = Some (JArray answered) ->
          log' = sent
          /\ GoogleReasoning.suggestedTags r = JArray (firstn 3 answered))
    /\ (forall text cause,
          GoogleAIService.unconfigured w = false ->
          generateContent w sent = Returned text ->
          JSON_parse pf text = Thrown cause ->
          log' = sent
          /\ r = {| GoogleReasoning.suggestedTags :=
                      JArray
                        (map JString
                           (firstn 3
                              (filter (fun tag => includes (toLowerCase pf text)
                                                           (toLowerCase pf tag))
                                      availableTags)));
                    GoogleReasoning.reasoning :=
                      JString (js "Failed to parse structured response, extracted tags from text")
                 |}).
Proof.
  intros sent.
  destruct (google_reasoning_returns pf itemContent availableTags w log)
    as (r & log' & E & Hlog & Hn & Hoff & _).
  exists r, log'. repeat (split; [assumption |]).
  split.
  - intros text fields answered Hon Htext Hparse Htags. revert E.
    subst sent. unfold GoogleReasoning.suggestTagsWithReasoning. io_run.
    rewrite Hon. cbv beta. rewrite Htext. cbv beta. rewrite Hparse.
    unfold Pure.bind, GoogleReasoning.structured, OpenAIService.readField, Pure.bind.
    rewrite Htags. cbn [GoogleReasoning.slicedTags].
    intros E. injection E as <- <-. split; reflexivity.
  - intros text cause Hon Htext Hparse. revert E.
    subst sent. unfold GoogleReasoning.suggestTagsWithReasoning. io_run.
    rewrite Hon. cbv beta. rewrite Htext. cbv beta. rewrite Hparse.
    unfold Pure.bind. intros E. injection E as <- <-. split; reflexivity.
Qed.

(** An answer that is JSON is taken at its word: a tag outside the
    vocabulary is returned as it stands. *)
Example google_reasoning_unchecked :
  let pf := {| toLowerCase := toLowerCaseLatin1;
               JSON_parse := fun _ =>
                 Returned (JObject [(js "suggestedTags", JArray [JString (js "holiday")]);
                                    (js "reasoning", JNumber 0)]) |} in
  fst (GoogleReasoning.suggestTagsWithReasoning pf (js "quarterly report") [js "work"]
         (Examples.googleAnswering (js "{...}")) [])
  = Returned {| GoogleReasoning.suggestedTags := JArray [JString (js "holiday")];
                GoogleReasoning.reasoning := JString (js "No reasoning provided") |}.
Proof. reflexivity. Qed.

(** X29.  On the two clients the service is built with,
    [suggestTagsWithReasoning] of [aiService.ts] never throws and needs no
    second call of [suggestTags]: it returns a result whose
    [suggestedTags] has at most three entries. *)
Theorem unified_reasoning_returns
        (pf : Platform) (defaultProvider : FallbackAIService.AIProvider)
        (itemContent : jsstring) (availableTags : list jsstring)
        (w : World) (log : list request) :
  exists r log',
    (exists n, GoogleReasoning.entries (GoogleReasoning.suggestedTags r) = Some n
               /\ (n <= 3)%nat)
    /\ forall fuel,
         GoogleReasoning.unifiedSuggestTagsWithReasoning
           (hfService pf) googleAIService
           (GoogleReasoning.suggestTagsWithReasoning pf)
           (S fuel) defaultProvider itemContent availableTags w log
         = (Returned (Some r), log').
Proof.
  unfold GoogleReasoning.unifiedSuggestTagsWithReasoning.
  unfold tryCatch at 1. unfold bind at 1.
  destruct (client_testConnection_returns pf Google w log) as (st & log1 & E).
  change (clientOf pf Google) with googleAIService in E. rewrite E.
  destruct (Client.connected st).
  - destruct (google_reasoning_returns pf itemContent availableTags w log1)
      as (r & log2 & Er & _ & Hn & _).
    exists r, log2. split; [exact Hn |]. intros fuel.
    unfold bind. rewrite Er. reflexivity.
  - destruct (suggestTags_first_call pf defaultProvider
                (Some FallbackAIService.huggingface) itemContent availableTags w log1)
      as (tags & log2 & Hlen & Etags).
    eexists. exists log2. split; [| intros fuel; unfold bind; rewrite Etags; reflexivity].
    cbn [GoogleReasoning.suggestedTags GoogleReasoning.entries]. rewrite length_map.
    eauto.
Qed.
